(** * Cozy Comfort backend: the inventory transfer engine

    A shallow embedding of the service layer of the Cozy Comfort API
    ([app/services/manufacturer_service.py], [distributor_service.py],
    [seller_service.py]), of the models they store ([app/models]) and of
    the customer-purchase endpoint ([app/controllers/seller_controller.py]).

    Conventions of the embedding.
    - A table is the list of its rows in insertion order; [Query.first]
      returns the first row that satisfies the filter.
    - An ORM object obtained with [.first()] is the row it was loaded
      from: assigning one of its attributes rewrites that row in the
      session ([update_first] with the filter of the query).
    - A [Session] holds the committed database and the session's view of
      it, with the changes that were made and not yet committed.
      [db.commit()] makes the view the committed database; closing the
      session ([get_db]) drops what was not committed.
    - Python integers are [Z]; the range of the SQL INTEGER columns is not
      modelled.  [Float] columns and Python floats are binary64 values.
    - Server side timestamps ([order_date], [purchase_date], [created_at],
      [updated_at]) and the credentials of a user are left out. *)

From Stdlib Require Import ZArith List String Bool Lia.
From Stdlib Require Import Floats.
Import ListNotations.

Open Scope string_scope.
Open Scope Z_scope.

(** ** Tables and queries *)

Module Query.
Section Rows.
Context {A : Type}.

(** [query.filter(p).first()] *)
Definition first (p : A -> bool) (rows : list A) : option A := find p rows.

(** Attribute assignment on the object returned by [filter(p).first()]. *)
Fixpoint update_first (p : A -> bool) (f : A -> A) (rows : list A) : list A :=
  match rows with
  | [] => []
  | r :: rest => if p r then f r :: rest else r :: update_first p f rest
  end.

(** [db.add(row)] followed by the flush of the commit. *)
Definition add (row : A) (rows : list A) : list A := rows ++ [row].

(** The next value of an AUTO_INCREMENT primary key. *)
Definition next_id (id : A -> Z) (rows : list A) : Z :=
  1 + fold_right (fun r m => Z.max (id r) m) 0 rows.

(** [query.filter(p).all()] *)
Definition all (p : A -> bool) (rows : list A) : list A := filter p rows.

(** [db.delete(obj)] on the object returned by [filter(p).first()]. *)
Fixpoint remove_first (p : A -> bool) (rows : list A) : list A :=
  match rows with
  | [] => []
  | r :: rest => if p r then rest else r :: remove_first p rest
  end.
End Rows.
End Query.

(** ** Models ([app/models]) *)

Inductive AvailabilityStatus : Type := IN_STOCK | OUT_OF_STOCK.

Definition AvailabilityStatus_eqb (a b : AvailabilityStatus) : bool :=
  match a, b with
  | IN_STOCK, IN_STOCK | OUT_OF_STOCK, OUT_OF_STOCK => true
  | _, _ => false
  end.

Module User.
Record t : Type := mk { id : Z; username : string; role : string }.
End User.

Module Blanket.
Record t : Type := mk {
  id : Z;
  model_name : string;
  material : string;
  stock : Z;
  production_capacity : Z;
  image_url : option string }.
Definition with_stock (v : Z) (b : t) : t :=
  mk (id b) (model_name b) (material b) v (production_capacity b) (image_url b).
Definition with_model_name (v : string) (b : t) : t :=
  mk (id b) v (material b) (stock b) (production_capacity b) (image_url b).
Definition with_material (v : string) (b : t) : t :=
  mk (id b) (model_name b) v (stock b) (production_capacity b) (image_url b).
Definition with_production_capacity (v : Z) (b : t) : t :=
  mk (id b) (model_name b) (material b) (stock b) v (image_url b).
Definition with_image_url (v : option string) (b : t) : t :=
  mk (id b) (model_name b) (material b) (stock b) (production_capacity b) v.
End Blanket.

Module DistributorOrder.
Record t : Type := mk { id : Z; distributor_id : Z; blanket_id : Z; quantity : Z }.
End DistributorOrder.

Module DistributorStock.
Record t : Type := mk { id : Z; distributor_name : string; blanket_id : Z; quantity : Z }.
Definition with_quantity (v : Z) (r : t) : t :=
  mk (id r) (distributor_name r) (blanket_id r) v.
End DistributorStock.

Module SellerInventory.
Record t : Type := mk { id : Z; seller_name : string; blanket_id : Z; quantity : Z }.
Definition with_quantity (v : Z) (r : t) : t :=
  mk (id r) (seller_name r) (blanket_id r) v.
End SellerInventory.

Module CustomerOrder.
Record t : Type := mk {
  id : Z;
  customer_name : string;
  seller_name : string;
  blanket_id : Z;
  quantity : Z;
  status : string;
  total_value : option float }.
Definition with_status (v : string) (o : t) : t :=
  mk (id o) (customer_name o) (seller_name o) (blanket_id o) (quantity o) v (total_value o).
End CustomerOrder.

Module SellerOrder.
Record t : Type := mk {
  id : Z; seller_id : Z; distributor_id : Z; blanket_id : Z; quantity : Z }.
End SellerOrder.

Module ProductForSale.
Record t : Type := mk {
  id : Z;
  seller_id : Z;
  blanket_id : Z;
  price : float;
  quantity : Z;
  availability : AvailabilityStatus }.
Definition with_price (v : float) (p : t) : t :=
  mk (id p) (seller_id p) (blanket_id p) v (quantity p) (availability p).
Definition with_quantity (v : Z) (p : t) : t :=
  mk (id p) (seller_id p) (blanket_id p) (price p) v (availability p).
Definition with_availability (v : AvailabilityStatus) (p : t) : t :=
  mk (id p) (seller_id p) (blanket_id p) (price p) (quantity p) v.
End ProductForSale.

(** ** The database: one list of rows per [__tablename__] *)

Record Database : Type := mkDatabase {
  users : list User.t;
  blankets : list Blanket.t;
  distributor_orders : list DistributorOrder.t;
  distributor_stock : list DistributorStock.t;
  seller_inventory : list SellerInventory.t;
  customer_orders : list CustomerOrder.t;
  seller_orders : list SellerOrder.t;
  products_for_sale : list ProductForSale.t }.

Definition set_blankets (f : list Blanket.t -> list Blanket.t) (d : Database) : Database :=
  mkDatabase (users d) (f (blankets d)) (distributor_orders d) (distributor_stock d)
    (seller_inventory d) (customer_orders d) (seller_orders d) (products_for_sale d).

Definition set_distributor_orders
    (f : list DistributorOrder.t -> list DistributorOrder.t) (d : Database) : Database :=
  mkDatabase (users d) (blankets d) (f (distributor_orders d)) (distributor_stock d)
    (seller_inventory d) (customer_orders d) (seller_orders d) (products_for_sale d).

Definition set_distributor_stock
    (f : list DistributorStock.t -> list DistributorStock.t) (d : Database) : Database :=
  mkDatabase (users d) (blankets d) (distributor_orders d) (f (distributor_stock d))
    (seller_inventory d) (customer_orders d) (seller_orders d) (products_for_sale d).

Definition set_seller_inventory
    (f : list SellerInventory.t -> list SellerInventory.t) (d : Database) : Database :=
  mkDatabase (users d) (blankets d) (distributor_orders d) (distributor_stock d)
    (f (seller_inventory d)) (customer_orders d) (seller_orders d) (products_for_sale d).

Definition set_customer_orders
    (f : list CustomerOrder.t -> list CustomerOrder.t) (d : Database) : Database :=
  mkDatabase (users d) (blankets d) (distributor_orders d) (distributor_stock d)
    (seller_inventory d) (f (customer_orders d)) (seller_orders d) (products_for_sale d).

Definition set_seller_orders
    (f : list SellerOrder.t -> list SellerOrder.t) (d : Database) : Database :=
  mkDatabase (users d) (blankets d) (distributor_orders d) (distributor_stock d)
    (seller_inventory d) (customer_orders d) (f (seller_orders d)) (products_for_sale d).

Definition set_products_for_sale
    (f : list ProductForSale.t -> list ProductForSale.t) (d : Database) : Database :=
  mkDatabase (users d) (blankets d) (distributor_orders d) (distributor_stock d)
    (seller_inventory d) (customer_orders d) (seller_orders d) (f (products_for_sale d)).

(** ** Exceptions

    The services raise [ValueError] with a formatted message, and the
    availability checks return one; a message is kept as a constructor
    that carries the values the f-string prints. *)

Inductive Message : Type :=
  | Blanket_not_found
  | Insufficient_manufacturer_stock (available requested : Z)
  | Seller_not_found (seller_name : string)
  | Distributor_not_found (distributor_name : string)
  | No_stock_found_for_distributor (distributor_name : string) (blanket_id : Z)
  | Insufficient_distributor_stock (available requested : Z)
  | No_inventory_found_for_seller (seller_name : string) (blanket_id : Z)
  | Insufficient_seller_inventory (available requested : Z)
  | Total_value_mismatch (expected provided : float)
  | No_inventory_found_for_blanket (blanket_id : Z)
  | Product_already_exists (blanket_id : Z)
  | Product_not_found
  | No_product_for_sale_found (blanket_id : Z)
  | Not_available_for_sale (blanket_id : Z) (seller_name : string)
  | Product_currently_out_of_stock
  | Insufficient_quantity_available (available requested : Z)
  | Internal_server_error
  | Stock_available
  | Insufficient_stock (available required : Z)
  | No_stock_found_for_this_distributor_and_blanket
  | Inventory_available
  | Insufficient_inventory (available required : Z)
  | No_inventory_found_for_this_seller_and_blanket.

Inductive Exception : Type :=
  | ValueError (msg : Message)
  | HTTPException (status_code : Z) (detail : Message)
  | InvalidRequestError.

Inductive Result (A : Type) : Type :=
  | Ok (a : A)
  | Raise (e : Exception).
Arguments Ok {A} a.
Arguments Raise {A} e.

(** ** Sessions ([app/core/database.py]) *)

Record Session : Type := mkSession {
  committed : Database;   (* what a new session would read *)
  pending : Database      (* what this session reads: its changes included *)
}.

(** [SessionLocal()] *)
Definition SessionLocal (d : Database) : Session := mkSession d d.

(** A service call: it runs in a session, returns or raises, and leaves
    the session as it is at that point. *)
Definition M (A : Type) : Type := Session -> Result A * Session.

Definition ret {A} (a : A) : M A := fun s => (Ok a, s).

Definition bind {A B} (m : M A) (k : A -> M B) : M B :=
  fun s => match m s with
           | (Ok a, s') => k a s'
           | (Raise e, s') => (Raise e, s')
           end.

Definition raise {A} (e : Exception) : M A := fun s => (Raise e, s).

Declare Scope session_scope.
Delimit Scope session_scope with session.
Notation "x <- m ;; k" := (bind m (fun x => k))
  (at level 61, m at next level, right associativity) : session_scope.
Notation "m ;; k" := (bind m (fun _ => k))
  (at level 61, right associativity) : session_scope.
Open Scope session_scope.

(** [db.query(...)]: reads the session's view. *)
Definition query {A} (q : Database -> A) : M A := fun s => (Ok (q (pending s)), s).

(** Attribute assignment, [db.add]: changes the session's view only. *)
Definition mutate (f : Database -> Database) : M unit :=
  fun s => (Ok tt, mkSession (committed s) (f (pending s))).

(** [db.commit()] *)
Definition commit : M unit := fun s => (Ok tt, mkSession (pending s) (pending s)).

(** [db.refresh(obj)]: reads the row again; SQLAlchemy raises
    [InvalidRequestError] when the row is gone. *)
Definition refresh {A} (q : Database -> option A) : M A :=
  row <- query q ;;
  match row with
  | Some r => ret r
  | None => raise InvalidRequestError
  end.

(** [try: m  except ValueError: pass] *)
Definition try_except_ValueError (m : M unit) : M unit :=
  fun s => match m s with
           | (Raise (ValueError _), s') => (Ok tt, s')
           | other => other
           end.

(** [get_db]: a request gets a fresh session, which is closed when the
    request ends; only what was committed remains. *)
Definition get_db {A} (endpoint : M A) (d : Database) : Result A * Database :=
  let (r, s) := endpoint (SessionLocal d) in (r, committed s).

(** ** Filters of the queries *)

(** [db.query(User).filter(User.username == name).first()] *)
Definition user_by_username (name : string) (d : Database) : option User.t :=
  Query.first (fun u => String.eqb (User.username u) name) (users d).

Definition is_blanket (blanket_id : Z) (b : Blanket.t) : bool :=
  Blanket.id b =? blanket_id.

(** [db.query(Blanket).filter(Blanket.id == blanket_id).first()] *)
Definition blanket_by_id (blanket_id : Z) (d : Database) : option Blanket.t :=
  Query.first (is_blanket blanket_id) (blankets d).

Definition is_distributor_stock (distributor_name : string) (blanket_id : Z)
    (r : DistributorStock.t) : bool :=
  String.eqb (DistributorStock.distributor_name r) distributor_name
  && (DistributorStock.blanket_id r =? blanket_id).

(** [db.query(DistributorStock).filter(DistributorStock.distributor_name ==
    distributor_name, DistributorStock.blanket_id == blanket_id).first()] *)
Definition distributor_stock_of (distributor_name : string) (blanket_id : Z)
    (d : Database) : option DistributorStock.t :=
  Query.first (is_distributor_stock distributor_name blanket_id) (distributor_stock d).

Definition is_seller_inventory (seller_name : string) (blanket_id : Z)
    (r : SellerInventory.t) : bool :=
  String.eqb (SellerInventory.seller_name r) seller_name
  && (SellerInventory.blanket_id r =? blanket_id).

(** [db.query(SellerInventory).filter(SellerInventory.seller_name ==
    seller_name, SellerInventory.blanket_id == blanket_id).first()] *)
Definition seller_inventory_of (seller_name : string) (blanket_id : Z)
    (d : Database) : option SellerInventory.t :=
  Query.first (is_seller_inventory seller_name blanket_id) (seller_inventory d).

Definition is_product_for_sale (seller_id blanket_id : Z) (p : ProductForSale.t) : bool :=
  (ProductForSale.seller_id p =? seller_id) && (ProductForSale.blanket_id p =? blanket_id).

(** [db.query(ProductForSale).filter(ProductForSale.seller_id == seller_id,
    ProductForSale.blanket_id == blanket_id).first()] *)
Definition product_for_sale_of (seller_id blanket_id : Z) (d : Database)
    : option ProductForSale.t :=
  Query.first (is_product_for_sale seller_id blanket_id) (products_for_sale d).

Definition customer_order_by_id (order_id : Z) (d : Database) : option CustomerOrder.t :=
  Query.first (fun o => CustomerOrder.id o =? order_id) (customer_orders d).

Definition distributor_order_by_id (order_id : Z) (d : Database)
    : option DistributorOrder.t :=
  Query.first (fun o => DistributorOrder.id o =? order_id) (distributor_orders d).

Definition seller_order_by_id (order_id : Z) (d : Database) : option SellerOrder.t :=
  Query.first (fun o => SellerOrder.id o =? order_id) (seller_orders d).

(** The [user] relationship of an order: the user its foreign key names. *)
Definition user_by_id (user_id : Z) (d : Database) : option User.t :=
  Query.first (fun u => User.id u =? user_id) (users d).

Definition is_customer_order (order_id : Z) (o : CustomerOrder.t) : bool :=
  CustomerOrder.id o =? order_id.

(** Schemas of the manufacturer ([app/schemas/manufacturer_schema.py]). *)
Module BlanketCreate.
Record t : Type := mk {
  model_name : string; material : string; stock : Z; production_capacity : Z }.
End BlanketCreate.

Module BlanketUpdate.
Record t : Type := mk {
  model_name : option string;
  material : option string;
  stock : option Z;
  production_capacity : option Z }.
End BlanketUpdate.

Module ProductionCapacityUpdate.
Record t : Type := mk { production_capacity : Z }.
End ProductionCapacityUpdate.

(** The dictionary the three availability checks return. *)
Record StockAvailability : Type := mkStockAvailability {
  available : bool;
  current_stock : Z;
  message : Message }.

(** ** Manufacturer service ([app/services/manufacturer_service.py]) *)

Module manufacturer_service.

(** [update_blanket_stock] returns the blanket, or [None] when there is none. *)
Definition update_blanket_stock (blanket_id quantity : Z) : M (option Blanket.t) :=
  blanket <- query (blanket_by_id blanket_id) ;;
  match blanket with
  | None => ret None
  | Some _ =>
      mutate (set_blankets
                (Query.update_first (is_blanket blanket_id) (Blanket.with_stock quantity))) ;;
      commit ;;
      blanket <- refresh (blanket_by_id blanket_id) ;;
      ret (Some blanket)
  end.

(** The dictionary [process_distributor_order] returns. *)
Record DistributorOrderResult : Type := mkDistributorOrderResult {
  manufacturer_remaining_stock : Z;
  distributor_stock : Z;
  processed_quantity : Z;
  order_id : Z }.

Definition process_distributor_order (blanket_id quantity : Z)
    (distributor_name : string) (user : User.t) : M DistributorOrderResult :=
  (* Check manufacturer stock *)
  blanket <- query (blanket_by_id blanket_id) ;;
  match blanket with
  | None => raise (ValueError Blanket_not_found)
  | Some blanket =>
      if Blanket.stock blanket <? quantity then
        raise (ValueError (Insufficient_manufacturer_stock (Blanket.stock blanket) quantity))
      else
        (* Decrease manufacturer stock *)
        mutate (set_blankets
                  (Query.update_first (is_blanket blanket_id)
                     (fun b => Blanket.with_stock (Blanket.stock b - quantity) b))) ;;
        (* Check if distributor already has stock for this blanket *)
        distributor_stock <- query (distributor_stock_of distributor_name blanket_id) ;;
        match distributor_stock with
        | Some _ =>
            (* Add to existing stock *)
            mutate (set_distributor_stock
                      (Query.update_first (is_distributor_stock distributor_name blanket_id)
                         (fun r => DistributorStock.with_quantity
                                     (DistributorStock.quantity r + quantity) r)))
        | None =>
            (* Create new distributor stock entry *)
            mutate (set_distributor_stock
                      (fun rows => Query.add
                         (DistributorStock.mk (Query.next_id DistributorStock.id rows)
                            distributor_name blanket_id quantity) rows))
        end ;;
        (* Create distributor order record *)
        new_id <- query (fun d => Query.next_id DistributorOrder.id (distributor_orders d)) ;;
        mutate (set_distributor_orders
                  (Query.add (DistributorOrder.mk new_id (User.id user) blanket_id quantity))) ;;
        commit ;;
        blanket <- refresh (blanket_by_id blanket_id) ;;
        distributor_stock <- refresh (distributor_stock_of distributor_name blanket_id) ;;
        distributor_order <- refresh (distributor_order_by_id new_id) ;;
        ret (mkDistributorOrderResult
               (Blanket.stock blanket)
               (DistributorStock.quantity distributor_stock)
               quantity
               (DistributorOrder.id distributor_order))
  end.

Definition check_stock_availability (blanket_id required_quantity : Z)
    : M StockAvailability :=
  blanket <- query (blanket_by_id blanket_id) ;;
  match blanket with
  | None => ret (mkStockAvailability false 0 Blanket_not_found)
  | Some blanket =>
      if Blanket.stock blanket >=? required_quantity then
        ret (mkStockAvailability true (Blanket.stock blanket) Stock_available)
      else
        ret (mkStockAvailability false (Blanket.stock blanket)
               (Insufficient_stock (Blanket.stock blanket) required_quantity))
  end.

(** Create a new blanket *)
Definition create_blanket (data : BlanketCreate.t) (image_url : option string)
    : M Blanket.t :=
  new_id <- query (fun d => Query.next_id Blanket.id (blankets d)) ;;
  mutate (set_blankets
            (Query.add (Blanket.mk new_id (BlanketCreate.model_name data)
                          (BlanketCreate.material data) (BlanketCreate.stock data)
                          (BlanketCreate.production_capacity data) image_url))) ;;
  commit ;;
  refresh (blanket_by_id new_id).

(** Get all blankets: a dictionary per blanket, with the six columns. *)
Definition get_all_blankets : M (list Blanket.t) :=
  query (fun d => map (fun b => Blanket.mk (Blanket.id b) (Blanket.model_name b)
                                  (Blanket.material b) (Blanket.stock b)
                                  (Blanket.production_capacity b) (Blanket.image_url b))
                      (blankets d)).

(** Get a specific blanket by ID *)
Definition get_blanket_by_id (blanket_id : Z) : M (option Blanket.t) :=
  query (blanket_by_id blanket_id).

(** Get production capacity by blanket ID: [{"production_capacity": ...}] *)
Definition get_production_capacity (blanket_id : Z) : M Z :=
  blanket <- query (blanket_by_id blanket_id) ;;
  match blanket with
  | None => ret 0
  | Some blanket => ret (Blanket.production_capacity blanket)
  end.

(** Update production capacity by blanket ID *)
Definition update_production_capacity (blanket_id : Z) (data : ProductionCapacityUpdate.t)
    : M Z :=
  blanket <- query (blanket_by_id blanket_id) ;;
  match blanket with
  | None => ret 0
  | Some _ =>
      mutate (set_blankets
                (Query.update_first (is_blanket blanket_id)
                   (Blanket.with_production_capacity
                      (ProductionCapacityUpdate.production_capacity data)))) ;;
      commit ;;
      blanket <- refresh (blanket_by_id blanket_id) ;;
      ret (Blanket.production_capacity blanket)
  end.

(** A row of [get_all_distributor_orders]. *)
Module DistributorOrderOut.
Record t : Type := mk {
  id : Z;
  distributor_id : Z;
  distributor_name : option string;
  blanket_id : Z;
  blanket_name : option string;
  quantity : Z }.
End DistributorOrderOut.

(** Get all distributor orders, with the names of the user and of the
    blanket each one refers to. *)
Definition get_all_distributor_orders : M (list DistributorOrderOut.t) :=
  query (fun d =>
    map (fun order =>
           DistributorOrderOut.mk
             (DistributorOrder.id order)
             (DistributorOrder.distributor_id order)
             (option_map User.username
                (user_by_id (DistributorOrder.distributor_id order) d))
             (DistributorOrder.blanket_id order)
             (option_map Blanket.model_name
                (blanket_by_id (DistributorOrder.blanket_id order) d))
             (DistributorOrder.quantity order))
        (distributor_orders d)).

(** The dictionary [update_blanket] and [update_blanket_image] return. *)
Record BlanketUpdateResult : Type := mkBlanketUpdateResult {
  blanket : Blanket.t;
  old_image_url : option string }.

(** Update blanket image *)
Definition update_blanket_image (blanket_id : Z) (image_url : string)
    : M (option BlanketUpdateResult) :=
  blanket <- query (blanket_by_id blanket_id) ;;
  match blanket with
  | None => ret None
  | Some blanket =>
      let old_image_url := Blanket.image_url blanket in
      mutate (set_blankets
                (Query.update_first (is_blanket blanket_id)
                   (Blanket.with_image_url (Some image_url)))) ;;
      commit ;;
      blanket <- refresh (blanket_by_id blanket_id) ;;
      ret (Some (mkBlanketUpdateResult blanket old_image_url))
  end.

(** An assignment made only when the value is given. *)
Definition assign_if_given {V} (v : option V) (set : V -> Blanket.t -> Blanket.t)
    (blanket_id : Z) : M unit :=
  match v with
  | Some v => mutate (set_blankets (Query.update_first (is_blanket blanket_id) (set v)))
  | None => ret tt
  end.

(** Comprehensive update function for blankets *)
Definition update_blanket (blanket_id : Z) (update_data : option BlanketUpdate.t)
    (image_url : option string) : M (option BlanketUpdateResult) :=
  blanket <- query (blanket_by_id blanket_id) ;;
  match blanket with
  | None => ret None
  | Some blanket =>
      let old_image_url := Blanket.image_url blanket in
      (* Update fields if provided *)
      match update_data with
      | Some update_data =>
          assign_if_given (BlanketUpdate.model_name update_data)
            Blanket.with_model_name blanket_id ;;
          assign_if_given (BlanketUpdate.material update_data)
            Blanket.with_material blanket_id ;;
          assign_if_given (BlanketUpdate.stock update_data)
            Blanket.with_stock blanket_id ;;
          assign_if_given (BlanketUpdate.production_capacity update_data)
            Blanket.with_production_capacity blanket_id
      | None => ret tt
      end ;;
      (* Update image if provided *)
      assign_if_given (option_map Some image_url) Blanket.with_image_url blanket_id ;;
      commit ;;
      blanket <- refresh (blanket_by_id blanket_id) ;;
      ret (Some (mkBlanketUpdateResult blanket old_image_url))
  end.

End manufacturer_service.

(** ** Schemas ([app/schemas]) *)

Module StockRequest.
Record t : Type := mk { seller_name : string; blanket_id : Z; quantity : Z }.
End StockRequest.

Module ProductForSaleCreate.
Record t : Type := mk {
  blanket_id : Z;
  price : float;
  availability : option AvailabilityStatus   (* defaults to [Some IN_STOCK] *) }.
End ProductForSaleCreate.

Module ProductForSaleUpdate.
Record t : Type := mk { price : option float; availability : option AvailabilityStatus }.
End ProductForSaleUpdate.

Module DistributorStockCreate.
Record t : Type := mk { blanket_id : Z; quantity : Z }.
End DistributorStockCreate.

Module DistributorOrderCreate.
Record t : Type := mk { blanket_id : Z; quantity : Z }.
End DistributorOrderCreate.

Module CustomerOrderCreate.
Record t : Type := mk {
  customer_name : string; seller_name : string; blanket_id : Z; quantity : Z }.
End CustomerOrderCreate.

Module PurchaseFromDistributor.
Record t : Type := mk {
  seller_name : string; distributor_name : string; blanket_id : Z; quantity : Z }.
End PurchaseFromDistributor.

Module PurchaseFromManufacturer.
Record t : Type := mk { blanket_id : Z; quantity : Z }.
End PurchaseFromManufacturer.

Module SaleToSeller.
Record t : Type := mk { seller_name : string; blanket_id : Z; quantity : Z }.
End SaleToSeller.

Module CustomerPurchase.
Record t : Type := mk {
  customer_name : string;
  seller_name : string;
  blanket_id : Z;
  quantity : Z;
  total_value : option float }.
End CustomerPurchase.

(** Python's [float(n)] for an integer [n]: the nearest binary64 value
    (the [OverflowError] of integers beyond the binary64 range is not
    modelled; a quantity is compared with an SQL integer before it is
    multiplied). *)
Definition float_of_Z (n : Z) : float := SF2Prim (binary_normalize prec emax n 0 false).

(** The tolerance [0.01] of the total value check, as the binary64 value
    Python reads it. *)
Definition tolerance : float := 0x1.47ae147ae147bp-7%float.

(** ** Seller service ([app/services/seller_service.py]) *)

Module seller_service.

Definition sync_product_quantity_with_inventory (seller_username : string)
    (blanket_id : Z) : M ProductForSale.t :=
  (* Get seller ID *)
  seller <- query (user_by_username seller_username) ;;
  match seller with
  | None => raise (ValueError (Seller_not_found seller_username))
  | Some seller =>
      (* Get seller inventory *)
      seller_inventory <- query (seller_inventory_of seller_username blanket_id) ;;
      match seller_inventory with
      | None => raise (ValueError (No_inventory_found_for_blanket blanket_id))
      | Some seller_inventory =>
          (* Get product for sale *)
          product <- query (product_for_sale_of (User.id seller) blanket_id) ;;
          match product with
          | None => raise (ValueError (No_product_for_sale_found blanket_id))
          | Some product =>
              let this := is_product_for_sale (User.id seller) blanket_id in
              (* Update quantity *)
              mutate (set_products_for_sale
                        (Query.update_first this
                           (ProductForSale.with_quantity
                              (SellerInventory.quantity seller_inventory)))) ;;
              (* Update availability based on quantity *)
              (if SellerInventory.quantity seller_inventory =? 0 then
                 mutate (set_products_for_sale
                           (Query.update_first this
                              (ProductForSale.with_availability OUT_OF_STOCK)))
               else if AvailabilityStatus_eqb (ProductForSale.availability product)
                                              OUT_OF_STOCK
                       && (SellerInventory.quantity seller_inventory >? 0) then
                 mutate (set_products_for_sale
                           (Query.update_first this
                              (ProductForSale.with_availability IN_STOCK)))
               else ret tt) ;;
              commit ;;
              refresh (product_for_sale_of (User.id seller) blanket_id)
          end
      end
  end.

(** Request stock from distributor (simulated by adding to seller inventory) *)
Definition request_stock_from_distributor (data : StockRequest.t) : M SellerInventory.t :=
  let seller_name := StockRequest.seller_name data in
  let blanket_id := StockRequest.blanket_id data in
  stock <- query (seller_inventory_of seller_name blanket_id) ;;
  match stock with
  | Some _ =>
      mutate (set_seller_inventory
                (Query.update_first (is_seller_inventory seller_name blanket_id)
                   (fun r => SellerInventory.with_quantity
                               (SellerInventory.quantity r + StockRequest.quantity data) r)))
  | None =>
      mutate (set_seller_inventory
                (fun rows => Query.add
                   (SellerInventory.mk (Query.next_id SellerInventory.id rows)
                      seller_name blanket_id (StockRequest.quantity data)) rows))
  end ;;
  commit ;;
  stock <- refresh (seller_inventory_of seller_name blanket_id) ;;
  (* Sync product for sale quantity if it exists *)
  try_except_ValueError
    (_ <- sync_product_quantity_with_inventory seller_name blanket_id ;; ret tt) ;;
  ret stock.

(** The dictionary [process_customer_order] returns. *)
Record CustomerOrderResult : Type := mkCustomerOrderResult {
  seller_remaining_inventory : Z;
  customer_order : CustomerOrder.t;
  processed_quantity : Z }.

(** [abs(provided_total_value - calculated_total_value) > 0.01] *)
Definition total_value_mismatch (provided calculated : float) : bool :=
  PrimFloat.ltb tolerance (PrimFloat.abs (PrimFloat.sub provided calculated)).

Definition process_customer_order (blanket_id quantity : Z)
    (seller_name customer_name : string) (current_user : option User.t)
    (provided_total_value : option float) : M CustomerOrderResult :=
  (* Check seller inventory *)
  seller_inventory <- query (seller_inventory_of seller_name blanket_id) ;;
  match seller_inventory with
  | None => raise (ValueError (No_inventory_found_for_seller seller_name blanket_id))
  | Some seller_inventory =>
      if SellerInventory.quantity seller_inventory <? quantity then
        raise (ValueError (Insufficient_seller_inventory
                             (SellerInventory.quantity seller_inventory) quantity))
      else
        (* Decrease seller inventory *)
        mutate (set_seller_inventory
                  (Query.update_first (is_seller_inventory seller_name blanket_id)
                     (fun r => SellerInventory.with_quantity
                                 (SellerInventory.quantity r - quantity) r))) ;;
        (* Determine order status based on user role *)
        let status :=
          match current_user with
          | Some u => if String.eqb (User.role u) "seller" then "completed" else "pending"
          | None => "pending"
          end in
        (* Get product price for this blanket and seller *)
        seller_id <- query (fun d => option_map User.id (user_by_username seller_name d)) ;;
        product <- query (fun d => match seller_id with
                                   | Some i => product_for_sale_of i blanket_id d
                                   | None => None
                                   end) ;;
        (* Calculate total value *)
        let calculated_total_value :=
          option_map (fun p => PrimFloat.mul (ProductForSale.price p) (float_of_Z quantity))
                     product in
        (* Validate provided total value if given *)
        match provided_total_value, calculated_total_value with
        | Some provided, Some calculated =>
            if total_value_mismatch provided calculated then
              raise (ValueError (Total_value_mismatch calculated provided))
            else ret tt
        | _, _ => ret tt
        end ;;
        (* Create customer order *)
        new_id <- query (fun d => Query.next_id CustomerOrder.id (customer_orders d)) ;;
        mutate (set_customer_orders
                  (Query.add (CustomerOrder.mk new_id customer_name seller_name blanket_id
                                quantity status calculated_total_value))) ;;
        commit ;;
        seller_inventory <- refresh (seller_inventory_of seller_name blanket_id) ;;
        customer_order <- refresh (customer_order_by_id new_id) ;;
        (* Sync product for sale quantity if it exists *)
        try_except_ValueError
          (_ <- sync_product_quantity_with_inventory seller_name blanket_id ;; ret tt) ;;
        ret (mkCustomerOrderResult
               (SellerInventory.quantity seller_inventory) customer_order quantity)
  end.

Definition check_seller_inventory_availability (seller_name : string)
    (blanket_id required_quantity : Z) : M StockAvailability :=
  seller_inventory <- query (seller_inventory_of seller_name blanket_id) ;;
  match seller_inventory with
  | None => ret (mkStockAvailability false 0 No_inventory_found_for_this_seller_and_blanket)
  | Some seller_inventory =>
      if SellerInventory.quantity seller_inventory >=? required_quantity then
        ret (mkStockAvailability true (SellerInventory.quantity seller_inventory)
               Inventory_available)
      else
        ret (mkStockAvailability false (SellerInventory.quantity seller_inventory)
               (Insufficient_inventory (SellerInventory.quantity seller_inventory)
                  required_quantity))
  end.

Definition create_product_for_sale (seller_username : string)
    (data : ProductForSaleCreate.t) : M ProductForSale.t :=
  let blanket_id := ProductForSaleCreate.blanket_id data in
  (* Get seller ID *)
  seller <- query (user_by_username seller_username) ;;
  match seller with
  | None => raise (ValueError (Seller_not_found seller_username))
  | Some seller =>
      (* Check if seller has inventory for this blanket *)
      seller_inventory <- query (seller_inventory_of seller_username blanket_id) ;;
      match seller_inventory with
      | None => raise (ValueError (No_inventory_found_for_blanket blanket_id))
      | Some seller_inventory =>
          (* Check if product already exists *)
          existing_product <- query (product_for_sale_of (User.id seller) blanket_id) ;;
          match existing_product with
          | Some _ => raise (ValueError (Product_already_exists blanket_id))
          | None =>
              (* Determine availability based on quantity *)
              let availability :=
                if SellerInventory.quantity seller_inventory >? 0
                then IN_STOCK else OUT_OF_STOCK in
              (* Create product for sale *)
              new_id <- query (fun d => Query.next_id ProductForSale.id (products_for_sale d)) ;;
              mutate (set_products_for_sale
                        (Query.add (ProductForSale.mk new_id (User.id seller) blanket_id
                                      (ProductForSaleCreate.price data)
                                      (SellerInventory.quantity seller_inventory)
                                      availability))) ;;
              commit ;;
              refresh (fun d => Query.first (fun p => ProductForSale.id p =? new_id)
                                  (products_for_sale d))
          end
      end
  end.

Definition update_product_for_sale (seller_username : string) (product_id : Z)
    (data : ProductForSaleUpdate.t) : M ProductForSale.t :=
  seller <- query (user_by_username seller_username) ;;
  match seller with
  | None => raise (ValueError (Seller_not_found seller_username))
  | Some seller =>
      let this p := (ProductForSale.id p =? product_id)
                    && (ProductForSale.seller_id p =? User.id seller) in
      product <- query (fun d => Query.first this (products_for_sale d)) ;;
      match product with
      | None => raise (ValueError Product_not_found)
      | Some _ =>
          match ProductForSaleUpdate.price data with
          | Some v => mutate (set_products_for_sale
                                (Query.update_first this (ProductForSale.with_price v)))
          | None => ret tt
          end ;;
          match ProductForSaleUpdate.availability data with
          | Some v => mutate (set_products_for_sale
                                (Query.update_first this (ProductForSale.with_availability v)))
          | None => ret tt
          end ;;
          commit ;;
          refresh (fun d => Query.first this (products_for_sale d))
      end
  end.

Definition get_product_for_sale_by_seller_and_blanket (seller_name : string)
    (blanket_id : Z) : M (option ProductForSale.t) :=
  seller <- query (user_by_username seller_name) ;;
  match seller with
  | None => ret None
  | Some seller => query (product_for_sale_of (User.id seller) blanket_id)
  end.

(** Place a customer order: the order is recorded, the inventory is not
    read. *)
Definition place_customer_order (data : CustomerOrderCreate.t)
    (current_user : option User.t) : M CustomerOrder.t :=
  (* Determine status based on who is placing the order *)
  let status :=
    match current_user with
    | Some u => if String.eqb (User.role u) "seller" then "completed" else "pending"
    | None => "pending"
    end in
  new_id <- query (fun d => Query.next_id CustomerOrder.id (customer_orders d)) ;;
  mutate (set_customer_orders
            (Query.add (CustomerOrder.mk new_id (CustomerOrderCreate.customer_name data)
                          (CustomerOrderCreate.seller_name data)
                          (CustomerOrderCreate.blanket_id data)
                          (CustomerOrderCreate.quantity data) status None))) ;;
  commit ;;
  refresh (customer_order_by_id new_id).

(** Get status of a customer order *)
Definition get_order_status (order_id : Z) : M (option CustomerOrder.t) :=
  query (customer_order_by_id order_id).

(** Update status of a customer order *)
Definition update_order_status (order_id : Z) (status : string)
    : M (option CustomerOrder.t) :=
  order <- query (customer_order_by_id order_id) ;;
  match order with
  | None => ret None
  | Some _ =>
      mutate (set_customer_orders
                (Query.update_first (is_customer_order order_id)
                   (CustomerOrder.with_status status))) ;;
      commit ;;
      order <- refresh (customer_order_by_id order_id) ;;
      ret (Some order)
  end.

(** Get seller inventory by seller name and blanket ID *)
Definition get_seller_inventory_by_blanket (seller_name : string) (blanket_id : Z)
    : M (option SellerInventory.t) :=
  query (seller_inventory_of seller_name blanket_id).

(** Get seller orders by seller ID *)
Definition get_seller_orders (seller_id : Z) : M (list SellerOrder.t) :=
  query (fun d => Query.all (fun o => SellerOrder.seller_id o =? seller_id)
                    (seller_orders d)).

(** Get seller orders by seller name *)
Definition get_seller_orders_by_name (seller_name : string) : M (list SellerOrder.t) :=
  seller <- query (user_by_username seller_name) ;;
  match seller with
  | None => ret []
  | Some seller =>
      query (fun d => Query.all (fun o => SellerOrder.seller_id o =? User.id seller)
                        (seller_orders d))
  end.

(** A row of [get_seller_orders_by_distributor]. *)
Module SellerOrderOut.
Record t : Type := mk {
  id : Z;
  seller_id : Z;
  seller_name : option string;
  distributor_id : Z;
  blanket_id : Z;
  blanket_name : option string;
  quantity : Z }.
End SellerOrderOut.

(** Get seller orders by distributor name *)
Definition get_seller_orders_by_distributor (distributor_name : string)
    : M (list SellerOrderOut.t) :=
  distributor <- query (user_by_username distributor_name) ;;
  match distributor with
  | None => ret []
  | Some distributor =>
      query (fun d =>
        map (fun order =>
               SellerOrderOut.mk (SellerOrder.id order) (SellerOrder.seller_id order)
                 (option_map User.username (user_by_id (SellerOrder.seller_id order) d))
                 (SellerOrder.distributor_id order) (SellerOrder.blanket_id order)
                 (option_map Blanket.model_name
                    (blanket_by_id (SellerOrder.blanket_id order) d))
                 (SellerOrder.quantity order))
            (Query.all (fun o => SellerOrder.distributor_id o =? User.id distributor)
               (seller_orders d)))
  end.

(** Get all orders placed by a specific customer *)
Definition get_customer_orders_by_customer (customer_name : string)
    : M (list CustomerOrder.t) :=
  query (fun d => Query.all (fun o => String.eqb (CustomerOrder.customer_name o)
                                        customer_name)
                    (customer_orders d)).

(** Get a specific product for sale by ID *)
Definition get_product_for_sale_by_id (product_id : Z) : M (option ProductForSale.t) :=
  query (fun d => Query.first (fun p => ProductForSale.id p =? product_id)
                    (products_for_sale d)).

(** Delete a product for sale *)
Definition delete_product_for_sale (seller_username : string) (product_id : Z) : M unit :=
  (* Get seller ID *)
  seller <- query (user_by_username seller_username) ;;
  match seller with
  | None => raise (ValueError (Seller_not_found seller_username))
  | Some seller =>
      let this p := (ProductForSale.id p =? product_id)
                    && (ProductForSale.seller_id p =? User.id seller) in
      (* Get product *)
      product <- query (fun d => Query.first this (products_for_sale d)) ;;
      match product with
      | None => raise (ValueError Product_not_found)
      | Some _ =>
          mutate (set_products_for_sale (Query.remove_first this)) ;;
          commit
      end
  end.

End seller_service.

(** ** Distributor service ([app/services/distributor_service.py]) *)

Module distributor_service.

(** Update distributor stock (create or modify) *)
Definition update_distributor_stock (data : DistributorStockCreate.t) (user : User.t)
    : M DistributorStock.t :=
  let blanket_id := DistributorStockCreate.blanket_id data in
  stock <- query (distributor_stock_of (User.username user) blanket_id) ;;
  match stock with
  | Some _ =>
      mutate (set_distributor_stock
                (Query.update_first (is_distributor_stock (User.username user) blanket_id)
                   (DistributorStock.with_quantity (DistributorStockCreate.quantity data))))
  | None =>
      mutate (set_distributor_stock
                (fun rows => Query.add
                   (DistributorStock.mk (Query.next_id DistributorStock.id rows)
                      (User.username user) blanket_id
                      (DistributorStockCreate.quantity data)) rows))
  end ;;
  commit ;;
  refresh (distributor_stock_of (User.username user) blanket_id).

(** The dictionary [process_seller_order] returns. *)
Record SellerOrderResult : Type := mkSellerOrderResult {
  distributor_remaining_stock : Z;
  seller_inventory : Z;
  processed_quantity : Z;
  seller_order_id : Z }.

Definition process_seller_order (blanket_id quantity : Z)
    (distributor_name seller_name : string) : M SellerOrderResult :=
  (* Get seller and distributor user IDs *)
  seller_user <- query (user_by_username seller_name) ;;
  distributor_user <- query (user_by_username distributor_name) ;;
  match seller_user, distributor_user with
  | None, _ => raise (ValueError (Seller_not_found seller_name))
  | Some _, None => raise (ValueError (Distributor_not_found distributor_name))
  | Some seller_user, Some distributor_user =>
      (* Check distributor stock *)
      distributor_stock <- query (distributor_stock_of distributor_name blanket_id) ;;
      match distributor_stock with
      | None =>
          raise (ValueError (No_stock_found_for_distributor distributor_name blanket_id))
      | Some distributor_stock =>
          if DistributorStock.quantity distributor_stock <? quantity then
            raise (ValueError (Insufficient_distributor_stock
                                 (DistributorStock.quantity distributor_stock) quantity))
          else
            (* Decrease distributor stock *)
            mutate (set_distributor_stock
                      (Query.update_first (is_distributor_stock distributor_name blanket_id)
                         (fun r => DistributorStock.with_quantity
                                     (DistributorStock.quantity r - quantity) r))) ;;
            (* Check if seller already has inventory for this blanket *)
            seller_inventory <- query (seller_inventory_of seller_name blanket_id) ;;
            match seller_inventory with
            | Some _ =>
                (* Add to existing inventory *)
                mutate (set_seller_inventory
                          (Query.update_first (is_seller_inventory seller_name blanket_id)
                             (fun r => SellerInventory.with_quantity
                                         (SellerInventory.quantity r + quantity) r)))
            | None =>
                (* Create new seller inventory entry *)
                mutate (set_seller_inventory
                          (fun rows => Query.add
                             (SellerInventory.mk (Query.next_id SellerInventory.id rows)
                                seller_name blanket_id quantity) rows))
            end ;;
            (* Create seller order record *)
            new_id <- query (fun d => Query.next_id SellerOrder.id (seller_orders d)) ;;
            mutate (set_seller_orders
                      (Query.add (SellerOrder.mk new_id (User.id seller_user)
                                    (User.id distributor_user) blanket_id quantity))) ;;
            commit ;;
            distributor_stock <- refresh (distributor_stock_of distributor_name blanket_id) ;;
            seller_inventory <- refresh (seller_inventory_of seller_name blanket_id) ;;
            seller_order <- refresh (seller_order_by_id new_id) ;;
            (* Sync product for sale quantity if it exists *)
            try_except_ValueError
              (_ <- seller_service.sync_product_quantity_with_inventory
                      seller_name blanket_id ;; ret tt) ;;
            ret (mkSellerOrderResult
                   (DistributorStock.quantity distributor_stock)
                   (SellerInventory.quantity seller_inventory)
                   quantity
                   (SellerOrder.id seller_order))
      end
  end.

Definition check_distributor_stock_availability (distributor_name : string)
    (blanket_id required_quantity : Z) : M StockAvailability :=
  distributor_stock <- query (distributor_stock_of distributor_name blanket_id) ;;
  match distributor_stock with
  | None =>
      ret (mkStockAvailability false 0 No_stock_found_for_this_distributor_and_blanket)
  | Some distributor_stock =>
      if DistributorStock.quantity distributor_stock >=? required_quantity then
        ret (mkStockAvailability true (DistributorStock.quantity distributor_stock)
               Stock_available)
      else
        ret (mkStockAvailability false (DistributorStock.quantity distributor_stock)
               (Insufficient_stock (DistributorStock.quantity distributor_stock)
                  required_quantity))
  end.

(** The dictionary of an order in [place_order] and [get_all_orders]. *)
Module DistributorOrderOut.
Record t : Type := mk {
  id : Z;
  distributor_id : Z;
  distributor_name : option string;
  blanket_id : Z;
  quantity : Z;
  blanket_model_name : option string }.
End DistributorOrderOut.

(** Convert to response format with names from relationships *)
Definition order_out (d : Database) (order : DistributorOrder.t) : DistributorOrderOut.t :=
  DistributorOrderOut.mk
    (DistributorOrder.id order)
    (DistributorOrder.distributor_id order)
    (option_map User.username (user_by_id (DistributorOrder.distributor_id order) d))
    (DistributorOrder.blanket_id order)
    (DistributorOrder.quantity order)
    (option_map Blanket.model_name (blanket_by_id (DistributorOrder.blanket_id order) d)).

(** Place a new order to the manufacturer: the order is recorded, no
    stock is read or written.  The order is loaded again with its
    relationships; the row is the one that was just refreshed. *)
Definition place_order (data : DistributorOrderCreate.t) (user : User.t)
    : M DistributorOrderOut.t :=
  new_id <- query (fun d => Query.next_id DistributorOrder.id (distributor_orders d)) ;;
  mutate (set_distributor_orders
            (Query.add (DistributorOrder.mk new_id (User.id user)
                          (DistributorOrderCreate.blanket_id data)
                          (DistributorOrderCreate.quantity data)))) ;;
  commit ;;
  order <- refresh (distributor_order_by_id new_id) ;;
  order <- refresh (distributor_order_by_id (DistributorOrder.id order)) ;;
  query (fun d => order_out d order).

(** Get all distributor orders, of one distributor when an id is given. *)
Definition get_all_orders (distributor_id : option Z) : M (list DistributorOrderOut.t) :=
  query (fun d =>
    map (order_out d)
        (match distributor_id with
         | Some i => Query.all (fun o => DistributorOrder.distributor_id o =? i)
                       (distributor_orders d)
         | None => distributor_orders d
         end)).

(** The dictionary of a stock record in [get_distributor_stock]. *)
Module DistributorStockOut.
Record t : Type := mk {
  id : Z;
  distributor_name : string;
  blanket_id : Z;
  blanket_name : option string;
  blanket_image_url : option string;
  quantity : Z }.
End DistributorStockOut.




End distributor_service.

(** ** Seller controller ([app/controllers/seller_controller.py]) *)

Module seller_controller.

Record StockOperationResponse : Type := mkStockOperationResponse {
  success : bool;
  remaining_stock : Z;
  processed_quantity : Z;
  total_value : option float }.

(** [except ValueError as e: raise HTTPException(400, str(e))] and
    [except Exception: raise HTTPException(500, ...)]; an [HTTPException]
    is raised again as it is. *)
Definition to_http {A} (m : M A) : M A :=
  fun s => match m s with
           | (Raise (ValueError msg), s') => (Raise (HTTPException 400 msg), s')
           | (Raise InvalidRequestError, s') =>
               (Raise (HTTPException 500 Internal_server_error), s')
           | other => other
           end.

(** Process customer purchase - only for products added to sale *)
Definition customer_purchase (data : CustomerPurchase.t) (user : User.t)
    : M StockOperationResponse :=
  let seller_name := CustomerPurchase.seller_name data in
  let blanket_id := CustomerPurchase.blanket_id data in
  let quantity := CustomerPurchase.quantity data in
  to_http (
    (* First check if the product is available for sale *)
    product_for_sale <-
      seller_service.get_product_for_sale_by_seller_and_blanket seller_name blanket_id ;;
    match product_for_sale with
    | None => raise (HTTPException 400 (Not_available_for_sale blanket_id seller_name))
    | Some product_for_sale =>
        (* Check if product is in stock *)
        if AvailabilityStatus_eqb (ProductForSale.availability product_for_sale) OUT_OF_STOCK
        then raise (HTTPException 400 Product_currently_out_of_stock)
        (* Check if requested quantity is available *)
        else if ProductForSale.quantity product_for_sale <? quantity
        then raise (HTTPException 400
                      (Insufficient_quantity_available
                         (ProductForSale.quantity product_for_sale) quantity))
        else
          result <- seller_service.process_customer_order blanket_id quantity seller_name
                      (CustomerPurchase.customer_name data) (Some user)
                      (CustomerPurchase.total_value data) ;;
          ret (mkStockOperationResponse true
                 (seller_service.seller_remaining_inventory result)
                 (seller_service.processed_quantity result)
                 (CustomerOrder.total_value (seller_service.customer_order result)))
    end).

(** The response of a purchase from a distributor: no total value. *)
Definition stock_response (remaining_stock processed_quantity : Z)
    : StockOperationResponse :=
  mkStockOperationResponse true remaining_stock processed_quantity None.

(** Purchase stock from distributor (dynamic stock transfer) *)
Definition purchase_from_distributor (data : PurchaseFromDistributor.t) (user : User.t)
    : M StockOperationResponse :=
  to_http (
    result <- distributor_service.process_seller_order
                (PurchaseFromDistributor.blanket_id data)
                (PurchaseFromDistributor.quantity data)
                (PurchaseFromDistributor.distributor_name data)
                (PurchaseFromDistributor.seller_name data) ;;
    ret (stock_response (distributor_service.seller_inventory result)
           (distributor_service.processed_quantity result))).

End seller_controller.

(** ** Distributor controller ([app/controllers/distributor_controller.py]) *)

Module distributor_controller.

Record StockOperationResponse : Type := mkStockOperationResponse {
  success : bool;
  remaining_stock : Z;
  processed_quantity : Z }.

(** Purchase stock from manufacturer: the authenticated user is the
    distributor. *)
Definition purchase_from_manufacturer (data : PurchaseFromManufacturer.t) (user : User.t)
    : M StockOperationResponse :=
  seller_controller.to_http (
    result <- manufacturer_service.process_distributor_order
                (PurchaseFromManufacturer.blanket_id data)
                (PurchaseFromManufacturer.quantity data) (User.username user) user ;;
    ret (mkStockOperationResponse true
           (manufacturer_service.distributor_stock result)
           (manufacturer_service.processed_quantity result))).

(** Sell stock to seller: the authenticated user is the distributor. *)
Definition sell_to_seller (data : SaleToSeller.t) (user : User.t)
    : M StockOperationResponse :=
  seller_controller.to_http (
    result <- distributor_service.process_seller_order
                (SaleToSeller.blanket_id data) (SaleToSeller.quantity data)
                (User.username user) (SaleToSeller.seller_name data) ;;
    ret (mkStockOperationResponse true
           (distributor_service.distributor_remaining_stock result)
           (distributor_service.processed_quantity result))).

(** Check stock availability, of the authenticated user. *)
Definition check_stock_availability (blanket_id required_quantity : Z) (user : User.t)
    : M StockAvailability :=
  distributor_service.check_distributor_stock_availability (User.username user)
    blanket_id required_quantity.

End distributor_controller.

(** ** Manufacturer controller ([app/controllers/manufacturer_controller.py]) *)

Module manufacturer_controller.

Record StockOperationResponse : Type := mkStockOperationResponse {
  success : bool;
  manufacturer_remaining_stock : Z;
  distributor_stock : Z;
  processed_quantity : Z }.

(** Process distributor order (dynamic stock transfer) *)
Definition sell_to_distributor (blanket_id quantity : Z) (distributor_name : string)
    (user : User.t) : M StockOperationResponse :=
  seller_controller.to_http (
    result <- manufacturer_service.process_distributor_order
                blanket_id quantity distributor_name user ;;
    ret (mkStockOperationResponse true
           (manufacturer_service.manufacturer_remaining_stock result)
           (manufacturer_service.distributor_stock result)
           (manufacturer_service.processed_quantity result))).

End manufacturer_controller.

(** ** Balances, operations and the scenario of the specification *)

(** The quantity on hand of each tier, [None] when there is no record. *)
Definition manufacturer_stock (blanket_id : Z) (d : Database) : option Z :=
  option_map Blanket.stock (blanket_by_id blanket_id d).

Definition distributor_quantity (distributor_name : string) (blanket_id : Z)
    (d : Database) : option Z :=
  option_map DistributorStock.quantity (distributor_stock_of distributor_name blanket_id d).

Definition seller_quantity (seller_name : string) (blanket_id : Z) (d : Database)
    : option Z :=
  option_map SellerInventory.quantity (seller_inventory_of seller_name blanket_id d).

(** A balance that has no record counts for zero. *)
Definition or_zero (q : option Z) : Z :=
  match q with Some v => v | None => 0 end.

(** Every stock and inventory quantity of the database is non-negative. *)
Definition nonneg_quantities (d : Database) : bool :=
  forallb (fun b => 0 <=? Blanket.stock b) (blankets d)
  && forallb (fun r => 0 <=? DistributorStock.quantity r) (distributor_stock d)
  && forallb (fun r => 0 <=? SellerInventory.quantity r) (seller_inventory d).

(** The calls of the engine that write a stock or inventory quantity. *)
Inductive Operation : Type :=
  | Process_distributor_order (blanket_id quantity : Z) (distributor_name : string)
      (user : User.t)
  | Process_seller_order (blanket_id quantity : Z) (distributor_name seller_name : string)
  | Process_customer_order (blanket_id quantity : Z) (seller_name customer_name : string)
      (current_user : option User.t) (provided_total_value : option float)
  | Update_blanket_stock (blanket_id quantity : Z)
  | Update_distributor_stock (data : DistributorStockCreate.t) (user : User.t)
  | Request_stock_from_distributor (data : StockRequest.t).

(** The quantity an operation is called with. *)
Definition requested_quantity (op : Operation) : Z :=
  match op with
  | Process_distributor_order _ q _ _ => q
  | Process_seller_order _ q _ _ => q
  | Process_customer_order _ q _ _ _ _ => q
  | Update_blanket_stock _ q => q
  | Update_distributor_stock data _ => DistributorStockCreate.quantity data
  | Request_stock_from_distributor data => StockRequest.quantity data
  end.

(** One operation in a session of its own, as a request runs it; what it
    returns or raises is dropped. *)
Definition run_operation (op : Operation) (d : Database) : Database :=
  match op with
  | Process_distributor_order b q dn u =>
      snd (get_db (manufacturer_service.process_distributor_order b q dn u) d)
  | Process_seller_order b q dn sn =>
      snd (get_db (distributor_service.process_seller_order b q dn sn) d)
  | Process_customer_order b q sn cn u t =>
      snd (get_db (seller_service.process_customer_order b q sn cn u t) d)
  | Update_blanket_stock b q =>
      snd (get_db (manufacturer_service.update_blanket_stock b q) d)
  | Update_distributor_stock data u =>
      snd (get_db (distributor_service.update_distributor_stock data u) d)
  | Request_stock_from_distributor data =>
      snd (get_db (seller_service.request_stock_from_distributor data) d)
  end.

Definition run_operations (ops : list Operation) (d : Database) : Database :=
  fold_left (fun d op => run_operation op d) ops d.

(** What a listing becomes when it is synchronised with an inventory
    quantity [q]: the two assignments of
    [sync_product_quantity_with_inventory] in one. *)
Definition synced_product (q : Z) (p : ProductForSale.t) : ProductForSale.t :=
  ProductForSale.mk (ProductForSale.id p) (ProductForSale.seller_id p)
    (ProductForSale.blanket_id p) (ProductForSale.price p) q
    (if q =? 0 then OUT_OF_STOCK
     else if AvailabilityStatus_eqb (ProductForSale.availability p) OUT_OF_STOCK && (q >? 0)
          then IN_STOCK
          else ProductForSale.availability p).

(** The database after the synchronisation that follows a transfer was
    tried: the listing of the pair follows the inventory when the seller,
    the inventory and the listing exist, and nothing changes otherwise. *)
Definition synced (seller_name : string) (blanket_id : Z) (d : Database) : Database :=
  match user_by_username seller_name d with
  | None => d
  | Some seller =>
      match seller_inventory_of seller_name blanket_id d,
            product_for_sale_of (User.id seller) blanket_id d with
      | Some inv, Some _ =>
          set_products_for_sale
            (Query.update_first (is_product_for_sale (User.id seller) blanket_id)
               (synced_product (SellerInventory.quantity inv))) d
      | _, _ => d
      end
  end.

(** The listing of a seller, found by name as the endpoints do. *)
Definition listing_of (seller_name : string) (blanket_id : Z) (d : Database)
    : option ProductForSale.t :=
  match user_by_username seller_name d with
  | None => None
  | Some seller => product_for_sale_of (User.id seller) blanket_id d
  end.

Module Scenario.

Definition D1 : User.t := User.mk 1 "D1" "distributor".
Definition S1 : User.t := User.mk 2 "S1" "seller".

(** The producer holds 100 units of P1; the lower tiers are empty. *)
Definition start : Database :=
  mkDatabase [D1; S1] [Blanket.mk 1 "P1" "wool" 100 0 None] [] [] [] [] [] [].

Definition to_D1_30 := get_db (manufacturer_service.process_distributor_order 1 30 "D1" D1) start.
Definition to_S1_50 := get_db (distributor_service.process_seller_order 1 50 "D1" "S1") (snd to_D1_30).
Definition to_S1_20 := get_db (distributor_service.process_seller_order 1 20 "D1" "S1") (snd to_S1_50).
Definition publish :=
  get_db (seller_service.create_product_for_sale "S1"
            (ProductForSaleCreate.mk 1 5%float (Some IN_STOCK))) (snd to_S1_20).
Definition purchase :=
  get_db (seller_controller.customer_purchase (CustomerPurchase.mk "C1" "S1" 1 20 None) S1)
    (snd publish).

End Scenario.

(** ** Units in the chain, keys of the records and calls of the services *)

(** The sum of a column over the rows a filter selects. *)
Definition sum_where {A} (p : A -> bool) (f : A -> Z) (rows : list A) : Z :=
  fold_right (fun r acc => if p r then f r + acc else acc) 0 rows.

(** All the units of a blanket that the manufacturer, the distributors and
    the sellers hold. *)
Definition total_units (blanket_id : Z) (d : Database) : Z :=
  sum_where (is_blanket blanket_id) Blanket.stock (blankets d)
  + sum_where (fun r => DistributorStock.blanket_id r =? blanket_id)
      DistributorStock.quantity (distributor_stock d)
  + sum_where (fun r => SellerInventory.blanket_id r =? blanket_id)
      SellerInventory.quantity (seller_inventory d).

(** The columns of the unique constraints [unique_distributor_blanket],
    [unique_seller_blanket] and [unique_seller_product]. *)
Definition distributor_keys (d : Database) : list (string * Z) :=
  map (fun r => (DistributorStock.distributor_name r, DistributorStock.blanket_id r))
      (distributor_stock d).

Definition seller_keys (d : Database) : list (string * Z) :=
  map (fun r => (SellerInventory.seller_name r, SellerInventory.blanket_id r))
      (seller_inventory d).

Definition listing_keys (d : Database) : list (Z * Z) :=
  map (fun p => (ProductForSale.seller_id p, ProductForSale.blanket_id p))
      (products_for_sale d).

(** No two records of a table share the columns of its unique constraint. *)
Definition unique_records (d : Database) : Prop :=
  NoDup (distributor_keys d) /\ NoDup (seller_keys d) /\ NoDup (listing_keys d).

(** The primary key of the users: no two users share an id. *)
Definition unique_user_ids (d : Database) : Prop := NoDup (map User.id (users d)).

(** Every listing holds the quantity of the inventory record of its seller
    and blanket: whenever the endpoints find a listing for a seller name
    and a blanket, the seller's inventory of that blanket exists with the
    quantity of the listing. *)
Definition listings_mirror_inventory (d : Database) : Prop :=
  forall sn b p,
    listing_of sn b d = Some p ->
    seller_quantity sn b d = Some (ProductForSale.quantity p).

(** The calls of the services that write to the database. *)
Inductive Call : Type :=
  | Stock_operation (op : Operation)
  | Customer_purchase (data : CustomerPurchase.t) (user : User.t)
  | Create_product_for_sale (seller_username : string) (data : ProductForSaleCreate.t)
  | Update_product_for_sale (seller_username : string) (product_id : Z)
      (data : ProductForSaleUpdate.t)
  | Delete_product_for_sale (seller_username : string) (product_id : Z)
  | Sync_product_quantity_with_inventory (seller_username : string) (blanket_id : Z)
  | Place_order (data : DistributorOrderCreate.t) (user : User.t)
  | Place_customer_order (data : CustomerOrderCreate.t) (current_user : option User.t)
  | Update_order_status (order_id : Z) (status : string)
  | Create_blanket (data : BlanketCreate.t) (image_url : option string)
  | Update_blanket (blanket_id : Z) (update_data : option BlanketUpdate.t)
      (image_url : option string)
  | Update_blanket_image (blanket_id : Z) (image_url : string)
  | Update_production_capacity (blanket_id : Z) (data : ProductionCapacityUpdate.t).

(** One call in a request of its own; what it returns or raises is
    dropped. *)
Definition run_call (c : Call) (d : Database) : Database :=
  match c with
  | Stock_operation op => run_operation op d
  | Customer_purchase data user =>
      snd (get_db (seller_controller.customer_purchase data user) d)
  | Create_product_for_sale sn data =>
      snd (get_db (seller_service.create_product_for_sale sn data) d)
  | Update_product_for_sale sn i data =>
      snd (get_db (seller_service.update_product_for_sale sn i data) d)
  | Delete_product_for_sale sn i =>
      snd (get_db (seller_service.delete_product_for_sale sn i) d)
  | Sync_product_quantity_with_inventory sn b =>
      snd (get_db (seller_service.sync_product_quantity_with_inventory sn b) d)
  | Place_order data user =>
      snd (get_db (distributor_service.place_order data user) d)
  | Place_customer_order data u =>
      snd (get_db (seller_service.place_customer_order data u) d)
  | Update_order_status i status =>
      snd (get_db (seller_service.update_order_status i status) d)
  | Create_blanket data image =>
      snd (get_db (manufacturer_service.create_blanket data image) d)
  | Update_blanket b data image =>
      snd (get_db (manufacturer_service.update_blanket b data image) d)
  | Update_blanket_image b image =>
      snd (get_db (manufacturer_service.update_blanket_image b image) d)
  | Update_production_capacity b data =>
      snd (get_db (manufacturer_service.update_production_capacity b data) d)
  end.

Definition run_calls (cs : list Call) (d : Database) : Database :=
  fold_left (fun d c => run_call c d) cs d.

(** The listing after the assignments of [update_product_for_sale]: the
    price and the availability that are given. *)
Definition updated_product (data : ProductForSaleUpdate.t) (p : ProductForSale.t)
    : ProductForSale.t :=
  let p := match ProductForSaleUpdate.price data with
           | Some v => ProductForSale.with_price v p
           | None => p
           end in
  match ProductForSaleUpdate.availability data with
  | Some v => ProductForSale.with_availability v p
  | None => p
  end.

(** The blanket after the assignments of [update_blanket]: the fields
    that are given. *)
Definition updated_blanket (update_data : option BlanketUpdate.t)
    (image_url : option string) (b : Blanket.t) : Blanket.t :=
  let given {V} (v : option V) (set : V -> Blanket.t -> Blanket.t) (b : Blanket.t) :=
    match v with Some v => set v b | None => b end in
  let b :=
    match update_data with
    | Some data =>
        given (BlanketUpdate.production_capacity data) Blanket.with_production_capacity
          (given (BlanketUpdate.stock data) Blanket.with_stock
             (given (BlanketUpdate.material data) Blanket.with_material
                (given (BlanketUpdate.model_name data) Blanket.with_model_name b)))
    | None => b
    end in
  given (option_map Some image_url) Blanket.with_image_url b.

(** ** What the transfers write

    The database a successful call commits, as a function of the database
    the session read.  The lemmas of the next part prove that the services
    compute these. *)

(** The credit of a distributor: the record is rewritten, or added when
    the distributor has none for the blanket. *)
Definition credit_distributor (distributor_name : string) (blanket_id quantity : Z)
    (d : Database) : Database :=
  match distributor_stock_of distributor_name blanket_id d with
  | Some _ =>
      set_distributor_stock
        (Query.update_first (is_distributor_stock distributor_name blanket_id)
           (fun r => DistributorStock.with_quantity (DistributorStock.quantity r + quantity) r))
        d
  | None =>
      set_distributor_stock
        (fun rows => Query.add
           (DistributorStock.mk (Query.next_id DistributorStock.id rows)
              distributor_name blanket_id quantity) rows)
        d
  end.

(** The credit of a seller, likewise. *)
Definition credit_seller (seller_name : string) (blanket_id quantity : Z)
    (d : Database) : Database :=
  match seller_inventory_of seller_name blanket_id d with
  | Some _ =>
      set_seller_inventory
        (Query.update_first (is_seller_inventory seller_name blanket_id)
           (fun r => SellerInventory.with_quantity (SellerInventory.quantity r + quantity) r))
        d
  | None =>
      set_seller_inventory
        (fun rows => Query.add
           (SellerInventory.mk (Query.next_id SellerInventory.id rows)
              seller_name blanket_id quantity) rows)
        d
  end.

(** The debit of the manufacturer, of a distributor and of a seller. *)
Definition debit_manufacturer (blanket_id quantity : Z) (d : Database) : Database :=
  set_blankets
    (Query.update_first (is_blanket blanket_id)
       (fun b => Blanket.with_stock (Blanket.stock b - quantity) b)) d.

Definition debit_distributor (distributor_name : string) (blanket_id quantity : Z)
    (d : Database) : Database :=
  set_distributor_stock
    (Query.update_first (is_distributor_stock distributor_name blanket_id)
       (fun r => DistributorStock.with_quantity (DistributorStock.quantity r - quantity) r)) d.

Definition debit_seller (seller_name : string) (blanket_id quantity : Z) (d : Database)
    : Database :=
  set_seller_inventory
    (Query.update_first (is_seller_inventory seller_name blanket_id)
       (fun r => SellerInventory.with_quantity (SellerInventory.quantity r - quantity) r)) d.

(** The write of [update_distributor_stock]: the record is set to the
    quantity, or added with it. *)
Definition put_distributor_stock (distributor_name : string) (blanket_id quantity : Z)
    (d : Database) : Database :=
  match distributor_stock_of distributor_name blanket_id d with
  | Some _ =>
      set_distributor_stock
        (Query.update_first (is_distributor_stock distributor_name blanket_id)
           (DistributorStock.with_quantity quantity)) d
  | None =>
      set_distributor_stock
        (fun rows => Query.add
           (DistributorStock.mk (Query.next_id DistributorStock.id rows)
              distributor_name blanket_id quantity) rows)
        d
  end.

(** What [process_distributor_order] commits. *)
Definition distributor_order_db (blanket_id quantity : Z) (distributor_name : string)
    (user : User.t) (d : Database) : Database :=
  set_distributor_orders
    (fun rows => Query.add (DistributorOrder.mk (Query.next_id DistributorOrder.id rows)
                              (User.id user) blanket_id quantity) rows)
    (credit_distributor distributor_name blanket_id quantity
       (debit_manufacturer blanket_id quantity d)).

(** What [process_seller_order] commits before it synchronises the listing. *)
Definition seller_order_db (blanket_id quantity : Z) (distributor_name seller_name : string)
    (seller_user distributor_user : User.t) (d : Database) : Database :=
  set_seller_orders
    (fun rows => Query.add (SellerOrder.mk (Query.next_id SellerOrder.id rows)
                              (User.id seller_user) (User.id distributor_user)
                              blanket_id quantity) rows)
    (credit_seller seller_name blanket_id quantity
       (debit_distributor distributor_name blanket_id quantity d)).

(** [status] of a customer order, from the role of who places it. *)
Definition order_status (current_user : option User.t) : string :=
  match current_user with
  | Some u => if String.eqb (User.role u) "seller" then "completed" else "pending"
  | None => "pending"
  end.

(** [calculated_total_value]: the price of the listing times the quantity,
    [None] when the seller has no listing of the blanket. *)
Definition calculated_total (blanket_id quantity : Z) (seller_name : string)
    (d : Database) : option float :=
  option_map (fun p => PrimFloat.mul (ProductForSale.price p) (float_of_Z quantity))
    (listing_of seller_name blanket_id d).

(** What [process_customer_order] commits before it synchronises the listing. *)
Definition customer_order_db (blanket_id quantity : Z) (seller_name customer_name : string)
    (current_user : option User.t) (d : Database) : Database :=
  set_customer_orders
    (fun rows => Query.add (CustomerOrder.mk (Query.next_id CustomerOrder.id rows)
                              customer_name seller_name blanket_id quantity
                              (order_status current_user)
                              (calculated_total blanket_id quantity seller_name d)) rows)
    (debit_seller seller_name blanket_id quantity d).

(** ** What a call may commit

    The writes of the services, one constructor per kind of write, and
    their sequences.  A write to a seller's inventory comes with the
    synchronisation of the listing that follows it.  [run_call_commits]
    proves that every call of the services commits such writes only. *)
Inductive commits : Database -> Database -> Prop :=
  | commits_nothing d : commits d d
  | commits_then d1 d2 d3 : commits d1 d2 -> commits d2 d3 -> commits d1 d3
  | commits_blankets f d : commits d (set_blankets f d)
  | commits_distributor_orders f d : commits d (set_distributor_orders f d)
  | commits_seller_orders f d : commits d (set_seller_orders f d)
  | commits_customer_orders f d : commits d (set_customer_orders f d)
  | commits_credit_distributor dn b q d : commits d (credit_distributor dn b q d)
  | commits_debit_distributor dn b q d : commits d (debit_distributor dn b q d)
  | commits_put_distributor_stock dn b q d : commits d (put_distributor_stock dn b q d)
  | commits_credit_seller sn b q d : commits d (synced sn b (credit_seller sn b q d))
  | commits_debit_seller sn b q d : commits d (synced sn b (debit_seller sn b q d))
  | commits_sync sn b d : commits d (synced sn b d)
  | commits_listing sn seller p d :
      user_by_username sn d = Some seller ->
      ProductForSale.seller_id p = User.id seller ->
      product_for_sale_of (User.id seller) (ProductForSale.blanket_id p) d = None ->
      seller_quantity sn (ProductForSale.blanket_id p) d = Some (ProductForSale.quantity p) ->
      commits d (set_products_for_sale (Query.add p) d)
  | commits_listing_update this f d :
      (forall x, ProductForSale.seller_id (f x) = ProductForSale.seller_id x
                 /\ ProductForSale.blanket_id (f x) = ProductForSale.blanket_id x
                 /\ ProductForSale.quantity (f x) = ProductForSale.quantity x) ->
      commits d (set_products_for_sale (Query.update_first this f) d)
  | commits_listing_delete this d :
      commits d (set_products_for_sale (Query.remove_first this) d).

(** * Facts about tables *)

(* Integer arithmetic stays folded when a goal is simplified. *)
#[local] Arguments Z.add _ _ : simpl never.
#[local] Arguments Z.sub _ _ : simpl never.
#[local] Arguments Z.max _ _ : simpl never.
#[local] Arguments Z.eqb _ _ : simpl never.
#[local] Arguments Z.ltb _ _ : simpl never.
#[local] Arguments Z.leb _ _ : simpl never.
#[local] Arguments Z.gtb _ _ : simpl never.
#[local] Arguments Z.geb _ _ : simpl never.
#[local] Arguments String.eqb _ _ : simpl never.

Section TableFacts.
Context {A : Type}.
Implicit Types (p q : A -> bool) (f : A -> A) (rows : list A).

Lemma first_sat p rows r : Query.first p rows = Some r -> p r = true.
Proof. unfold Query.first. intros H. now apply find_some in H. Qed.

Lemma first_update_first p f rows :
  (forall r, p r = true -> p (f r) = true) ->
  Query.first p (Query.update_first p f rows) = option_map f (Query.first p rows).
Proof.
  intros Hp. induction rows as [|r rest IH]; simpl; [reflexivity|].
  destruct (p r) eqn:E; simpl.
  - now rewrite (Hp r E).
  - now rewrite E.
Qed.

Lemma first_add p rows r :
  Query.first p (Query.add r rows) =
  match Query.first p rows with
  | Some x => Some x
  | None => if p r then Some r else None
  end.
Proof.
  unfold Query.add. induction rows as [|x rest IH]; simpl; [reflexivity|].
  now destruct (p x).
Qed.

Lemma update_first_twice p f g rows :
  (forall r, p r = true -> p (f r) = true) ->
  Query.update_first p g (Query.update_first p f rows)
  = Query.update_first p (fun r => g (f r)) rows.
Proof.
  intros Hp. induction rows as [|r rest IH]; simpl; [reflexivity|].
  destruct (p r) eqn:E; simpl.
  - now rewrite (Hp r E).
  - now rewrite E, IH.
Qed.

Lemma update_first_none p f rows :
  Query.first p rows = None -> Query.update_first p f rows = rows.
Proof.
  induction rows as [|r rest IH]; simpl; [reflexivity|].
  destruct (p r); [discriminate|]. intros H. now rewrite IH.
Qed.

Lemma length_update_first p f rows :
  List.length (Query.update_first p f rows) = List.length rows.
Proof.
  induction rows as [|r rest IH]; simpl; [reflexivity|].
  destruct (p r); simpl; congruence.
Qed.

Lemma length_add rows r : List.length (Query.add r rows) = S (List.length rows).
Proof. unfold Query.add. rewrite length_app. simpl. lia. Qed.

Lemma forallb_update_first (ok : A -> bool) p f rows :
  (forall r, p r = true -> ok r = true -> ok (f r) = true) ->
  forallb ok rows = true -> forallb ok (Query.update_first p f rows) = true.
Proof.
  intros Hf. induction rows as [|r rest IH]; simpl; [reflexivity|].
  intros H. apply andb_true_iff in H as [Hr Hrest].
  destruct (p r) eqn:E; simpl; apply andb_true_iff; auto.
Qed.

Lemma forallb_add (ok : A -> bool) rows r :
  ok r = true -> forallb ok rows = true -> forallb ok (Query.add r rows) = true.
Proof.
  intros Hr H. unfold Query.add. rewrite forallb_app, H. simpl. now rewrite Hr.
Qed.

Lemma forallb_first (ok : A -> bool) p rows r :
  forallb ok rows = true -> Query.first p rows = Some r -> ok r = true.
Proof.
  intros H Hf. apply find_some in Hf as [Hin _].
  rewrite forallb_forall in H. auto.
Qed.

Lemma next_id_above (id : A -> Z) rows r : In r rows -> id r < Query.next_id id rows.
Proof.
  unfold Query.next_id. induction rows as [|x rest IH]; simpl; [tauto|].
  intros [->|Hin]; [lia|]. specialize (IH Hin). lia.
Qed.

Lemma first_next_id (id : A -> Z) rows :
  Query.first (fun r => id r =? Query.next_id id rows) rows = None.
Proof.
  unfold Query.first. destruct (find _ rows) eqn:E; [|reflexivity].
  apply find_some in E as [Hin He]. apply Z.eqb_eq in He.
  pose proof (next_id_above id rows a Hin). lia.
Qed.

Lemma first_added (id : A -> Z) rows r :
  id r = Query.next_id id rows ->
  Query.first (fun x => id x =? Query.next_id id rows) (Query.add r rows) = Some r.
Proof.
  intros E. rewrite first_add, first_next_id, E, Z.eqb_refl. reflexivity.
Qed.
Lemma update_first_ext p f g rows r0 :
  Query.first p rows = Some r0 -> f r0 = g r0 ->
  Query.update_first p f rows = Query.update_first p g rows.
Proof.
  induction rows as [|r rest IH]; simpl; [reflexivity|].
  destruct (p r).
  - intros [= ->] ->. reflexivity.
  - intros H1 H2. now rewrite IH.
Qed.
Lemma forallb_update_first_at (ok : A -> bool) p f rows r0 :
  Query.first p rows = Some r0 -> ok (f r0) = true ->
  forallb ok rows = true -> forallb ok (Query.update_first p f rows) = true.
Proof.
  induction rows as [|r rest IH]; simpl; [reflexivity|].
  destruct (p r).
  - intros [= ->] Hf H. apply andb_true_iff in H as [_ Hrest].
    apply andb_true_iff; auto.
  - intros Hr Hf H. apply andb_true_iff in H as [Hok Hrest].
    apply andb_true_iff; auto.
Qed.
End TableFacts.

(** * Facts about sessions *)

Lemma bind_query {A B} (q : Database -> A) (k : A -> M B) s :
  (x <- query q ;; k x) s = k (q (pending s)) s.
Proof. reflexivity. Qed.

Lemma bind_mutate {B} (f : Database -> Database) (k : M B) s :
  (mutate f ;; k) s = k (mkSession (committed s) (f (pending s))).
Proof. reflexivity. Qed.

Lemma bind_commit {B} (k : M B) s :
  (commit ;; k) s = k (mkSession (pending s) (pending s)).
Proof. reflexivity. Qed.

Lemma bind_ret {A B} (a : A) (k : A -> M B) s : (x <- ret a ;; k x) s = k a s.
Proof. reflexivity. Qed.

Lemma bind_raise {A B} (e : Exception) (k : A -> M B) s :
  (x <- raise e ;; k x) s = (Raise e, s).
Proof. reflexivity. Qed.

Lemma bind_refresh {A B} (q : Database -> option A) (k : A -> M B) s r :
  q (pending s) = Some r -> (x <- refresh q ;; k x) s = k r s.
Proof. intros H. unfold refresh, bind, query. now rewrite H. Qed.

Lemma refresh_some {A} (q : Database -> option A) s r :
  q (pending s) = Some r -> refresh q s = (Ok r, s).
Proof. intros H. unfold refresh, bind, query. now rewrite H. Qed.

Lemma session_eta s : mkSession (committed s) (pending s) = s.
Proof. now destruct s. Qed.

Lemma bind_match_mutate {A B} (o : option A) (f g : Database -> Database) (k : M B) s :
  (match o with Some _ => mutate f | None => mutate g end ;; k) s
  = k (mkSession (committed s)
         (match o with Some _ => f (pending s) | None => g (pending s) end)).
Proof. destruct o; reflexivity. Qed.

(** * The manufacturer service *)

Lemma credit_distributor_eq dn b q d :
  credit_distributor dn b q d =
  set_distributor_stock
    (fun rows =>
       match Query.first (is_distributor_stock dn b) rows with
       | Some _ =>
           Query.update_first (is_distributor_stock dn b)
             (fun r => DistributorStock.with_quantity (DistributorStock.quantity r + q) r) rows
       | None =>
           Query.add (DistributorStock.mk (Query.next_id DistributorStock.id rows) dn b q) rows
       end) d.
Proof.
  unfold credit_distributor, distributor_stock_of, set_distributor_stock.
  now destruct (Query.first _ _).
Qed.

Lemma credit_seller_eq sn b q d :
  credit_seller sn b q d =
  set_seller_inventory
    (fun rows =>
       match Query.first (is_seller_inventory sn b) rows with
       | Some _ =>
           Query.update_first (is_seller_inventory sn b)
             (fun r => SellerInventory.with_quantity (SellerInventory.quantity r + q) r) rows
       | None =>
           Query.add (SellerInventory.mk (Query.next_id SellerInventory.id rows) sn b q) rows
       end) d.
Proof.
  unfold credit_seller, seller_inventory_of, set_seller_inventory.
  now destruct (Query.first _ _).
Qed.

Lemma blanket_by_id_debit b q d :
  blanket_by_id b (debit_manufacturer b q d)
  = option_map (fun x => Blanket.with_stock (Blanket.stock x - q) x) (blanket_by_id b d).
Proof.
  unfold blanket_by_id, debit_manufacturer. simpl.
  apply first_update_first. intros r Hr; exact Hr.
Qed.

Lemma distributor_stock_of_credit dn b q d :
  distributor_stock_of dn b (credit_distributor dn b q d)
  = Some (match distributor_stock_of dn b d with
          | Some r => DistributorStock.with_quantity (DistributorStock.quantity r + q) r
          | None => DistributorStock.mk (Query.next_id DistributorStock.id (distributor_stock d))
                      dn b q
          end).
Proof.
  unfold credit_distributor.
  destruct (distributor_stock_of dn b d) as [r|] eqn:E; unfold distributor_stock_of in *; simpl.
  - rewrite first_update_first by (intros x Hx; exact Hx). now rewrite E.
  - rewrite first_add, E. unfold is_distributor_stock. simpl.
    now rewrite String.eqb_refl, Z.eqb_refl.
Qed.

Lemma distributor_quantity_credit dn b q d :
  distributor_quantity dn b (credit_distributor dn b q d)
  = Some (or_zero (distributor_quantity dn b d) + q).
Proof.
  unfold distributor_quantity. rewrite distributor_stock_of_credit.
  destruct (distributor_stock_of dn b d); simpl; f_equal; lia.
Qed.

Lemma distributor_order_db_blanket b q dn u d :
  blanket_by_id b (distributor_order_db b q dn u d)
  = option_map (fun x => Blanket.with_stock (Blanket.stock x - q) x) (blanket_by_id b d).
Proof.
  unfold distributor_order_db. rewrite credit_distributor_eq.
  exact (blanket_by_id_debit b q d).
Qed.

Lemma distributor_order_db_quantity b q dn u d :
  distributor_quantity dn b (distributor_order_db b q dn u d)
  = Some (or_zero (distributor_quantity dn b d) + q).
Proof.
  unfold distributor_order_db.
  exact (distributor_quantity_credit dn b q (debit_manufacturer b q d)).
Qed.

Lemma distributor_order_db_orders b q dn u d :
  distributor_orders (distributor_order_db b q dn u d)
  = Query.add (DistributorOrder.mk (Query.next_id DistributorOrder.id (distributor_orders d))
                 (User.id u) b q) (distributor_orders d).
Proof. unfold distributor_order_db. now rewrite credit_distributor_eq. Qed.

Lemma process_distributor_order_spec b q dn u s :
  manufacturer_service.process_distributor_order b q dn u s =
  match blanket_by_id b (pending s) with
  | None => (Raise (ValueError Blanket_not_found), s)
  | Some blanket =>
      if Blanket.stock blanket <? q then
        (Raise (ValueError (Insufficient_manufacturer_stock (Blanket.stock blanket) q)), s)
      else
        let d := distributor_order_db b q dn u (pending s) in
        (Ok (manufacturer_service.mkDistributorOrderResult
               (Blanket.stock blanket - q)
               (or_zero (distributor_quantity dn b (pending s)) + q)
               q
               (Query.next_id DistributorOrder.id (distributor_orders (pending s)))),
         mkSession d d)
  end.
Proof.
  unfold manufacturer_service.process_distributor_order.
  rewrite bind_query.
  destruct (blanket_by_id b (pending s)) as [blanket|] eqn:Hb; [|reflexivity].
  destruct (Blanket.stock blanket <? q) eqn:Hq; [reflexivity|].
  rewrite bind_mutate, bind_query, bind_match_mutate, bind_query, bind_mutate, bind_commit.
  cbn [pending committed].
  fold (debit_manufacturer b q (pending s)).
  fold (credit_distributor dn b q (debit_manufacturer b q (pending s))).
  set (d2 := credit_distributor _ _ _ _).
  change (set_distributor_orders _ d2) with (distributor_order_db b q dn u (pending s)).
  assert (Ho : distributor_orders d2 = distributor_orders (pending s))
    by (unfold d2; now rewrite credit_distributor_eq).
  rewrite Ho. cbn zeta.
  pose proof (distributor_order_db_quantity b q dn u (pending s)) as Hd.
  unfold distributor_quantity at 1 in Hd.
  destruct (distributor_stock_of dn b (distributor_order_db b q dn u (pending s)))
    as [r|] eqn:Er; [|discriminate].
  erewrite bind_refresh
    by (cbn [pending]; rewrite distributor_order_db_blanket, Hb; reflexivity).
  erewrite bind_refresh by (cbn [pending]; exact Er).
  erewrite bind_refresh
    by (cbn [pending]; unfold distributor_order_by_id;
        rewrite distributor_order_db_orders; now apply first_added).
  unfold ret. cbn. injection Hd as ->. reflexivity.
Qed.

(** * The seller service *)

Lemma sync_product_quantity_with_inventory_spec sn b s :
  seller_service.sync_product_quantity_with_inventory sn b s =
  match user_by_username sn (pending s) with
  | None => (Raise (ValueError (Seller_not_found sn)), s)
  | Some seller =>
      match seller_inventory_of sn b (pending s) with
      | None => (Raise (ValueError (No_inventory_found_for_blanket b)), s)
      | Some inv =>
          match product_for_sale_of (User.id seller) b (pending s) with
          | None => (Raise (ValueError (No_product_for_sale_found b)), s)
          | Some p =>
              (Ok (synced_product (SellerInventory.quantity inv) p),
               mkSession (synced sn b (pending s)) (synced sn b (pending s)))
          end
      end
  end.
Proof.
  unfold seller_service.sync_product_quantity_with_inventory, synced.
  rewrite bind_query.
  destruct (user_by_username sn (pending s)) as [seller|]; [|reflexivity].
  rewrite bind_query.
  destruct (seller_inventory_of sn b (pending s)) as [inv|]; [|reflexivity].
  rewrite bind_query.
  destruct (product_for_sale_of (User.id seller) b (pending s)) as [p|] eqn:Ep;
    [|reflexivity].
  cbn zeta. rewrite bind_mutate.
  set (this := is_product_for_sale (User.id seller) b).
  assert (Hthis : forall g x, this x = true ->
                    this (ProductForSale.with_quantity g x) = true)
    by (intros g x Hx; exact Hx).
  assert (E : set_products_for_sale
                (Query.update_first this (synced_product (SellerInventory.quantity inv)))
                (pending s)
              = match (if SellerInventory.quantity inv =? 0 then Some OUT_OF_STOCK
                       else if AvailabilityStatus_eqb (ProductForSale.availability p)
                                 OUT_OF_STOCK && (SellerInventory.quantity inv >? 0)
                            then Some IN_STOCK else None) with
                | Some a =>
                    set_products_for_sale
                      (Query.update_first this (ProductForSale.with_availability a))
                      (set_products_for_sale
                         (Query.update_first this
                            (ProductForSale.with_quantity (SellerInventory.quantity inv)))
                         (pending s))
                | None =>
                    set_products_for_sale
                      (Query.update_first this
                         (ProductForSale.with_quantity (SellerInventory.quantity inv)))
                      (pending s)
                end).
  { unfold product_for_sale_of in Ep. fold this in Ep.
    unfold set_products_for_sale.
    destruct (SellerInventory.quantity inv =? 0) eqn:E0;
      [|destruct (AvailabilityStatus_eqb _ _ && _) eqn:E1]; cbn [products_for_sale users
        blankets distributor_orders distributor_stock seller_inventory customer_orders
        seller_orders]; f_equal;
      rewrite ?update_first_twice by (apply Hthis);
      apply (update_first_ext _ _ _ _ p Ep);
      unfold synced_product, ProductForSale.with_availability,
        ProductForSale.with_quantity; cbn; rewrite E0, ?E1; reflexivity. }
  revert E.
  destruct (SellerInventory.quantity inv =? 0);
    [|destruct (AvailabilityStatus_eqb _ _ && _)]; intros E;
    rewrite ?bind_mutate, ?bind_ret, bind_commit; cbn [pending committed];
    rewrite <- E; (rewrite refresh_some with (r := synced_product (SellerInventory.quantity inv) p);
      [reflexivity|]);
    cbn [pending]; unfold product_for_sale_of in *; cbn [products_for_sale set_products_for_sale];
    fold this in Ep |- *; (rewrite first_update_first by (intros x Hx; exact Hx));
    rewrite Ep; reflexivity.
Qed.

Lemma try_sync_spec sn b d :
  try_except_ValueError
    (_ <- seller_service.sync_product_quantity_with_inventory sn b ;; ret tt)
    (mkSession d d)
  = (Ok tt, mkSession (synced sn b d) (synced sn b d)).
Proof.
  unfold try_except_ValueError, bind.
  rewrite sync_product_quantity_with_inventory_spec. unfold synced. cbn [pending].
  destruct (user_by_username sn d); [|reflexivity].
  destruct (seller_inventory_of sn b d); [|reflexivity].
  destruct (product_for_sale_of _ b d); reflexivity.
Qed.

(** * The distributor service *)

Lemma distributor_stock_of_debit dn b q d :
  distributor_stock_of dn b (debit_distributor dn b q d)
  = option_map (fun r => DistributorStock.with_quantity (DistributorStock.quantity r - q) r)
      (distributor_stock_of dn b d).
Proof.
  unfold distributor_stock_of, debit_distributor. simpl.
  apply first_update_first. intros r Hr; exact Hr.
Qed.

Lemma seller_inventory_of_credit sn b q d :
  seller_inventory_of sn b (credit_seller sn b q d)
  = Some (match seller_inventory_of sn b d with
          | Some r => SellerInventory.with_quantity (SellerInventory.quantity r + q) r
          | None => SellerInventory.mk (Query.next_id SellerInventory.id (seller_inventory d))
                      sn b q
          end).
Proof.
  unfold credit_seller.
  destruct (seller_inventory_of sn b d) as [r|] eqn:E; unfold seller_inventory_of in *; simpl.
  - rewrite first_update_first by (intros x Hx; exact Hx). now rewrite E.
  - rewrite first_add, E. unfold is_seller_inventory. simpl.
    now rewrite String.eqb_refl, Z.eqb_refl.
Qed.

Lemma seller_quantity_credit sn b q d :
  seller_quantity sn b (credit_seller sn b q d)
  = Some (or_zero (seller_quantity sn b d) + q).
Proof.
  unfold seller_quantity. rewrite seller_inventory_of_credit.
  destruct (seller_inventory_of sn b d); simpl; f_equal; lia.
Qed.

Lemma seller_order_db_distributor b q dn sn su du d :
  distributor_stock_of dn b (seller_order_db b q dn sn su du d)
  = option_map (fun r => DistributorStock.with_quantity (DistributorStock.quantity r - q) r)
      (distributor_stock_of dn b d).
Proof.
  unfold seller_order_db. rewrite credit_seller_eq.
  exact (distributor_stock_of_debit dn b q d).
Qed.

Lemma seller_order_db_seller b q dn sn su du d :
  seller_quantity sn b (seller_order_db b q dn sn su du d)
  = Some (or_zero (seller_quantity sn b d) + q).
Proof.
  unfold seller_order_db.
  exact (seller_quantity_credit sn b q (debit_distributor dn b q d)).
Qed.

Lemma seller_order_db_orders b q dn sn su du d :
  seller_orders (seller_order_db b q dn sn su du d)
  = Query.add (SellerOrder.mk (Query.next_id SellerOrder.id (seller_orders d))
                 (User.id su) (User.id du) b q) (seller_orders d).
Proof. unfold seller_order_db. now rewrite credit_seller_eq. Qed.

Lemma process_seller_order_spec b q dn sn s :
  distributor_service.process_seller_order b q dn sn s =
  match user_by_username sn (pending s), user_by_username dn (pending s) with
  | None, _ => (Raise (ValueError (Seller_not_found sn)), s)
  | Some _, None => (Raise (ValueError (Distributor_not_found dn)), s)
  | Some su, Some du =>
      match distributor_stock_of dn b (pending s) with
      | None => (Raise (ValueError (No_stock_found_for_distributor dn b)), s)
      | Some r =>
          if DistributorStock.quantity r <? q then
            (Raise (ValueError (Insufficient_distributor_stock
                                  (DistributorStock.quantity r) q)), s)
          else
            let d := synced sn b (seller_order_db b q dn sn su du (pending s)) in
            (Ok (distributor_service.mkSellerOrderResult
                   (DistributorStock.quantity r - q)
                   (or_zero (seller_quantity sn b (pending s)) + q)
                   q
                   (Query.next_id SellerOrder.id (seller_orders (pending s)))),
             mkSession d d)
      end
  end.
Proof.
  unfold distributor_service.process_seller_order.
  rewrite !bind_query.
  destruct (user_by_username sn (pending s)) as [su|]; [|reflexivity].
  destruct (user_by_username dn (pending s)) as [du|]; [|reflexivity].
  rewrite bind_query.
  destruct (distributor_stock_of dn b (pending s)) as [r|] eqn:Hr; [|reflexivity].
  destruct (DistributorStock.quantity r <? q) eqn:Hq; [reflexivity|].
  rewrite bind_mutate, bind_query, bind_match_mutate, bind_query, bind_mutate, bind_commit.
  cbn [pending committed].
  fold (debit_distributor dn b q (pending s)).
  fold (credit_seller sn b q (debit_distributor dn b q (pending s))).
  set (d2 := credit_seller _ _ _ _).
  change (set_seller_orders _ d2) with (seller_order_db b q dn sn su du (pending s)).
  assert (Ho : seller_orders d2 = seller_orders (pending s))
    by (unfold d2; now rewrite credit_seller_eq).
  rewrite Ho. cbn zeta.
  pose proof (seller_order_db_seller b q dn sn su du (pending s)) as Hd.
  unfold seller_quantity at 1 in Hd.
  destruct (seller_inventory_of sn b (seller_order_db b q dn sn su du (pending s)))
    as [i|] eqn:Ei; [|discriminate].
  erewrite bind_refresh
    by (cbn [pending]; rewrite seller_order_db_distributor, Hr; reflexivity).
  erewrite bind_refresh by (cbn [pending]; exact Ei).
  erewrite bind_refresh
    by (cbn [pending]; unfold seller_order_by_id;
        rewrite seller_order_db_orders; now apply first_added).
  unfold bind at 1. rewrite try_sync_spec.
  unfold ret. cbn. injection Hd as ->. reflexivity.
Qed.

(** * The transfer to a customer *)

Lemma seller_inventory_of_debit sn b q d :
  seller_inventory_of sn b (debit_seller sn b q d)
  = option_map (fun r => SellerInventory.with_quantity (SellerInventory.quantity r - q) r)
      (seller_inventory_of sn b d).
Proof.
  unfold seller_inventory_of, debit_seller. simpl.
  apply first_update_first. intros r Hr; exact Hr.
Qed.

Lemma process_customer_order_spec b q sn cn u t s :
  seller_service.process_customer_order b q sn cn u t s =
  match seller_inventory_of sn b (pending s) with
  | None => (Raise (ValueError (No_inventory_found_for_seller sn b)), s)
  | Some inv =>
      if SellerInventory.quantity inv <? q then
        (Raise (ValueError (Insufficient_seller_inventory (SellerInventory.quantity inv) q)),
         s)
      else
        let total := calculated_total b q sn (pending s) in
        let d := synced sn b (customer_order_db b q sn cn u (pending s)) in
        let done :=
          (Ok (seller_service.mkCustomerOrderResult
                 (SellerInventory.quantity inv - q)
                 (CustomerOrder.mk
                    (Query.next_id CustomerOrder.id (customer_orders (pending s)))
                    cn sn b q (order_status u) total)
                 q),
           mkSession d d) in
        match t, total with
        | Some provided, Some calculated =>
            if seller_service.total_value_mismatch provided calculated then
              (Raise (ValueError (Total_value_mismatch calculated provided)),
               mkSession (committed s) (debit_seller sn b q (pending s)))
            else done
        | _, _ => done
        end
  end.
Proof.
  unfold seller_service.process_customer_order.
  rewrite bind_query.
  destruct (seller_inventory_of sn b (pending s)) as [inv|] eqn:Hi; [|reflexivity].
  destruct (SellerInventory.quantity inv <? q) eqn:Hq; [reflexivity|].
  rewrite bind_mutate. fold (debit_seller sn b q (pending s)).
  fold (order_status u). cbn zeta.
  rewrite !bind_query. cbn [pending committed].
  change (user_by_username sn (debit_seller sn b q (pending s)))
    with (user_by_username sn (pending s)).
  assert (Hl : match option_map User.id (user_by_username sn (pending s)) with
               | Some i => product_for_sale_of i b (debit_seller sn b q (pending s))
               | None => None
               end = listing_of sn b (pending s)).
  { unfold listing_of. now destruct (user_by_username sn (pending s)). }
  rewrite Hl. fold (calculated_total b q sn (pending s)).
  set (total := calculated_total b q sn (pending s)).
  set (dirty := mkSession (committed s) (debit_seller sn b q (pending s))).
  assert (Hdone :
    (new_id <- query (fun d => Query.next_id CustomerOrder.id (customer_orders d)) ;;
     mutate (set_customer_orders
               (Query.add (CustomerOrder.mk new_id cn sn b q (order_status u) total))) ;;
     commit ;;
     seller_inventory <- refresh (seller_inventory_of sn b) ;;
     customer_order <- refresh (customer_order_by_id new_id) ;;
     try_except_ValueError
       (_ <- seller_service.sync_product_quantity_with_inventory sn b ;; ret tt) ;;
     ret (seller_service.mkCustomerOrderResult
            (SellerInventory.quantity seller_inventory) customer_order q)) dirty
    = (Ok (seller_service.mkCustomerOrderResult
             (SellerInventory.quantity inv - q)
             (CustomerOrder.mk
                (Query.next_id CustomerOrder.id (customer_orders (pending s)))
                cn sn b q (order_status u) total)
             q),
       mkSession (synced sn b (customer_order_db b q sn cn u (pending s)))
                 (synced sn b (customer_order_db b q sn cn u (pending s))))).
  { rewrite bind_query, bind_mutate, bind_commit. cbn [pending committed dirty].
    change (set_customer_orders _ (debit_seller sn b q (pending s)))
      with (customer_order_db b q sn cn u (pending s)).
    change (customer_orders (debit_seller sn b q (pending s)))
      with (customer_orders (pending s)).
    erewrite bind_refresh
      by (cbn [pending]; unfold customer_order_db;
          change (seller_inventory_of sn b (set_customer_orders ?f ?d))
            with (seller_inventory_of sn b d);
          rewrite seller_inventory_of_debit, Hi; reflexivity).
    erewrite bind_refresh
      by (cbn [pending]; unfold customer_order_by_id, customer_order_db;
          cbn [customer_orders set_customer_orders debit_seller set_seller_inventory];
          now apply first_added).
    unfold bind at 1. rewrite try_sync_spec. reflexivity. }
  cbn zeta.
  destruct t as [provided|]; [destruct total as [calculated|]|].
  - destruct (seller_service.total_value_mismatch provided calculated); [reflexivity|].
    rewrite bind_ret. exact Hdone.
  - rewrite bind_ret. exact Hdone.
  - rewrite bind_ret. exact Hdone.
Qed.

(** * Publishing a product for sale *)

(** The listing [create_product_for_sale] adds for a seller whose
    inventory holds [q] units. *)
Lemma create_product_for_sale_spec sn data s :
  seller_service.create_product_for_sale sn data s =
  let b := ProductForSaleCreate.blanket_id data in
  match user_by_username sn (pending s) with
  | None => (Raise (ValueError (Seller_not_found sn)), s)
  | Some seller =>
      match seller_inventory_of sn b (pending s) with
      | None => (Raise (ValueError (No_inventory_found_for_blanket b)), s)
      | Some inv =>
          match product_for_sale_of (User.id seller) b (pending s) with
          | Some _ => (Raise (ValueError (Product_already_exists b)), s)
          | None =>
              let product :=
                ProductForSale.mk
                  (Query.next_id ProductForSale.id (products_for_sale (pending s)))
                  (User.id seller) b (ProductForSaleCreate.price data)
                  (SellerInventory.quantity inv)
                  (if SellerInventory.quantity inv >? 0 then IN_STOCK else OUT_OF_STOCK) in
              let d := set_products_for_sale (Query.add product) (pending s) in
              (Ok product, mkSession d d)
          end
      end
  end.
Proof.
  unfold seller_service.create_product_for_sale. cbn zeta.
  rewrite bind_query.
  destruct (user_by_username sn (pending s)) as [seller|]; [|reflexivity].
  rewrite bind_query.
  destruct (seller_inventory_of sn _ (pending s)) as [inv|]; [|reflexivity].
  rewrite bind_query.
  destruct (product_for_sale_of (User.id seller) _ (pending s)) as [p|]; [reflexivity|].
  rewrite bind_query, bind_mutate, bind_commit. cbn [pending committed].
  erewrite refresh_some; [reflexivity|].
  cbn [pending products_for_sale set_products_for_sale].
  now apply first_added.
Qed.

(** * The customer purchase endpoint *)

Lemma get_product_for_sale_by_seller_and_blanket_spec sn b s :
  seller_service.get_product_for_sale_by_seller_and_blanket sn b s
  = (Ok (listing_of sn b (pending s)), s).
Proof.
  unfold seller_service.get_product_for_sale_by_seller_and_blanket, listing_of.
  rewrite bind_query. now destruct (user_by_username sn (pending s)).
Qed.

Lemma customer_purchase_spec data user s :
  seller_controller.customer_purchase data user s =
  let sn := CustomerPurchase.seller_name data in
  let b := CustomerPurchase.blanket_id data in
  let q := CustomerPurchase.quantity data in
  match listing_of sn b (pending s) with
  | None => (Raise (HTTPException 400 (Not_available_for_sale b sn)), s)
  | Some p =>
      if AvailabilityStatus_eqb (ProductForSale.availability p) OUT_OF_STOCK then
        (Raise (HTTPException 400 Product_currently_out_of_stock), s)
      else if ProductForSale.quantity p <? q then
        (Raise (HTTPException 400
                  (Insufficient_quantity_available (ProductForSale.quantity p) q)), s)
      else
        seller_controller.to_http
          (result <- seller_service.process_customer_order b q sn
                       (CustomerPurchase.customer_name data) (Some user)
                       (CustomerPurchase.total_value data) ;;
           ret (seller_controller.mkStockOperationResponse true
                  (seller_service.seller_remaining_inventory result)
                  (seller_service.processed_quantity result)
                  (CustomerOrder.total_value (seller_service.customer_order result)))) s
  end.
Proof.
  unfold seller_controller.customer_purchase. cbn zeta.
  unfold seller_controller.to_http at 1. unfold bind at 1.
  rewrite get_product_for_sale_by_seller_and_blanket_spec.
  destruct (listing_of _ _ (pending s)) as [p|]; [|reflexivity].
  destruct (AvailabilityStatus_eqb _ _); [reflexivity|].
  destruct (_ <? _); reflexivity.
Qed.

(** * The stock updates *)

Lemma update_blanket_stock_spec b q s :
  manufacturer_service.update_blanket_stock b q s =
  match blanket_by_id b (pending s) with
  | None => (Ok None, s)
  | Some blanket =>
      let d := set_blankets
                 (Query.update_first (is_blanket b) (Blanket.with_stock q)) (pending s) in
      (Ok (Some (Blanket.with_stock q blanket)), mkSession d d)
  end.
Proof.
  unfold manufacturer_service.update_blanket_stock.
  rewrite bind_query.
  destruct (blanket_by_id b (pending s)) as [blanket|] eqn:Hb; [|reflexivity].
  rewrite bind_mutate, bind_commit. cbn [pending committed].
  erewrite bind_refresh; [reflexivity|].
  cbn [pending]. unfold blanket_by_id in *. cbn [blankets set_blankets].
  rewrite first_update_first by (intros r Hr; exact Hr). now rewrite Hb.
Qed.

Lemma distributor_stock_of_put dn b q d :
  exists r, distributor_stock_of dn b (put_distributor_stock dn b q d) = Some r
            /\ DistributorStock.quantity r = q.
Proof.
  unfold put_distributor_stock.
  destruct (distributor_stock_of dn b d) as [r|] eqn:E; unfold distributor_stock_of in *;
    cbn [distributor_stock set_distributor_stock].
  - rewrite first_update_first by (intros x Hx; exact Hx). rewrite E.
    eexists; split; reflexivity.
  - rewrite first_add, E. unfold is_distributor_stock.
    cbn [DistributorStock.distributor_name DistributorStock.blanket_id].
    rewrite String.eqb_refl, Z.eqb_refl. eexists; split; reflexivity.
Qed.

Lemma update_distributor_stock_spec data user s :
  exists r,
    distributor_service.update_distributor_stock data user s =
    (Ok r,
     let d := put_distributor_stock (User.username user)
                (DistributorStockCreate.blanket_id data)
                (DistributorStockCreate.quantity data) (pending s) in
     mkSession d d)
    /\ DistributorStock.quantity r = DistributorStockCreate.quantity data.
Proof.
  unfold distributor_service.update_distributor_stock. cbn zeta.
  rewrite bind_query, bind_match_mutate, bind_commit. cbn [pending committed].
  fold (put_distributor_stock (User.username user) (DistributorStockCreate.blanket_id data)
          (DistributorStockCreate.quantity data) (pending s)).
  destruct (distributor_stock_of_put (User.username user)
              (DistributorStockCreate.blanket_id data)
              (DistributorStockCreate.quantity data) (pending s)) as (r & Hr & Hq).
  exists r. split; [|exact Hq].
  now apply refresh_some.
Qed.

Lemma request_stock_from_distributor_spec data s :
  exists r,
    seller_service.request_stock_from_distributor data s =
    (Ok r,
     let d := synced (StockRequest.seller_name data) (StockRequest.blanket_id data)
                (credit_seller (StockRequest.seller_name data) (StockRequest.blanket_id data)
                   (StockRequest.quantity data) (pending s)) in
     mkSession d d).
Proof.
  unfold seller_service.request_stock_from_distributor. cbn zeta.
  rewrite bind_query, bind_match_mutate, bind_commit. cbn [pending committed].
  fold (credit_seller (StockRequest.seller_name data) (StockRequest.blanket_id data)
          (StockRequest.quantity data) (pending s)).
  pose proof (seller_inventory_of_credit (StockRequest.seller_name data)
                (StockRequest.blanket_id data) (StockRequest.quantity data) (pending s)) as H.
  eexists.
  erewrite bind_refresh by (cbn [pending]; exact H).
  unfold bind at 1. rewrite try_sync_spec. reflexivity.
Qed.

(** * What the synchronisation leaves alone *)

Lemma synced_frame sn b d :
  exists f, synced sn b d = set_products_for_sale f d.
Proof.
  unfold synced.
  destruct (user_by_username sn d) as [seller|];
    [destruct (seller_inventory_of sn b d);
       [destruct (product_for_sale_of (User.id seller) b d)|]|];
    try (eexists; reflexivity);
    exists (fun rows => rows); now destruct d.
Qed.

Lemma synced_blankets sn b d : blankets (synced sn b d) = blankets d.
Proof. destruct (synced_frame sn b d) as [f ->]. reflexivity. Qed.

Lemma synced_distributor_stock sn b d :
  distributor_stock (synced sn b d) = distributor_stock d.
Proof. destruct (synced_frame sn b d) as [f ->]. reflexivity. Qed.

Lemma synced_seller_inventory sn b d :
  seller_inventory (synced sn b d) = seller_inventory d.
Proof. destruct (synced_frame sn b d) as [f ->]. reflexivity. Qed.

Lemma synced_users sn b d : users (synced sn b d) = users d.
Proof. destruct (synced_frame sn b d) as [f ->]. reflexivity. Qed.

Lemma synced_distributor_orders sn b d :
  distributor_orders (synced sn b d) = distributor_orders d.
Proof. destruct (synced_frame sn b d) as [f ->]. reflexivity. Qed.

Lemma synced_seller_orders sn b d : seller_orders (synced sn b d) = seller_orders d.
Proof. destruct (synced_frame sn b d) as [f ->]. reflexivity. Qed.

Lemma synced_customer_orders sn b d : customer_orders (synced sn b d) = customer_orders d.
Proof. destruct (synced_frame sn b d) as [f ->]. reflexivity. Qed.

Lemma synced_distributor_quantity sn b dn b' d :
  distributor_quantity dn b' (synced sn b d) = distributor_quantity dn b' d.
Proof.
  unfold distributor_quantity, distributor_stock_of.
  now rewrite synced_distributor_stock.
Qed.

Lemma synced_seller_quantity sn b sn' b' d :
  seller_quantity sn' b' (synced sn b d) = seller_quantity sn' b' d.
Proof.
  unfold seller_quantity, seller_inventory_of. now rewrite synced_seller_inventory.
Qed.

Lemma synced_nonneg sn b d : nonneg_quantities (synced sn b d) = nonneg_quantities d.
Proof.
  unfold nonneg_quantities.
  now rewrite synced_blankets, synced_distributor_stock, synced_seller_inventory.
Qed.

(** The listing after the synchronisation, when there is one to synchronise. *)
Lemma synced_listing sn b d inv p :
  seller_inventory_of sn b d = Some inv ->
  listing_of sn b d = Some p ->
  listing_of sn b (synced sn b d) = Some (synced_product (SellerInventory.quantity inv) p).
Proof.
  unfold listing_of, synced. intros Hi Hp.
  destruct (user_by_username sn d) as [seller|] eqn:Hu; [|discriminate].
  rewrite Hi, Hp.
  change (user_by_username sn (set_products_for_sale ?f d)) with (user_by_username sn d).
  rewrite Hu. unfold product_for_sale_of in *.
  cbn [products_for_sale set_products_for_sale].
  rewrite first_update_first by (intros x Hx; exact Hx). now rewrite Hp.
Qed.

(** Without a listing the synchronisation raises, and changes nothing. *)
Lemma sync_without_listing sn b s :
  listing_of sn b (pending s) = None ->
  exists msg,
    seller_service.sync_product_quantity_with_inventory sn b s = (Raise (ValueError msg), s).
Proof.
  unfold listing_of. intros H. rewrite sync_product_quantity_with_inventory_spec.
  destruct (user_by_username sn (pending s)) as [seller|]; [|eexists; reflexivity].
  destruct (seller_inventory_of sn b (pending s)); [|eexists; reflexivity].
  rewrite H. eexists; reflexivity.
Qed.

Lemma synced_without_listing sn b d : listing_of sn b d = None -> synced sn b d = d.
Proof.
  unfold listing_of, synced. intros H.
  destruct (user_by_username sn d) as [seller|]; [|reflexivity].
  rewrite H. now destruct (seller_inventory_of sn b d).
Qed.

(** * Conservation of stock *)

(** C1. A successful transfer of [q] units from the manufacturer to a
    distributor, or from a distributor to a seller, leaves the source with
    its quantity minus [q] and the destination with its quantity plus [q]
    (a destination that had no record gets one that holds [q]), so that the
    sum of the two balances is the same before and after the call; the
    balances the call returns are those of the database. *)
Theorem transfer_conserves_stock :
  (forall b q dn u d r d',
      get_db (manufacturer_service.process_distributor_order b q dn u) d = (Ok r, d') ->
      exists a,
        manufacturer_stock b d = Some a
        /\ manufacturer_stock b d' = Some (a - q)
        /\ distributor_quantity dn b d'
           = Some (or_zero (distributor_quantity dn b d) + q)
        /\ (distributor_quantity dn b d = None -> distributor_quantity dn b d' = Some q)
        /\ or_zero (manufacturer_stock b d') + or_zero (distributor_quantity dn b d')
           = or_zero (manufacturer_stock b d) + or_zero (distributor_quantity dn b d)
        /\ manufacturer_service.manufacturer_remaining_stock r = a - q
        /\ manufacturer_service.distributor_stock r
           = or_zero (distributor_quantity dn b d) + q)
  /\
  (forall b q dn sn d r d',
      get_db (distributor_service.process_seller_order b q dn sn) d = (Ok r, d') ->
      exists a,
        distributor_quantity dn b d = Some a
        /\ distributor_quantity dn b d' = Some (a - q)
        /\ seller_quantity sn b d' = Some (or_zero (seller_quantity sn b d) + q)
        /\ (seller_quantity sn b d = None -> seller_quantity sn b d' = Some q)
        /\ or_zero (distributor_quantity dn b d') + or_zero (seller_quantity sn b d')
           = or_zero (distributor_quantity dn b d) + or_zero (seller_quantity sn b d)
        /\ distributor_service.distributor_remaining_stock r = a - q
        /\ distributor_service.seller_inventory r
           = or_zero (seller_quantity sn b d) + q).
Proof.
  split.
  - intros b q dn u d r d'. unfold get_db.
    rewrite process_distributor_order_spec. cbn [pending SessionLocal].
    unfold manufacturer_stock.
    destruct (blanket_by_id b d) as [blanket|] eqn:Hb; [|discriminate].
    destruct (Blanket.stock blanket <? q); [discriminate|].
    cbn zeta. cbn [committed]. intros [= <- <-].
    exists (Blanket.stock blanket).
    rewrite distributor_order_db_blanket, Hb, distributor_order_db_quantity.
    cbn. repeat split; try lia.
    all: intros ->; cbn; f_equal; lia.
  - intros b q dn sn d r d'. unfold get_db.
    rewrite process_seller_order_spec. cbn [pending SessionLocal].
    destruct (user_by_username sn d) as [su|]; [|discriminate].
    destruct (user_by_username dn d) as [du|]; [|discriminate].
    destruct (distributor_stock_of dn b d) as [x|] eqn:Hx; [|discriminate].
    destruct (DistributorStock.quantity x <? q); [discriminate|].
    cbn zeta. cbn [committed]. intros [= <- <-].
    exists (DistributorStock.quantity x).
    rewrite synced_seller_quantity, seller_order_db_seller.
    rewrite synced_distributor_quantity. unfold distributor_quantity.
    rewrite seller_order_db_distributor, Hx.
    cbn. repeat split; try lia.
    all: intros ->; cbn; f_equal; lia.
Qed.

Lemma transfer_conserves_stock_witness :
  (exists a,
      manufacturer_stock 1 Scenario.start = Some a
      /\ manufacturer_stock 1 (snd Scenario.to_D1_30) = Some (a - 30)
      /\ distributor_quantity "D1" 1 (snd Scenario.to_D1_30)
         = Some (or_zero (distributor_quantity "D1" 1 Scenario.start) + 30))
  /\
  (exists a,
      distributor_quantity "D1" 1 (snd Scenario.to_S1_50) = Some a
      /\ distributor_quantity "D1" 1 (snd Scenario.to_S1_20) = Some (a - 20)
      /\ seller_quantity "S1" 1 (snd Scenario.to_S1_20)
         = Some (or_zero (seller_quantity "S1" 1 (snd Scenario.to_S1_50)) + 20)).
Proof.
  split.
  - destruct (proj1 transfer_conserves_stock 1 30 "D1" Scenario.D1 Scenario.start
                (manufacturer_service.mkDistributorOrderResult 70 30 30 1)
                (snd Scenario.to_D1_30) eq_refl)
      as (a & H1 & H2 & H3 & _).
    exists a. repeat split; assumption.
  - destruct (proj2 transfer_conserves_stock 1 20 "D1" "S1" (snd Scenario.to_S1_50)
                (distributor_service.mkSellerOrderResult 10 20 20 1)
                (snd Scenario.to_S1_20) eq_refl)
      as (a & H1 & H2 & H3 & _).
    exists a. repeat split; assumption.
Defined.

(** * Non-negative balances *)

Lemma nonneg_quantities_iff d :
  nonneg_quantities d = true <->
  forallb (fun b => 0 <=? Blanket.stock b) (blankets d) = true
  /\ forallb (fun r => 0 <=? DistributorStock.quantity r) (distributor_stock d) = true
  /\ forallb (fun r => 0 <=? SellerInventory.quantity r) (seller_inventory d) = true.
Proof. unfold nonneg_quantities. rewrite !andb_true_iff. tauto. Qed.

Lemma debit_manufacturer_nonneg b q d blanket :
  blanket_by_id b d = Some blanket -> q <= Blanket.stock blanket ->
  nonneg_quantities d = true -> nonneg_quantities (debit_manufacturer b q d) = true.
Proof.
  intros Hb Hq H. apply nonneg_quantities_iff in H as (H1 & H2 & H3).
  apply nonneg_quantities_iff. repeat split; try assumption.
  cbn [blankets debit_manufacturer set_blankets].
  apply (forallb_update_first_at _ _ _ _ blanket Hb); [|assumption].
  apply Z.leb_le. cbn. lia.
Qed.

Lemma debit_distributor_nonneg dn b q d r :
  distributor_stock_of dn b d = Some r -> q <= DistributorStock.quantity r ->
  nonneg_quantities d = true -> nonneg_quantities (debit_distributor dn b q d) = true.
Proof.
  intros Hr Hq H. apply nonneg_quantities_iff in H as (H1 & H2 & H3).
  apply nonneg_quantities_iff. repeat split; try assumption.
  cbn [distributor_stock debit_distributor set_distributor_stock].
  apply (forallb_update_first_at _ _ _ _ r Hr); [|assumption].
  apply Z.leb_le. cbn. lia.
Qed.

Lemma debit_seller_nonneg sn b q d r :
  seller_inventory_of sn b d = Some r -> q <= SellerInventory.quantity r ->
  nonneg_quantities d = true -> nonneg_quantities (debit_seller sn b q d) = true.
Proof.
  intros Hr Hq H. apply nonneg_quantities_iff in H as (H1 & H2 & H3).
  apply nonneg_quantities_iff. repeat split; try assumption.
  cbn [seller_inventory debit_seller set_seller_inventory].
  apply (forallb_update_first_at _ _ _ _ r Hr); [|assumption].
  apply Z.leb_le. cbn. lia.
Qed.

Lemma credit_distributor_nonneg dn b q d :
  0 <= q -> nonneg_quantities d = true ->
  nonneg_quantities (credit_distributor dn b q d) = true.
Proof.
  intros Hq H. apply nonneg_quantities_iff in H as (H1 & H2 & H3).
  rewrite credit_distributor_eq. apply nonneg_quantities_iff.
  repeat split; try assumption.
  cbn [distributor_stock set_distributor_stock].
  destruct (Query.first _ _).
  - apply forallb_update_first; [|assumption].
    intros r _ Hr. apply Z.leb_le in Hr. apply Z.leb_le. cbn. lia.
  - apply forallb_add; [|assumption]. apply Z.leb_le. cbn. lia.
Qed.

Lemma credit_seller_nonneg sn b q d :
  0 <= q -> nonneg_quantities d = true ->
  nonneg_quantities (credit_seller sn b q d) = true.
Proof.
  intros Hq H. apply nonneg_quantities_iff in H as (H1 & H2 & H3).
  rewrite credit_seller_eq. apply nonneg_quantities_iff.
  repeat split; try assumption.
  cbn [seller_inventory set_seller_inventory].
  destruct (Query.first _ _).
  - apply forallb_update_first; [|assumption].
    intros r _ Hr. apply Z.leb_le in Hr. apply Z.leb_le. cbn. lia.
  - apply forallb_add; [|assumption]. apply Z.leb_le. cbn. lia.
Qed.

Lemma put_distributor_stock_nonneg dn b q d :
  0 <= q -> nonneg_quantities d = true ->
  nonneg_quantities (put_distributor_stock dn b q d) = true.
Proof.
  intros Hq H. apply nonneg_quantities_iff in H as (H1 & H2 & H3).
  unfold put_distributor_stock.
  destruct (distributor_stock_of dn b d); apply nonneg_quantities_iff;
    (repeat split; try assumption);
    cbn [distributor_stock set_distributor_stock].
  - apply forallb_update_first; [|assumption].
    intros r _ _. apply Z.leb_le. cbn. lia.
  - apply forallb_add; [|assumption]. apply Z.leb_le. cbn. lia.
Qed.

(** An operation called with a non-negative quantity keeps the balances
    non-negative. *)
Lemma run_operation_nonneg op d :
  0 <= requested_quantity op ->
  nonneg_quantities d = true -> nonneg_quantities (run_operation op d) = true.
Proof.
  destruct op as [b q dn u|b q dn sn|b q sn cn u t|b q|data u|data];
    cbn [requested_quantity run_operation]; intros Hq H; unfold get_db.
  - rewrite process_distributor_order_spec. cbn [pending SessionLocal].
    destruct (blanket_by_id b d) as [blanket|] eqn:Hb; [|exact H].
    destruct (Blanket.stock blanket <? q) eqn:E; [exact H|].
    apply Z.ltb_ge in E. cbn [snd committed]. unfold distributor_order_db.
    apply nonneg_quantities_iff.
    pose proof (credit_distributor_nonneg dn b q _ Hq
                  (debit_manufacturer_nonneg b q d blanket Hb E H)) as H'.
    apply nonneg_quantities_iff in H'. exact H'.
  - rewrite process_seller_order_spec. cbn [pending SessionLocal].
    destruct (user_by_username sn d); [|exact H].
    destruct (user_by_username dn d); [|exact H].
    destruct (distributor_stock_of dn b d) as [r|] eqn:Hr; [|exact H].
    destruct (DistributorStock.quantity r <? q) eqn:E; [exact H|].
    apply Z.ltb_ge in E. cbn [snd committed]. rewrite synced_nonneg.
    unfold seller_order_db. apply nonneg_quantities_iff.
    pose proof (credit_seller_nonneg sn b q _ Hq
                  (debit_distributor_nonneg dn b q d r Hr E H)) as H'.
    apply nonneg_quantities_iff in H'. exact H'.
  - rewrite process_customer_order_spec. cbn [pending SessionLocal].
    destruct (seller_inventory_of sn b d) as [r|] eqn:Hr; [|exact H].
    destruct (SellerInventory.quantity r <? q) eqn:E; [exact H|].
    apply Z.ltb_ge in E. cbn zeta.
    assert (Hdone : nonneg_quantities
                      (synced sn b (customer_order_db b q sn cn u d)) = true).
    { rewrite synced_nonneg. unfold customer_order_db. apply nonneg_quantities_iff.
      pose proof (debit_seller_nonneg sn b q d r Hr E H) as H'.
      apply nonneg_quantities_iff in H'. exact H'. }
    destruct t as [provided|]; [destruct (calculated_total b q sn d) as [c|]|];
      try exact Hdone.
    destruct (seller_service.total_value_mismatch provided c); [exact H|exact Hdone].
  - rewrite update_blanket_stock_spec. cbn [pending SessionLocal].
    destruct (blanket_by_id b d) as [blanket|] eqn:Hb; [|exact H].
    cbn [snd committed]. apply nonneg_quantities_iff in H as (H1 & H2 & H3).
    apply nonneg_quantities_iff. repeat split; try assumption.
    cbn [blankets set_blankets]. apply forallb_update_first; [|assumption].
    intros r _ _. apply Z.leb_le. cbn. lia.
  - destruct (update_distributor_stock_spec data u (SessionLocal d)) as (r & -> & _).
    cbn [snd committed pending SessionLocal].
    now apply put_distributor_stock_nonneg.
  - destruct (request_stock_from_distributor_spec data (SessionLocal d)) as (r & ->).
    cbn [snd committed pending SessionLocal]. rewrite synced_nonneg.
    now apply credit_seller_nonneg.
Qed.

Lemma run_operations_nonneg ops d :
  Forall (fun op => 0 <= requested_quantity op) ops ->
  nonneg_quantities d = true -> nonneg_quantities (run_operations ops d) = true.
Proof.
  unfold run_operations. intros Hops. revert d.
  induction Hops as [|op ops Hop _ IH]; intros d H; [exact H|].
  cbn [fold_left]. apply IH. now apply run_operation_nonneg.
Qed.

(** C2, as stated, fails: nothing in the services rejects a negative
    quantity.  A transfer of -5 units from the manufacturer creates a
    distributor record that holds -5, and a stock update of -5 writes -5. *)
Lemma negative_request_breaks_nonneg :
  nonneg_quantities Scenario.start = true
  /\ distributor_quantity "D1" 1
       (run_operations [Process_distributor_order 1 (-5) "D1" Scenario.D1] Scenario.start)
     = Some (-5)
  /\ nonneg_quantities
       (run_operations [Process_distributor_order 1 (-5) "D1" Scenario.D1] Scenario.start)
     = false
  /\ nonneg_quantities
       (run_operations
          [Update_distributor_stock (DistributorStockCreate.mk 1 (-5)) Scenario.D1]
          Scenario.start)
     = false.
Proof. repeat split; reflexivity. Qed.

(** C2, amended.  For every sequence of transfers, stock updates and
    inventory requests that are called with non-negative quantities, from a
    database whose stock and inventory quantities are non-negative, no
    quantity becomes negative.  A transfer that asks for more than its
    source record holds (between users that exist, for the transfer to a
    seller) raises the insufficient stock error of its tier and leaves the
    session, hence every balance, as it was. *)
Theorem nonneg_preserved_and_overdraft_rejected :
  (forall ops d,
      Forall (fun op => 0 <= requested_quantity op) ops ->
      nonneg_quantities d = true ->
      nonneg_quantities (run_operations ops d) = true)
  /\ (forall b q dn u s blanket,
         blanket_by_id b (pending s) = Some blanket ->
         Blanket.stock blanket < q ->
         manufacturer_service.process_distributor_order b q dn u s
         = (Raise (ValueError (Insufficient_manufacturer_stock (Blanket.stock blanket) q)),
            s))
  /\ (forall b q dn sn s su du r,
         user_by_username sn (pending s) = Some su ->
         user_by_username dn (pending s) = Some du ->
         distributor_stock_of dn b (pending s) = Some r ->
         DistributorStock.quantity r < q ->
         distributor_service.process_seller_order b q dn sn s
         = (Raise (ValueError (Insufficient_distributor_stock
                                 (DistributorStock.quantity r) q)), s))
  /\ (forall b q sn cn u t s r,
         seller_inventory_of sn b (pending s) = Some r ->
         SellerInventory.quantity r < q ->
         seller_service.process_customer_order b q sn cn u t s
         = (Raise (ValueError (Insufficient_seller_inventory
                                 (SellerInventory.quantity r) q)), s)).
Proof.
  split; [exact run_operations_nonneg|]. repeat split.
  - intros b q dn u s blanket Hb Hq. rewrite process_distributor_order_spec, Hb.
    apply Z.ltb_lt in Hq. now rewrite Hq.
  - intros b q dn sn s su du r Hs Hd Hr Hq.
    rewrite process_seller_order_spec, Hs, Hd, Hr.
    apply Z.ltb_lt in Hq. now rewrite Hq.
  - intros b q sn cn u t s r Hr Hq. rewrite process_customer_order_spec, Hr.
    apply Z.ltb_lt in Hq. now rewrite Hq.
Qed.

Lemma nonneg_preserved_and_overdraft_rejected_witness :
  nonneg_quantities
    (run_operations
       [Process_distributor_order 1 30 "D1" Scenario.D1;
        Process_seller_order 1 50 "D1" "S1";
        Process_seller_order 1 20 "D1" "S1";
        Process_customer_order 1 5 "S1" "C1" None None;
        Update_blanket_stock 1 40;
        Update_distributor_stock (DistributorStockCreate.mk 1 7) Scenario.D1;
        Request_stock_from_distributor (StockRequest.mk "S1" 1 3)]
       Scenario.start) = true
  /\ manufacturer_service.process_distributor_order 1 101 "D1" Scenario.D1
       (SessionLocal Scenario.start)
     = (Raise (ValueError (Insufficient_manufacturer_stock 100 101)),
        SessionLocal Scenario.start)
  /\ distributor_service.process_seller_order 1 50 "D1" "S1"
       (SessionLocal (snd Scenario.to_D1_30))
     = (Raise (ValueError (Insufficient_distributor_stock 30 50)),
        SessionLocal (snd Scenario.to_D1_30))
  /\ seller_service.process_customer_order 1 21 "S1" "C1" None None
       (SessionLocal (snd Scenario.to_S1_20))
     = (Raise (ValueError (Insufficient_seller_inventory 20 21)),
        SessionLocal (snd Scenario.to_S1_20)).
Proof.
  destruct nonneg_preserved_and_overdraft_rejected as (H1 & H2 & H3 & H4).
  split; [|split; [|split]].
  - apply H1; [|reflexivity].
    repeat constructor; cbn; lia.
  - apply (H2 1 101 "D1" Scenario.D1 (SessionLocal Scenario.start)
              (Blanket.mk 1 "P1" "wool" 100 0 None)); reflexivity.
  - apply (H3 1 50 "D1" "S1" (SessionLocal (snd Scenario.to_D1_30)) Scenario.S1 Scenario.D1
              (DistributorStock.mk 1 "D1" 1 30)); reflexivity.
  - apply (H4 1 21 "S1" "C1" None None (SessionLocal (snd Scenario.to_S1_20))
              (SellerInventory.mk 1 "S1" 1 20)); reflexivity.
Defined.

(** * The total value of a customer order *)

(** The decrement of the inventory is written in the session before the
    total is compared: when the comparison fails the session holds the
    decrement, which it never commits. *)
Lemma process_customer_order_mismatch_session b q sn cn u provided s inv p :
  seller_inventory_of sn b (pending s) = Some inv ->
  q <= SellerInventory.quantity inv ->
  listing_of sn b (pending s) = Some p ->
  seller_service.total_value_mismatch provided
    (PrimFloat.mul (ProductForSale.price p) (float_of_Z q)) = true ->
  seller_service.process_customer_order b q sn cn u (Some provided) s
  = (Raise (ValueError (Total_value_mismatch
                          (PrimFloat.mul (ProductForSale.price p) (float_of_Z q))
                          provided)),
     mkSession (committed s) (debit_seller sn b q (pending s))).
Proof.
  intros Hi Hq Hp Hm. rewrite process_customer_order_spec, Hi.
  apply Z.ltb_ge in Hq. rewrite Hq. cbn zeta.
  unfold calculated_total. rewrite Hp. cbn [option_map]. now rewrite Hm.
Qed.

(** C3. The total of a customer order is the price of the listing times
    the requested quantity.  When the caller provides a total that differs
    from it by more than 0.01 (the comparison of the code, on binary64
    values), the transfer raises the total value mismatch error and nothing
    is written to the database: the committed database, the seller's
    inventory with it, is the one the call started from, for the service in
    any session, for a request that runs the service, and for the customer
    purchase endpoint, which answers 400.  Otherwise the order is placed
    with the computed total.  (The service assigns the decremented quantity
    to the inventory object of its session before it compares the totals;
    that assignment is never flushed nor committed, and [get_db] closes the
    session.) *)
Theorem total_value_checked_before_commit b q sn cn u t s inv p :
  seller_inventory_of sn b (pending s) = Some inv ->
  q <= SellerInventory.quantity inv ->
  listing_of sn b (pending s) = Some p ->
  let total := PrimFloat.mul (ProductForSale.price p) (float_of_Z q) in
  let mismatch :=
    match t with
    | Some provided => seller_service.total_value_mismatch provided total
    | None => false
    end in
  if mismatch then
    exists provided s',
      t = Some provided
      /\ seller_service.process_customer_order b q sn cn u t s
         = (Raise (ValueError (Total_value_mismatch total provided)), s')
      /\ committed s' = committed s
      /\ get_db (seller_service.process_customer_order b q sn cn u t) (pending s)
         = (Raise (ValueError (Total_value_mismatch total provided)), pending s)
      /\ (ProductForSale.availability p = IN_STOCK ->
          q <= ProductForSale.quantity p ->
          forall user,
            get_db (seller_controller.customer_purchase
                      (CustomerPurchase.mk cn sn b q t) user) (pending s)
            = (Raise (HTTPException 400 (Total_value_mismatch total provided)),
               pending s))
  else
    exists r s',
      seller_service.process_customer_order b q sn cn u t s = (Ok r, s')
      /\ CustomerOrder.total_value (seller_service.customer_order r) = Some total
      /\ customer_order_by_id (CustomerOrder.id (seller_service.customer_order r))
           (committed s')
         = Some (seller_service.customer_order r).
Proof.
  intros Hi Hq Hp total mismatch.
  destruct mismatch eqn:Hm; subst mismatch.
  - destruct t as [provided|]; [|discriminate].
    exists provided. eexists. split; [reflexivity|].
    rewrite (process_customer_order_mismatch_session b q sn cn u provided s inv p)
      by assumption.
    split; [reflexivity|]. split; [reflexivity|]. split.
    + unfold get_db.
      rewrite (process_customer_order_mismatch_session b q sn cn u provided
                 (SessionLocal (pending s)) inv p) by assumption.
      reflexivity.
    + intros Ha Hl user. unfold get_db. rewrite customer_purchase_spec.
      cbn zeta. cbn [CustomerPurchase.seller_name CustomerPurchase.blanket_id
                       CustomerPurchase.quantity CustomerPurchase.customer_name
                       CustomerPurchase.total_value pending SessionLocal].
      rewrite Hp, Ha. cbn [AvailabilityStatus_eqb].
      apply Z.ltb_ge in Hl. rewrite Hl.
      unfold seller_controller.to_http, bind.
      rewrite (process_customer_order_mismatch_session b q sn cn (Some user) provided
                 (SessionLocal (pending s)) inv p) by assumption.
      reflexivity.
  - rewrite process_customer_order_spec, Hi.
    pose proof Hq as Hq'. apply Z.ltb_ge in Hq'. rewrite Hq'. cbn zeta.
    unfold calculated_total. rewrite Hp. cbn [option_map]. fold total.
    assert (Hdone : exists r s',
      (Ok (seller_service.mkCustomerOrderResult (SellerInventory.quantity inv - q)
             (CustomerOrder.mk
                (Query.next_id CustomerOrder.id (customer_orders (pending s)))
                cn sn b q (order_status u) (Some total)) q),
       mkSession (synced sn b (customer_order_db b q sn cn u (pending s)))
                 (synced sn b (customer_order_db b q sn cn u (pending s))))
      = (Ok r, s')
      /\ CustomerOrder.total_value (seller_service.customer_order r) = Some total
      /\ customer_order_by_id (CustomerOrder.id (seller_service.customer_order r))
           (committed s')
         = Some (seller_service.customer_order r)).
    { eexists. eexists. split; [reflexivity|]. split; [reflexivity|].
      cbn [committed seller_service.customer_order CustomerOrder.id].
      unfold customer_order_by_id. rewrite synced_customer_orders.
      unfold customer_order_db, calculated_total. rewrite Hp.
      cbn [customer_orders set_customer_orders debit_seller set_seller_inventory option_map].
      now apply first_added. }
    destruct t as [provided|]; [|exact Hdone].
    rewrite Hm. exact Hdone.
Qed.

Lemma total_value_checked_before_commit_witness :
  (exists s',
      seller_service.process_customer_order 1 2 "S1" "C1" None (Some 999%float)
        (SessionLocal (snd Scenario.publish))
      = (Raise (ValueError (Total_value_mismatch 10%float 999%float)), s')
      /\ committed s' = snd Scenario.publish)
  /\ get_db (seller_service.process_customer_order 1 2 "S1" "C1" None (Some 999%float))
       (snd Scenario.publish)
     = (Raise (ValueError (Total_value_mismatch 10%float 999%float)), snd Scenario.publish)
  /\ get_db (seller_controller.customer_purchase
               (CustomerPurchase.mk "C1" "S1" 1 2 (Some 999%float)) Scenario.S1)
       (snd Scenario.publish)
     = (Raise (HTTPException 400 (Total_value_mismatch 10%float 999%float)),
        snd Scenario.publish)
  /\ (exists r s',
         seller_service.process_customer_order 1 2 "S1" "C1" None
           (Some 10.0078125%float) (SessionLocal (snd Scenario.publish)) = (Ok r, s')
         /\ CustomerOrder.total_value (seller_service.customer_order r) = Some 10%float
         /\ customer_order_by_id (CustomerOrder.id (seller_service.customer_order r))
              (committed s')
            = Some (seller_service.customer_order r)).
Proof.
  destruct (total_value_checked_before_commit 1 2 "S1" "C1" None (Some 999%float)
              (SessionLocal (snd Scenario.publish))
              (SellerInventory.mk 1 "S1" 1 20)
              (ProductForSale.mk 1 2 1 5%float 20 IN_STOCK)
              eq_refl ltac:(cbn; lia) eq_refl)
    as (provided & s' & Ht & H1 & H2 & H3 & H4).
  injection Ht as <-.
  split; [exists s'; split; assumption|].
  split; [exact H3|].
  split; [apply H4; [reflexivity|cbn; lia]|].
  exact (total_value_checked_before_commit 1 2 "S1" "C1" None (Some 10.0078125%float)
           (SessionLocal (snd Scenario.publish))
           (SellerInventory.mk 1 "S1" 1 20)
           (ProductForSale.mk 1 2 1 5%float 20 IN_STOCK)
           eq_refl ltac:(cbn; lia) eq_refl).
Defined.

(** * The preconditions of a customer purchase *)

(** C4. The customer purchase is refused with the not available for sale
    error when the seller has no listing of the blanket, with the out of
    stock error when the listing is out of stock, and with the insufficient
    quantity error when the listing is in stock with less than the
    requested quantity; in each case the session is left as it was, so no
    state is changed. *)
Theorem customer_purchase_preconditions data user s :
  let sn := CustomerPurchase.seller_name data in
  let b := CustomerPurchase.blanket_id data in
  let q := CustomerPurchase.quantity data in
  match listing_of sn b (pending s) with
  | None =>
      seller_controller.customer_purchase data user s
      = (Raise (HTTPException 400 (Not_available_for_sale b sn)), s)
  | Some p =>
      match ProductForSale.availability p with
      | OUT_OF_STOCK =>
          seller_controller.customer_purchase data user s
          = (Raise (HTTPException 400 Product_currently_out_of_stock), s)
      | IN_STOCK =>
          if ProductForSale.quantity p <? q then
            seller_controller.customer_purchase data user s
            = (Raise (HTTPException 400
                        (Insufficient_quantity_available (ProductForSale.quantity p) q)),
               s)
          else
            seller_controller.customer_purchase data user s
            = seller_controller.to_http
                (result <- seller_service.process_customer_order b q sn
                             (CustomerPurchase.customer_name data) (Some user)
                             (CustomerPurchase.total_value data) ;;
                 ret (seller_controller.mkStockOperationResponse true
                        (seller_service.seller_remaining_inventory result)
                        (seller_service.processed_quantity result)
                        (CustomerOrder.total_value
                           (seller_service.customer_order result)))) s
      end
  end.
Proof.
  cbn zeta. rewrite customer_purchase_spec. cbn zeta.
  destruct (listing_of _ _ (pending s)) as [p|]; [|reflexivity].
  destruct (ProductForSale.availability p); cbn [AvailabilityStatus_eqb]; [|reflexivity].
  destruct (_ <? _); reflexivity.
Qed.

(** * Resynchronising a listing *)




(** * Publishing *)

Lemma listing_of_added sn seller d product :
  user_by_username sn d = Some seller ->
  product_for_sale_of (User.id seller) (ProductForSale.blanket_id product) d = None ->
  ProductForSale.seller_id product = User.id seller ->
  listing_of sn (ProductForSale.blanket_id product)
    (set_products_for_sale (Query.add product) d) = Some product.
Proof.
  intros Hu Hn Hs. unfold listing_of.
  change (user_by_username sn (set_products_for_sale ?f d)) with (user_by_username sn d).
  rewrite Hu. unfold product_for_sale_of in *.
  cbn [products_for_sale set_products_for_sale].
  rewrite first_add, Hn. unfold is_product_for_sale.
  now rewrite Hs, !Z.eqb_refl.
Qed.

(** C6. For a seller that exists, publishing a blanket raises the no
    inventory error when the seller has no inventory record of it, raises
    the already exists error when the seller has the inventory and a
    listing of it, and otherwise commits a listing with the price asked,
    the quantity of the inventory record, in stock exactly when that
    quantity is positive.  The two refusals leave the session as it was. *)
Theorem publish_mirrors_inventory sn data s seller :
  user_by_username sn (pending s) = Some seller ->
  let b := ProductForSaleCreate.blanket_id data in
  match seller_inventory_of sn b (pending s) with
  | None =>
      seller_service.create_product_for_sale sn data s
      = (Raise (ValueError (No_inventory_found_for_blanket b)), s)
  | Some inv =>
      match listing_of sn b (pending s) with
      | Some _ =>
          seller_service.create_product_for_sale sn data s
          = (Raise (ValueError (Product_already_exists b)), s)
      | None =>
          exists product s',
            seller_service.create_product_for_sale sn data s = (Ok product, s')
            /\ listing_of sn b (committed s') = Some product
            /\ ProductForSale.price product = ProductForSaleCreate.price data
            /\ ProductForSale.quantity product = SellerInventory.quantity inv
            /\ (ProductForSale.availability product = IN_STOCK
                <-> 0 < SellerInventory.quantity inv)
            /\ (ProductForSale.availability product = OUT_OF_STOCK
                <-> SellerInventory.quantity inv <= 0)
      end
  end.
Proof.
  intros Hu b. rewrite create_product_for_sale_spec. cbn zeta. fold b.
  unfold listing_of. rewrite Hu.
  destruct (seller_inventory_of sn b (pending s)) as [inv|]; [|reflexivity].
  destruct (product_for_sale_of (User.id seller) b (pending s)) eqn:Hp; [reflexivity|].
  eexists. eexists. split; [reflexivity|]. cbn [committed].
  split; [|split; [reflexivity|split; [reflexivity|]]].
  - apply (listing_of_added sn seller (pending s)
             (ProductForSale.mk _ (User.id seller) b _ _ _)); [exact Hu|exact Hp|reflexivity].
  - cbn [ProductForSale.availability].
    destruct (SellerInventory.quantity inv >? 0) eqn:E.
    + apply Z.gtb_lt in E. repeat split; intros; try reflexivity; try lia; discriminate.
    + assert (SellerInventory.quantity inv <= 0)
        by (destruct (Z.gtb_spec (SellerInventory.quantity inv) 0); [discriminate|lia]).
      repeat split; intros; try reflexivity; try lia; discriminate.
Qed.

Lemma publish_mirrors_inventory_witness :
  (seller_service.create_product_for_sale "S1" (ProductForSaleCreate.mk 1 5 (Some IN_STOCK))
     (SessionLocal (snd Scenario.to_D1_30))
   = (Raise (ValueError (No_inventory_found_for_blanket 1)),
      SessionLocal (snd Scenario.to_D1_30)))
  /\
  (seller_service.create_product_for_sale "S1" (ProductForSaleCreate.mk 1 5 (Some IN_STOCK))
     (SessionLocal (snd Scenario.publish))
   = (Raise (ValueError (Product_already_exists 1)), SessionLocal (snd Scenario.publish)))
  /\
  (exists product s',
      seller_service.create_product_for_sale "S1"
        (ProductForSaleCreate.mk 1 5 (Some IN_STOCK)) (SessionLocal (snd Scenario.to_S1_20))
      = (Ok product, s')
      /\ listing_of "S1" 1 (committed s') = Some product
      /\ ProductForSale.quantity product = 20
      /\ ProductForSale.availability product = IN_STOCK).
Proof.
  split; [|split].
  - exact (publish_mirrors_inventory "S1" (ProductForSaleCreate.mk 1 5 (Some IN_STOCK))
             (SessionLocal (snd Scenario.to_D1_30)) Scenario.S1 eq_refl).
  - exact (publish_mirrors_inventory "S1" (ProductForSaleCreate.mk 1 5 (Some IN_STOCK))
             (SessionLocal (snd Scenario.publish)) Scenario.S1 eq_refl).
  - destruct (publish_mirrors_inventory "S1" (ProductForSaleCreate.mk 1 5 (Some IN_STOCK))
                (SessionLocal (snd Scenario.to_S1_20)) Scenario.S1 eq_refl)
      as (product & s' & H1 & H2 & _ & H4 & H5 & _).
    exists product, s'. repeat split; try assumption. apply H5. reflexivity.
Defined.

(** * The resynchronisation that follows a transfer to a seller *)

Lemma seller_order_db_listing b q dn sn su du d :
  listing_of sn b (seller_order_db b q dn sn su du d) = listing_of sn b d.
Proof. unfold seller_order_db. now rewrite credit_seller_eq. Qed.

(** C7. A transfer from a distributor to a seller whose preconditions hold
    returns its result, with the movement of stock committed, whatever the
    synchronisation of the listing does.  When the seller has no listing of
    the blanket the synchronisation, run on the committed transfer, raises
    a [ValueError]; the transfer still returns and what it committed stays.
    When there is a listing, it follows the new inventory before the call
    returns. *)
Theorem seller_transfer_survives_failed_sync b q dn sn s su du r :
  user_by_username sn (pending s) = Some su ->
  user_by_username dn (pending s) = Some du ->
  distributor_stock_of dn b (pending s) = Some r ->
  q <= DistributorStock.quantity r ->
  let transferred := seller_order_db b q dn sn su du (pending s) in
  let received := or_zero (seller_quantity sn b (pending s)) + q in
  exists result s',
    distributor_service.process_seller_order b q dn sn s = (Ok result, s')
    /\ distributor_service.distributor_remaining_stock result
       = DistributorStock.quantity r - q
    /\ distributor_service.seller_inventory result = received
    /\ distributor_quantity dn b (committed s') = Some (DistributorStock.quantity r - q)
    /\ seller_quantity sn b (committed s') = Some received
    /\ seller_orders (committed s')
       = Query.add (SellerOrder.mk (Query.next_id SellerOrder.id (seller_orders (pending s)))
                      (User.id su) (User.id du) b q) (seller_orders (pending s))
    /\ match listing_of sn b (pending s) with
       | None =>
           (exists msg,
               seller_service.sync_product_quantity_with_inventory sn b
                 (SessionLocal transferred)
               = (Raise (ValueError msg), SessionLocal transferred))
           /\ committed s' = transferred
       | Some p =>
           listing_of sn b (committed s') = Some (synced_product received p)
       end.
Proof.
  intros Hs Hd Hr Hq transferred received.
  rewrite process_seller_order_spec, Hs, Hd, Hr.
  apply Z.ltb_ge in Hq. rewrite Hq. cbn zeta. fold transferred.
  eexists. eexists. split; [reflexivity|].
  cbn [committed distributor_service.distributor_remaining_stock
         distributor_service.seller_inventory].
  split; [reflexivity|]. split; [reflexivity|].
  split.
  { rewrite synced_distributor_quantity. unfold distributor_quantity, transferred.
    now rewrite seller_order_db_distributor, Hr. }
  split.
  { rewrite synced_seller_quantity. apply seller_order_db_seller. }
  split.
  { rewrite synced_seller_orders. apply seller_order_db_orders. }
  pose proof (seller_order_db_listing b q dn sn su du (pending s)) as Hl.
  fold transferred in Hl.
  destruct (listing_of sn b (pending s)) as [p|] eqn:Hp.
  - pose proof (seller_order_db_seller b q dn sn su du (pending s)) as Hi.
    fold transferred received in Hi. unfold seller_quantity in Hi.
    destruct (seller_inventory_of sn b transferred) as [inv|] eqn:Ei; [|discriminate].
    injection Hi as Hi. rewrite <- Hi.
    now apply synced_listing.
  - split.
    + apply sync_without_listing. exact Hl.
    + now apply synced_without_listing.
Qed.

Lemma seller_transfer_survives_failed_sync_witness :
  exists result s',
    distributor_service.process_seller_order 1 20 "D1" "S1"
      (SessionLocal (snd Scenario.to_D1_30)) = (Ok result, s')
    /\ distributor_service.distributor_remaining_stock result = 10
    /\ distributor_service.seller_inventory result = 20
    /\ distributor_quantity "D1" 1 (committed s') = Some 10
    /\ seller_quantity "S1" 1 (committed s') = Some 20
    /\ (exists msg,
           seller_service.sync_product_quantity_with_inventory "S1" 1
             (SessionLocal (snd Scenario.to_S1_20))
           = (Raise (ValueError msg), SessionLocal (snd Scenario.to_S1_20))).
Proof.
  destruct (seller_transfer_survives_failed_sync 1 20 "D1" "S1"
              (SessionLocal (snd Scenario.to_D1_30)) Scenario.S1 Scenario.D1
              (DistributorStock.mk 1 "D1" 1 30) eq_refl eq_refl eq_refl
              ltac:(cbn; lia))
    as (result & s' & H1 & H2 & H3 & H4 & H5 & _ & H7 & _).
  exists result, s'. repeat split; assumption.
Defined.

(** * The scenario of the specification *)

(** C8. From a producer that holds 100 units of P1 and empty lower tiers:
    30 units to D1 leave 70 with the producer and 30 with D1, with one
    journal entry; 50 units from D1 to S1 are refused for insufficient
    stock and change nothing; 20 units from D1 to S1 leave 10 with D1 and 20
    with S1; publishing at 5.00 gives a listing of 20 units, in stock; a
    purchase of 20 units without a provided total succeeds with total
    100.00, leaves S1 with 0 and the listing with 0 units, out of stock. *)
Theorem scenario_runs_as_specified :
  (* transfer 30 to D1 *)
  (exists r, fst Scenario.to_D1_30 = Ok r
             /\ manufacturer_service.manufacturer_remaining_stock r = 70
             /\ manufacturer_service.distributor_stock r = 30)
  /\ manufacturer_stock 1 (snd Scenario.to_D1_30) = Some 70
  /\ distributor_quantity "D1" 1 (snd Scenario.to_D1_30) = Some 30
  /\ List.length (distributor_orders (snd Scenario.to_D1_30)) = 1%nat
  /\ List.length (seller_orders (snd Scenario.to_D1_30)) = 0%nat
  /\ List.length (customer_orders (snd Scenario.to_D1_30)) = 0%nat
  (* transfer 50 from D1 to S1 *)
  /\ fst Scenario.to_S1_50 = Raise (ValueError (Insufficient_distributor_stock 30 50))
  /\ snd Scenario.to_S1_50 = snd Scenario.to_D1_30
  (* transfer 20 from D1 to S1 *)
  /\ (exists r, fst Scenario.to_S1_20 = Ok r
                /\ distributor_service.distributor_remaining_stock r = 10
                /\ distributor_service.seller_inventory r = 20)
  /\ distributor_quantity "D1" 1 (snd Scenario.to_S1_20) = Some 10
  /\ seller_quantity "S1" 1 (snd Scenario.to_S1_20) = Some 20
  /\ manufacturer_stock 1 (snd Scenario.to_S1_20) = Some 70
  (* publish at 5.00 *)
  /\ (exists p, fst Scenario.publish = Ok p
                /\ listing_of "S1" 1 (snd Scenario.publish) = Some p
                /\ ProductForSale.price p = 5%float
                /\ ProductForSale.quantity p = 20
                /\ ProductForSale.availability p = IN_STOCK)
  (* purchase of 20 without a provided total *)
  /\ (exists r, fst Scenario.purchase = Ok r
                /\ seller_controller.success r = true
                /\ seller_controller.total_value r = Some 100%float
                /\ seller_controller.remaining_stock r = 0
                /\ seller_controller.processed_quantity r = 20)
  /\ seller_quantity "S1" 1 (snd Scenario.purchase) = Some 0
  /\ option_map ProductForSale.quantity (listing_of "S1" 1 (snd Scenario.purchase)) = Some 0
  /\ option_map ProductForSale.availability (listing_of "S1" 1 (snd Scenario.purchase))
     = Some OUT_OF_STOCK
  /\ option_map CustomerOrder.total_value
       (customer_order_by_id 1 (snd Scenario.purchase)) = Some (Some 100%float).
Proof.
  repeat match goal with
         | |- _ /\ _ => split
         | |- exists _, _ => eexists
         end; vm_compute; reflexivity.
Qed.

(** * Availability checks and the journal *)

Lemma customer_order_db_orders b q sn cn u d :
  customer_orders (customer_order_db b q sn cn u d)
  = Query.add (CustomerOrder.mk (Query.next_id CustomerOrder.id (customer_orders d))
                 cn sn b q (order_status u) (calculated_total b q sn d))
      (customer_orders d).
Proof. reflexivity. Qed.

(** C9. The three availability checks return without raising and leave
    the session, committed database and pending changes, as it was, for
    every input.  A transfer that succeeds adds exactly one record to the
    journal of its tier, at the end, and none to the other two. *)
Theorem checks_are_pure_and_transfers_journal_once :
  (forall b n s, exists r,
        manufacturer_service.check_stock_availability b n s = (Ok r, s))
  /\ (forall dn b n s, exists r,
         distributor_service.check_distributor_stock_availability dn b n s = (Ok r, s))
  /\ (forall sn b n s, exists r,
         seller_service.check_seller_inventory_availability sn b n s = (Ok r, s))
  /\ (forall b q dn u d r d',
         get_db (manufacturer_service.process_distributor_order b q dn u) d = (Ok r, d') ->
         (exists o, distributor_orders d' = Query.add o (distributor_orders d)
                    /\ DistributorOrder.id o = manufacturer_service.order_id r)
         /\ seller_orders d' = seller_orders d
         /\ customer_orders d' = customer_orders d)
  /\ (forall b q dn sn d r d',
         get_db (distributor_service.process_seller_order b q dn sn) d = (Ok r, d') ->
         (exists o, seller_orders d' = Query.add o (seller_orders d)
                    /\ SellerOrder.id o = distributor_service.seller_order_id r)
         /\ distributor_orders d' = distributor_orders d
         /\ customer_orders d' = customer_orders d)
  /\ (forall b q sn cn u t d r d',
         get_db (seller_service.process_customer_order b q sn cn u t) d = (Ok r, d') ->
         customer_orders d' = Query.add (seller_service.customer_order r) (customer_orders d)
         /\ distributor_orders d' = distributor_orders d
         /\ seller_orders d' = seller_orders d).
Proof.
  split; [|split; [|split; [|split; [|split]]]].
  - intros b n s. unfold manufacturer_service.check_stock_availability.
    rewrite bind_query. destruct (blanket_by_id b (pending s)) as [x|];
      [destruct (Blanket.stock x >=? n)|]; eexists; reflexivity.
  - intros dn b n s. unfold distributor_service.check_distributor_stock_availability.
    rewrite bind_query. destruct (distributor_stock_of dn b (pending s)) as [x|];
      [destruct (DistributorStock.quantity x >=? n)|]; eexists; reflexivity.
  - intros sn b n s. unfold seller_service.check_seller_inventory_availability.
    rewrite bind_query. destruct (seller_inventory_of sn b (pending s)) as [x|];
      [destruct (SellerInventory.quantity x >=? n)|]; eexists; reflexivity.
  - intros b q dn u d r d'. unfold get_db.
    rewrite process_distributor_order_spec. cbn [pending SessionLocal].
    destruct (blanket_by_id b d) as [blanket|]; [|discriminate].
    destruct (Blanket.stock blanket <? q); [discriminate|].
    cbn zeta. cbn [committed]. intros [= <- <-].
    rewrite distributor_order_db_orders. split; [eexists; split; reflexivity|].
    unfold distributor_order_db. rewrite credit_distributor_eq. split; reflexivity.
  - intros b q dn sn d r d'. unfold get_db.
    rewrite process_seller_order_spec. cbn [pending SessionLocal].
    destruct (user_by_username sn d) as [su|]; [|discriminate].
    destruct (user_by_username dn d) as [du|]; [|discriminate].
    destruct (distributor_stock_of dn b d) as [x|]; [|discriminate].
    destruct (DistributorStock.quantity x <? q); [discriminate|].
    cbn zeta. cbn [committed]. intros [= <- <-].
    rewrite synced_seller_orders, synced_distributor_orders, synced_customer_orders.
    rewrite seller_order_db_orders. split; [eexists; split; reflexivity|].
    unfold seller_order_db. rewrite credit_seller_eq. split; reflexivity.
  - intros b q sn cn u t d r d'. unfold get_db.
    rewrite process_customer_order_spec. cbn [pending SessionLocal].
    destruct (seller_inventory_of sn b d) as [x|]; [|discriminate].
    destruct (SellerInventory.quantity x <? q); [discriminate|].
    cbn zeta.
    assert (Hdone : forall total,
      total = calculated_total b q sn d ->
      (let (r0, s0) :=
         (Ok (seller_service.mkCustomerOrderResult (SellerInventory.quantity x - q)
                (CustomerOrder.mk (Query.next_id CustomerOrder.id (customer_orders d))
                   cn sn b q (order_status u) total) q),
          mkSession (synced sn b (customer_order_db b q sn cn u d))
                    (synced sn b (customer_order_db b q sn cn u d)))
       in (r0, committed s0)) = (Ok r, d') ->
      customer_orders d' = Query.add (seller_service.customer_order r) (customer_orders d)
      /\ distributor_orders d' = distributor_orders d
      /\ seller_orders d' = seller_orders d).
    { intros total -> [= <- <-].
      rewrite synced_seller_orders, synced_distributor_orders, synced_customer_orders.
      repeat split; reflexivity. }
    destruct t as [provided|]; [destruct (calculated_total b q sn d) as [c|] eqn:Ec|].
    + destruct (seller_service.total_value_mismatch provided c); [discriminate|].
      now apply Hdone.
    + now apply Hdone.
    + now apply Hdone.
Qed.

Lemma checks_are_pure_and_transfers_journal_once_witness :
  (exists o, distributor_orders (snd Scenario.to_D1_30)
             = Query.add o (distributor_orders Scenario.start)
             /\ DistributorOrder.id o = 1)
  /\ (exists o, seller_orders (snd Scenario.to_S1_20)
                = Query.add o (seller_orders (snd Scenario.to_S1_50))
                /\ SellerOrder.id o = 1)
  /\ customer_orders
       (snd (get_db (seller_service.process_customer_order 1 20 "S1" "C1" None None)
               (snd Scenario.publish)))
     = Query.add (CustomerOrder.mk 1 "C1" "S1" 1 20 "pending" (Some 100%float))
         (customer_orders (snd Scenario.publish)).
Proof.
  destruct checks_are_pure_and_transfers_journal_once as (_ & _ & _ & H1 & H2 & H3).
  split; [|split].
  - exact (proj1 (H1 1 30 "D1" Scenario.D1 Scenario.start
                    (manufacturer_service.mkDistributorOrderResult 70 30 30 1)
                    (snd Scenario.to_D1_30) eq_refl)).
  - exact (proj1 (H2 1 20 "D1" "S1" (snd Scenario.to_S1_50)
                    (distributor_service.mkSellerOrderResult 10 20 20 1)
                    (snd Scenario.to_S1_20) eq_refl)).
  - exact (proj1 (H3 1 20 "S1" "C1" None None (snd Scenario.publish)
                    (seller_service.mkCustomerOrderResult 0
                       (CustomerOrder.mk 1 "C1" "S1" 1 20 "pending" (Some 100%float)) 20)
                    _ eq_refl)).
Defined.

(** * The availability asked for when publishing *)

(** C10. The availability given in the payload of a publication has no
    effect: two payloads that differ in it only give the same result and
    the same session, and the availability of a listing that is created is
    in stock when the inventory quantity is positive and out of stock
    otherwise, whatever the payload asked for. *)
Theorem publish_ignores_requested_availability sn b price a a' s :
  seller_service.create_product_for_sale sn (ProductForSaleCreate.mk b price a) s
  = seller_service.create_product_for_sale sn (ProductForSaleCreate.mk b price a') s
  /\ match seller_service.create_product_for_sale sn (ProductForSaleCreate.mk b price a) s
     with
     | (Ok product, _) =>
         exists inv,
           seller_inventory_of sn b (pending s) = Some inv
           /\ ProductForSale.availability product
              = if SellerInventory.quantity inv >? 0 then IN_STOCK else OUT_OF_STOCK
     | (Raise _, s') => s' = s
     end.
Proof.
  rewrite !create_product_for_sale_spec. cbn zeta.
  cbn [ProductForSaleCreate.blanket_id ProductForSaleCreate.price].
  split; [reflexivity|].
  destruct (user_by_username sn (pending s)) as [seller|]; [|reflexivity].
  destruct (seller_inventory_of sn b (pending s)) as [inv|]; [|reflexivity].
  destruct (product_for_sale_of (User.id seller) b (pending s)); [reflexivity|].
  exists inv. split; reflexivity.
Qed.

(** * More facts about tables *)

Section MoreTableFacts.
Context {A : Type}.
Implicit Types (p q : A -> bool) (f : A -> A) (g : A -> Z) (rows : list A).

Lemma sum_where_update_first p q f g rows r0 :
  Query.first p rows = Some r0 ->
  (forall r, q (f r) = q r) ->
  sum_where q g (Query.update_first p f rows)
  = sum_where q g rows + (if q r0 then g (f r0) - g r0 else 0).
Proof.
  intros Hr Hq. revert Hr.
  induction rows as [|r rest IH]; simpl; [discriminate|].
  destruct (p r).
  - intros [= ->]. simpl. rewrite Hq. destruct (q r0); lia.
  - intros Hr. simpl. rewrite (IH Hr). destruct (q r); lia.
Qed.

Lemma sum_where_add q g rows r :
  sum_where q g (Query.add r rows) = sum_where q g rows + (if q r then g r else 0).
Proof.
  unfold Query.add. induction rows as [|x rest IH]; simpl.
  - destruct (q r); lia.
  - rewrite IH. destruct (q x); lia.
Qed.

Lemma first_update_first_other p q f rows :
  (forall r, q (f r) = q r) ->
  (forall r, p r = true -> q r = false) ->
  Query.first q (Query.update_first p f rows) = Query.first q rows.
Proof.
  intros Hq Hpq. induction rows as [|r rest IH]; simpl; [reflexivity|].
  destruct (p r) eqn:E; simpl.
  - rewrite Hq. now rewrite (Hpq r E).
  - now rewrite IH.
Qed.

Lemma map_update_first {K} (key : A -> K) p f rows :
  (forall r, key (f r) = key r) ->
  map key (Query.update_first p f rows) = map key rows.
Proof.
  intros Hk. induction rows as [|r rest IH]; simpl; [reflexivity|].
  destruct (p r); simpl; congruence.
Qed.

Lemma all_update_first p q f rows :
  (forall r, p r = true -> q (f r) = false) ->
  (forall r, p r = true -> q r = false) ->
  Query.all q (Query.update_first p f rows) = Query.all q rows.
Proof.
  intros H1 H2. unfold Query.all.
  induction rows as [|r rest IH]; simpl; [reflexivity|].
  destruct (p r) eqn:E; simpl.
  - now rewrite (H1 r E), (H2 r E).
  - now rewrite IH.
Qed.

Lemma all_add q rows r :
  Query.all q (Query.add r rows) = (Query.all q rows ++ (if q r then [r] else []))%list.
Proof. unfold Query.all, Query.add. now rewrite filter_app. Qed.

Lemma first_none_not_in {K} (key : A -> K) (eqb : K -> K -> bool) (k : K) rows :
  (forall a b, eqb a b = true <-> a = b) ->
  Query.first (fun r => eqb (key r) k) rows = None ->
  ~ In k (map key rows).
Proof.
  intros Heq Hn Hin. apply in_map_iff in Hin as (r & Hr & Hin).
  unfold Query.first in Hn.
  pose proof (find_none _ _ Hn r Hin) as H. cbn in H.
  rewrite Hr in H. assert (eqb k k = true) by (now apply Heq). congruence.
Qed.

Lemma in_remove_first p rows r : In r (Query.remove_first p rows) -> In r rows.
Proof.
  induction rows as [|x rest IH]; simpl; [tauto|].
  destruct (p x); simpl; intuition.
Qed.

Lemma NoDup_map_remove_first {K} (key : A -> K) p rows :
  NoDup (map key rows) -> NoDup (map key (Query.remove_first p rows)).
Proof.
  induction rows as [|x rest IH]; simpl; [auto|].
  intros H. inversion H as [|? ? Hx Hrest]; subst.
  destruct (p x); [assumption|]. simpl. constructor; [|auto].
  intros Hin. apply Hx. apply in_map_iff in Hin as (r & Hr & Hin).
  apply in_map_iff. exists r. split; [assumption|]. now apply in_remove_first in Hin.
Qed.

Lemma length_remove_first p rows r :
  Query.first p rows = Some r ->
  S (List.length (Query.remove_first p rows)) = List.length rows.
Proof.
  induction rows as [|x rest IH]; simpl; [discriminate|].
  destruct (p x); [reflexivity|]. intros H. simpl. now rewrite IH.
Qed.

Lemma first_remove_first_unique {K} (key : A -> K) p rows r :
  NoDup (map key rows) ->
  Query.first p rows = Some r ->
  ~ In (key r) (map key (Query.remove_first p rows)).
Proof.
  induction rows as [|x rest IH]; simpl; [discriminate|].
  intros H. inversion H as [|? ? Hx Hrest]; subst.
  destruct (p x).
  - intros [= ->]. assumption.
  - intros Hr. simpl. intros [E|Hin].
    + apply Hx. rewrite E. apply in_map. unfold Query.first in Hr.
      now apply find_some in Hr.
    + now apply (IH Hrest Hr).
Qed.

Lemma NoDup_map_add {K} (key : A -> K) rows r :
  NoDup (map key rows) -> ~ In (key r) (map key rows) ->
  NoDup (map key (Query.add r rows)).
Proof.
  intros H Hn. unfold Query.add. rewrite map_app. simpl.
  apply NoDup_app; [assumption|repeat constructor; simpl; tauto|].
  intros k Hk [<-|[]]. contradiction.
Qed.
End MoreTableFacts.

(** * The units of a blanket in the whole chain *)

Lemma total_units_debit_manufacturer b q d b' blanket :
  blanket_by_id b d = Some blanket ->
  total_units b' (debit_manufacturer b q d)
  = total_units b' d - (if b' =? b then q else 0).
Proof.
  intros Hb. unfold total_units, debit_manufacturer. cbn [blankets distributor_stock
    seller_inventory set_blankets].
  rewrite (sum_where_update_first _ _ _ _ _ blanket Hb) by reflexivity.
  apply first_sat in Hb. unfold is_blanket in *. apply Z.eqb_eq in Hb. rewrite Hb.
  cbn [Blanket.stock Blanket.with_stock].
  rewrite (Z.eqb_sym b b'). destruct (b' =? b); lia.
Qed.

Lemma total_units_debit_distributor dn b q d b' r :
  distributor_stock_of dn b d = Some r ->
  total_units b' (debit_distributor dn b q d)
  = total_units b' d - (if b' =? b then q else 0).
Proof.
  intros Hr. unfold total_units, debit_distributor. cbn [blankets distributor_stock
    seller_inventory set_distributor_stock].
  rewrite (sum_where_update_first _ _ _ _ _ r Hr) by reflexivity.
  apply first_sat in Hr. unfold is_distributor_stock in Hr.
  apply andb_true_iff in Hr as [_ Hr]. apply Z.eqb_eq in Hr. rewrite Hr.
  cbn [DistributorStock.quantity DistributorStock.with_quantity].
  rewrite (Z.eqb_sym b b'). destruct (b' =? b); lia.
Qed.

Lemma total_units_debit_seller sn b q d b' r :
  seller_inventory_of sn b d = Some r ->
  total_units b' (debit_seller sn b q d)
  = total_units b' d - (if b' =? b then q else 0).
Proof.
  intros Hr. unfold total_units, debit_seller. cbn [blankets distributor_stock
    seller_inventory set_seller_inventory].
  rewrite (sum_where_update_first _ _ _ _ _ r Hr) by reflexivity.
  apply first_sat in Hr. unfold is_seller_inventory in Hr.
  apply andb_true_iff in Hr as [_ Hr]. apply Z.eqb_eq in Hr. rewrite Hr.
  cbn [SellerInventory.quantity SellerInventory.with_quantity].
  rewrite (Z.eqb_sym b b'). destruct (b' =? b); lia.
Qed.

Lemma total_units_credit_distributor dn b q d b' :
  total_units b' (credit_distributor dn b q d)
  = total_units b' d + (if b' =? b then q else 0).
Proof.
  unfold total_units, credit_distributor.
  destruct (distributor_stock_of dn b d) as [r|] eqn:Hr;
    cbn [blankets distributor_stock seller_inventory set_distributor_stock].
  - rewrite (sum_where_update_first _ _ _ _ _ r Hr) by reflexivity.
    apply first_sat in Hr. unfold is_distributor_stock in Hr.
    apply andb_true_iff in Hr as [_ Hr]. apply Z.eqb_eq in Hr. rewrite Hr.
    cbn [DistributorStock.quantity DistributorStock.with_quantity].
    rewrite (Z.eqb_sym b b'). destruct (b' =? b); lia.
  - rewrite sum_where_add. cbn [DistributorStock.blanket_id DistributorStock.quantity].
    rewrite (Z.eqb_sym b b'). destruct (b' =? b); lia.
Qed.

Lemma total_units_credit_seller sn b q d b' :
  total_units b' (credit_seller sn b q d)
  = total_units b' d + (if b' =? b then q else 0).
Proof.
  unfold total_units, credit_seller.
  destruct (seller_inventory_of sn b d) as [r|] eqn:Hr;
    cbn [blankets distributor_stock seller_inventory set_seller_inventory].
  - rewrite (sum_where_update_first _ _ _ _ _ r Hr) by reflexivity.
    apply first_sat in Hr. unfold is_seller_inventory in Hr.
    apply andb_true_iff in Hr as [_ Hr]. apply Z.eqb_eq in Hr. rewrite Hr.
    cbn [SellerInventory.quantity SellerInventory.with_quantity].
    rewrite (Z.eqb_sym b b'). destruct (b' =? b); lia.
  - rewrite sum_where_add. cbn [SellerInventory.blanket_id SellerInventory.quantity].
    rewrite (Z.eqb_sym b b'). destruct (b' =? b); lia.
Qed.

Lemma total_units_synced sn b d b' : total_units b' (synced sn b d) = total_units b' d.
Proof.
  unfold total_units.
  now rewrite synced_blankets, synced_distributor_stock, synced_seller_inventory.
Qed.

(** X1. A successful transfer from the manufacturer to a distributor, or
    from a distributor to a seller, leaves the number of units of every
    blanket in the chain (manufacturer, all distributors and all sellers
    together) as it was; a successful customer order takes exactly the
    quantity sold out of the chain, and nothing of any other blanket. *)
Theorem transfers_keep_the_units_of_the_chain :
  (forall b q dn u d r d' b',
      get_db (manufacturer_service.process_distributor_order b q dn u) d = (Ok r, d') ->
      total_units b' d' = total_units b' d)
  /\ (forall b q dn sn d r d' b',
         get_db (distributor_service.process_seller_order b q dn sn) d = (Ok r, d') ->
         total_units b' d' = total_units b' d)
  /\ (forall b q sn cn u t d r d' b',
         get_db (seller_service.process_customer_order b q sn cn u t) d = (Ok r, d') ->
         total_units b' d' = total_units b' d - (if b' =? b then q else 0)).
Proof.
  split; [|split].
  - intros b q dn u d r d' b'. unfold get_db.
    rewrite process_distributor_order_spec. cbn [pending SessionLocal].
    destruct (blanket_by_id b d) as [blanket|] eqn:Hb; [|discriminate].
    destruct (Blanket.stock blanket <? q); [discriminate|].
    cbn zeta. cbn [committed]. intros [= _ <-].
    unfold distributor_order_db.
    change (total_units b' (set_distributor_orders ?f ?x)) with (total_units b' x).
    rewrite total_units_credit_distributor,
      (total_units_debit_manufacturer b q d b' blanket Hb).
    lia.
  - intros b q dn sn d r d' b'. unfold get_db.
    rewrite process_seller_order_spec. cbn [pending SessionLocal].
    destruct (user_by_username sn d) as [su|]; [|discriminate].
    destruct (user_by_username dn d) as [du|]; [|discriminate].
    destruct (distributor_stock_of dn b d) as [x|] eqn:Hx; [|discriminate].
    destruct (DistributorStock.quantity x <? q); [discriminate|].
    cbn zeta. cbn [committed]. intros [= _ <-].
    rewrite total_units_synced. unfold seller_order_db.
    change (total_units b' (set_seller_orders ?f ?x)) with (total_units b' x).
    rewrite total_units_credit_seller,
      (total_units_debit_distributor dn b q d b' x Hx).
    lia.
  - intros b q sn cn u t d r d' b'. unfold get_db.
    rewrite process_customer_order_spec. cbn [pending SessionLocal].
    destruct (seller_inventory_of sn b d) as [x|] eqn:Hx; [|discriminate].
    destruct (SellerInventory.quantity x <? q); [discriminate|].
    cbn zeta.
    assert (Hdone : forall res,
      (let (r0, s0) :=
         (res, mkSession (synced sn b (customer_order_db b q sn cn u d))
                         (synced sn b (customer_order_db b q sn cn u d)))
       in (r0, committed s0)) = (Ok r, d') ->
      total_units b' d' = total_units b' d - (if b' =? b then q else 0)).
    { intros res [= _ <-]. rewrite total_units_synced. unfold customer_order_db.
      change (total_units b' (set_customer_orders ?f ?x)) with (total_units b' x).
      exact (total_units_debit_seller sn b q d b' x Hx). }
    destruct t as [provided|]; [destruct (calculated_total b q sn d) as [c|]|];
      try apply Hdone.
    destruct (seller_service.total_value_mismatch provided c); [discriminate|apply Hdone].
Qed.

Lemma transfers_keep_the_units_of_the_chain_witness :
  total_units 1 (snd Scenario.to_D1_30) = total_units 1 Scenario.start
  /\ total_units 1 (snd Scenario.to_S1_20) = total_units 1 (snd Scenario.to_S1_50)
  /\ total_units 1
       (snd (get_db (seller_service.process_customer_order 1 20 "S1" "C1" None None)
               (snd Scenario.publish)))
     = total_units 1 (snd Scenario.publish) - 20.
Proof.
  destruct transfers_keep_the_units_of_the_chain as (H1 & H2 & H3).
  split; [|split].
  - exact (H1 1 30 "D1" Scenario.D1 Scenario.start
              (manufacturer_service.mkDistributorOrderResult 70 30 30 1)
              (snd Scenario.to_D1_30) 1 eq_refl).
  - exact (H2 1 20 "D1" "S1" (snd Scenario.to_S1_50)
              (distributor_service.mkSellerOrderResult 10 20 20 1)
              (snd Scenario.to_S1_20) 1 eq_refl).
  - exact (H3 1 20 "S1" "C1" None None (snd Scenario.publish)
              (seller_service.mkCustomerOrderResult 0
                 (CustomerOrder.mk 1 "C1" "S1" 1 20 "pending" (Some 100%float)) 20)
              _ 1 eq_refl).
Defined.



(** * The other services *)

Lemma update_first_id {A} (p : A -> bool) (rows : list A) :
  Query.update_first p (fun r => r) rows = rows.
Proof.
  induction rows as [|r rest IH]; simpl; [reflexivity|].
  destruct (p r); congruence.
Qed.

Lemma update_product_for_sale_spec sn i data s :
  seller_service.update_product_for_sale sn i data s =
  match user_by_username sn (pending s) with
  | None => (Raise (ValueError (Seller_not_found sn)), s)
  | Some seller =>
      let this p := (ProductForSale.id p =? i)
                    && (ProductForSale.seller_id p =? User.id seller) in
      match Query.first this (products_for_sale (pending s)) with
      | None => (Raise (ValueError Product_not_found), s)
      | Some p =>
          let d := set_products_for_sale
                     (Query.update_first this (updated_product data)) (pending s) in
          (Ok (updated_product data p), mkSession d d)
      end
  end.
Proof.
  unfold seller_service.update_product_for_sale.
  rewrite bind_query.
  destruct (user_by_username sn (pending s)) as [seller|]; [|reflexivity].
  cbn zeta. rewrite bind_query.
  set (this := fun p => (ProductForSale.id p =? i)
                        && (ProductForSale.seller_id p =? User.id seller)).
  destruct (Query.first this (products_for_sale (pending s))) as [p|] eqn:Hp;
    [|reflexivity].
  assert (Hthis : forall f,
             (forall x, ProductForSale.id (f x) = ProductForSale.id x
                        /\ ProductForSale.seller_id (f x) = ProductForSale.seller_id x) ->
             forall x, this x = true -> this (f x) = true).
  { intros f Hf x Hx. unfold this in *. destruct (Hf x) as [-> ->]. exact Hx. }
  assert (E : set_products_for_sale (Query.update_first this (updated_product data))
                (pending s)
              = match ProductForSaleUpdate.availability data with
                | Some v =>
                    set_products_for_sale
                      (Query.update_first this (ProductForSale.with_availability v))
                | None => fun d => d
                end
                  (match ProductForSaleUpdate.price data with
                   | Some v =>
                       set_products_for_sale
                         (Query.update_first this (ProductForSale.with_price v))
                   | None => fun d => d
                   end (pending s))).
  { unfold updated_product.
    destruct (ProductForSaleUpdate.price data) as [v|],
             (ProductForSaleUpdate.availability data) as [a|];
      unfold set_products_for_sale; cbn [products_for_sale users blankets
        distributor_orders distributor_stock seller_inventory customer_orders
        seller_orders]; try reflexivity.
    - f_equal. rewrite update_first_twice; [reflexivity|].
      apply Hthis. intros x. split; reflexivity.
    - rewrite update_first_id. now destruct (pending s). }
  assert (Hupd : forall x, this x = true -> this (updated_product data x) = true).
  { apply Hthis. intros x. unfold updated_product.
    destruct (ProductForSaleUpdate.price data), (ProductForSaleUpdate.availability data);
      split; reflexivity. }
  cbn zeta.
  set (X := set_products_for_sale (Query.update_first this (updated_product data))
              (pending s)) in *.
  assert (HX : Query.first this (products_for_sale X) = Some (updated_product data p)).
  { unfold X. cbn [products_for_sale set_products_for_sale].
    rewrite first_update_first by exact Hupd. now rewrite Hp. }
  clearbody X.
  destruct (ProductForSaleUpdate.price data) as [v|],
           (ProductForSaleUpdate.availability data) as [a|];
    repeat (rewrite bind_mutate || rewrite bind_ret); rewrite bind_commit;
    cbn [pending committed]; cbn beta in E; rewrite <- E;
    (rewrite refresh_some with (r := updated_product data p); [reflexivity|]);
    exact HX.
Qed.

Lemma delete_product_for_sale_spec sn i s :
  seller_service.delete_product_for_sale sn i s =
  match user_by_username sn (pending s) with
  | None => (Raise (ValueError (Seller_not_found sn)), s)
  | Some seller =>
      let this p := (ProductForSale.id p =? i)
                    && (ProductForSale.seller_id p =? User.id seller) in
      match Query.first this (products_for_sale (pending s)) with
      | None => (Raise (ValueError Product_not_found), s)
      | Some _ =>
          let d := set_products_for_sale (Query.remove_first this) (pending s) in
          (Ok tt, mkSession d d)
      end
  end.
Proof.
  unfold seller_service.delete_product_for_sale.
  rewrite bind_query.
  destruct (user_by_username sn (pending s)) as [seller|]; [|reflexivity].
  cbn zeta. rewrite bind_query.
  destruct (Query.first _ (products_for_sale (pending s))); reflexivity.
Qed.

Lemma place_customer_order_spec data u s :
  seller_service.place_customer_order data u s =
  let order :=
    CustomerOrder.mk (Query.next_id CustomerOrder.id (customer_orders (pending s)))
      (CustomerOrderCreate.customer_name data) (CustomerOrderCreate.seller_name data)
      (CustomerOrderCreate.blanket_id data) (CustomerOrderCreate.quantity data)
      (order_status u) None in
  let d := set_customer_orders (Query.add order) (pending s) in
  (Ok order, mkSession d d).
Proof.
  unfold seller_service.place_customer_order. cbn zeta. fold (order_status u).
  rewrite bind_query, bind_mutate, bind_commit. cbn [pending committed].
  erewrite refresh_some; [reflexivity|].
  cbn [pending]. unfold customer_order_by_id.
  cbn [customer_orders set_customer_orders]. now apply first_added.
Qed.

Lemma update_order_status_spec i status s :
  seller_service.update_order_status i status s =
  match customer_order_by_id i (pending s) with
  | None => (Ok None, s)
  | Some order =>
      let d := set_customer_orders
                 (Query.update_first (is_customer_order i)
                    (CustomerOrder.with_status status)) (pending s) in
      (Ok (Some (CustomerOrder.with_status status order)), mkSession d d)
  end.
Proof.
  unfold seller_service.update_order_status. rewrite bind_query.
  destruct (customer_order_by_id i (pending s)) as [order|] eqn:Ho; [|reflexivity].
  rewrite bind_mutate, bind_commit. cbn [pending committed].
  erewrite bind_refresh; [reflexivity|].
  cbn [pending]. unfold customer_order_by_id in *.
  cbn [customer_orders set_customer_orders].
  change (fun o => CustomerOrder.id o =? i) with (is_customer_order i) in *.
  rewrite first_update_first by (intros r Hr; exact Hr). now rewrite Ho.
Qed.

Lemma place_order_spec data user s :
  distributor_service.place_order data user s =
  let order :=
    DistributorOrder.mk (Query.next_id DistributorOrder.id (distributor_orders (pending s)))
      (User.id user) (DistributorOrderCreate.blanket_id data)
      (DistributorOrderCreate.quantity data) in
  let d := set_distributor_orders (Query.add order) (pending s) in
  (Ok (distributor_service.order_out d order), mkSession d d).
Proof.
  unfold distributor_service.place_order. cbn zeta.
  rewrite bind_query, bind_mutate, bind_commit. cbn [pending committed].
  set (order := DistributorOrder.mk _ _ _ _).
  assert (H : distributor_order_by_id (DistributorOrder.id order)
                (set_distributor_orders (Query.add order) (pending s)) = Some order).
  { unfold distributor_order_by_id. cbn [distributor_orders set_distributor_orders].
    now apply first_added. }
  erewrite bind_refresh by (cbn [pending]; exact H).
  erewrite bind_refresh by (cbn [pending]; exact H).
  reflexivity.
Qed.

Lemma create_blanket_spec data image s :
  manufacturer_service.create_blanket data image s =
  let blanket :=
    Blanket.mk (Query.next_id Blanket.id (blankets (pending s)))
      (BlanketCreate.model_name data) (BlanketCreate.material data)
      (BlanketCreate.stock data) (BlanketCreate.production_capacity data) image in
  let d := set_blankets (Query.add blanket) (pending s) in
  (Ok blanket, mkSession d d).
Proof.
  unfold manufacturer_service.create_blanket. cbn zeta.
  rewrite bind_query, bind_mutate, bind_commit. cbn [pending committed].
  erewrite refresh_some; [reflexivity|].
  cbn [pending]. unfold blanket_by_id, is_blanket. cbn [blankets set_blankets].
  now apply first_added.
Qed.

Lemma update_production_capacity_spec b data s :
  manufacturer_service.update_production_capacity b data s =
  match blanket_by_id b (pending s) with
  | None => (Ok 0, s)
  | Some _ =>
      let d := set_blankets
                 (Query.update_first (is_blanket b)
                    (Blanket.with_production_capacity
                       (ProductionCapacityUpdate.production_capacity data)))
                 (pending s) in
      (Ok (ProductionCapacityUpdate.production_capacity data), mkSession d d)
  end.
Proof.
  unfold manufacturer_service.update_production_capacity. rewrite bind_query.
  destruct (blanket_by_id b (pending s)) as [blanket|] eqn:Hb; [|reflexivity].
  rewrite bind_mutate, bind_commit. cbn [pending committed].
  rewrite bind_refresh
    with (r := Blanket.with_production_capacity
                 (ProductionCapacityUpdate.production_capacity data) blanket);
    [reflexivity|].
  cbn [pending]. unfold blanket_by_id in *. cbn [blankets set_blankets].
  rewrite first_update_first by (intros r Hr; exact Hr). now rewrite Hb.
Qed.

Lemma set_blankets_update_id p d :
  set_blankets (Query.update_first p (fun r => r)) d = d.
Proof. unfold set_blankets. rewrite update_first_id. now destruct d. Qed.

Lemma set_blankets_twice p f g d :
  (forall r, p r = true -> p (f r) = true) ->
  set_blankets (Query.update_first p g) (set_blankets (Query.update_first p f) d)
  = set_blankets (Query.update_first p (fun r => g (f r))) d.
Proof.
  intros Hp. unfold set_blankets. cbn. f_equal. now apply update_first_twice.
Qed.

Lemma bind_assign_if_given {V B} (v : option V) (set : V -> Blanket.t -> Blanket.t)
    b (k : M B) s :
  (manufacturer_service.assign_if_given v set b ;; k) s
  = k (mkSession (committed s)
         (set_blankets
            (Query.update_first (is_blanket b)
               (fun x => match v with Some v => set v x | None => x end))
            (pending s))).
Proof.
  destruct v as [v|]; cbn [manufacturer_service.assign_if_given].
  - reflexivity.
  - rewrite bind_ret, set_blankets_update_id. now destruct s.
Qed.

Lemma bind_bind {A B C} (m : M A) (k : A -> M B) (h : B -> M C) s :
  (y <- (x <- m ;; k x) ;; h y) s = (x <- m ;; y <- k x ;; h y) s.
Proof. unfold bind. destruct (m s) as [[a|e] s']; reflexivity. Qed.

Lemma update_blanket_spec b update_data image s :
  manufacturer_service.update_blanket b update_data image s =
  match blanket_by_id b (pending s) with
  | None => (Ok None, s)
  | Some blanket =>
      let d := set_blankets
                 (Query.update_first (is_blanket b) (updated_blanket update_data image))
                 (pending s) in
      (Ok (Some (manufacturer_service.mkBlanketUpdateResult
                   (updated_blanket update_data image blanket)
                   (Blanket.image_url blanket))),
       mkSession d d)
  end.
Proof.
  unfold manufacturer_service.update_blanket. rewrite bind_query.
  destruct (blanket_by_id b (pending s)) as [blanket|] eqn:Hb; [|reflexivity].
  cbn zeta.
  assert (Hid : forall (f : Blanket.t -> Blanket.t),
             (forall x, Blanket.id (f x) = Blanket.id x) ->
             forall r, is_blanket b r = true -> is_blanket b (f r) = true).
  { intros f Hf r Hr. unfold is_blanket in *. now rewrite Hf. }
  assert (Hfinal : forall d0,
    d0 = set_blankets
           (Query.update_first (is_blanket b) (updated_blanket update_data image))
           (pending s) ->
    (commit ;;
     blanket0 <- refresh (blanket_by_id b) ;;
     ret (Some (manufacturer_service.mkBlanketUpdateResult blanket0
                  (Blanket.image_url blanket)))) (mkSession (committed s) d0)
    = (Ok (Some (manufacturer_service.mkBlanketUpdateResult
                   (updated_blanket update_data image blanket)
                   (Blanket.image_url blanket))),
       mkSession d0 d0)).
  { intros d0 ->. rewrite bind_commit. cbn [pending committed].
    erewrite bind_refresh; [reflexivity|].
    cbn [pending]. unfold blanket_by_id in *. cbn [blankets set_blankets].
    rewrite first_update_first; [now rewrite Hb|].
    apply Hid. intros x. unfold updated_blanket.
    destruct update_data as [data|], image as [img|]; cbn [option_map];
      try destruct (BlanketUpdate.model_name data);
      try destruct (BlanketUpdate.material data);
      try destruct (BlanketUpdate.stock data);
      try destruct (BlanketUpdate.production_capacity data); reflexivity. }
  destruct update_data as [data|].
  - repeat ((rewrite bind_bind || rewrite bind_assign_if_given);
            cbn [pending committed]).
    rewrite !set_blankets_twice.
    + apply Hfinal. reflexivity.
    + apply Hid. intros x. now destruct (BlanketUpdate.model_name data).
    + apply Hid. intros x.
      now destruct (BlanketUpdate.model_name data), (BlanketUpdate.material data).
    + apply Hid. intros x.
      now destruct (BlanketUpdate.model_name data), (BlanketUpdate.material data),
        (BlanketUpdate.stock data).
    + apply Hid. intros x.
      now destruct (BlanketUpdate.model_name data), (BlanketUpdate.material data),
        (BlanketUpdate.stock data), (BlanketUpdate.production_capacity data).
  - rewrite bind_ret, bind_assign_if_given. cbn [pending committed].
    apply Hfinal. reflexivity.
Qed.

(** * Failures are not partially applied *)



(** * Availability checks against the transfers *)

(** X4. In one and the same session, each availability check answers for
    its transfer.  The manufacturer's check says available exactly when
    [process_distributor_order] of the same blanket and quantity succeeds.
    The distributor's check says available exactly when
    [process_seller_order] succeeds, for a seller and a distributor that are
    users.  When the seller's check says unavailable
    [process_customer_order] raises and changes nothing; when it says
    available the order is placed unless a provided total is refused.  A
    check reports the quantity on hand, 0 when there is no record. *)
Theorem checks_answer_for_the_transfers :
  (forall b n dn u s,
      exists a,
        manufacturer_service.check_stock_availability b n s = (Ok a, s)
        /\ current_stock a = or_zero (manufacturer_stock b (pending s))
        /\ (available a = true <->
            exists r s',
              manufacturer_service.process_distributor_order b n dn u s = (Ok r, s')))
  /\ (forall dn b n sn s su du,
         user_by_username sn (pending s) = Some su ->
         user_by_username dn (pending s) = Some du ->
         exists a,
           distributor_service.check_distributor_stock_availability dn b n s = (Ok a, s)
           /\ current_stock a = or_zero (distributor_quantity dn b (pending s))
           /\ (available a = true <->
               exists r s',
                 distributor_service.process_seller_order b n dn sn s = (Ok r, s')))
  /\ (forall sn b n cn u t s,
         exists a,
           seller_service.check_seller_inventory_availability sn b n s = (Ok a, s)
           /\ current_stock a = or_zero (seller_quantity sn b (pending s))
           /\ (available a = false ->
               exists e, seller_service.process_customer_order b n sn cn u t s
                         = (Raise (ValueError e), s))
           /\ (available a = true ->
               (exists r s',
                   seller_service.process_customer_order b n sn cn u t s = (Ok r, s'))
               \/ (exists c p s',
                      seller_service.process_customer_order b n sn cn u t s
                      = (Raise (ValueError (Total_value_mismatch c p)), s')))).
Proof.
  split; [|split].
  - intros b n dn u s. unfold manufacturer_service.check_stock_availability.
    rewrite bind_query, process_distributor_order_spec. unfold manufacturer_stock.
    destruct (blanket_by_id b (pending s)) as [x|].
    + destruct (Z.ltb_spec (Blanket.stock x) n) as [Hlt|Hge].
      * assert (E : (Blanket.stock x >=? n) = false) by (rewrite Z.geb_leb; apply Z.leb_gt; lia).
        rewrite E. eexists. split; [reflexivity|]. split; [reflexivity|].
        cbn. split; [discriminate|]. intros (r & s' & H). discriminate.
      * assert (E : (Blanket.stock x >=? n) = true) by (rewrite Z.geb_leb; apply Z.leb_le; lia).
        rewrite E. eexists. split; [reflexivity|]. split; [reflexivity|].
        cbn. split; [|reflexivity]. intros _. eexists. eexists. reflexivity.
    + eexists. split; [reflexivity|]. split; [reflexivity|].
      cbn. split; [discriminate|]. intros (r & s' & H). discriminate.
  - intros dn b n sn s su du Hs Hd.
    unfold distributor_service.check_distributor_stock_availability.
    rewrite bind_query, process_seller_order_spec, Hs, Hd. unfold distributor_quantity.
    destruct (distributor_stock_of dn b (pending s)) as [x|].
    + destruct (Z.ltb_spec (DistributorStock.quantity x) n) as [Hlt|Hge].
      * assert (E : (DistributorStock.quantity x >=? n) = false)
          by (rewrite Z.geb_leb; apply Z.leb_gt; lia).
        rewrite E. eexists. split; [reflexivity|]. split; [reflexivity|].
        cbn. split; [discriminate|]. intros (r & s' & H). discriminate.
      * assert (E : (DistributorStock.quantity x >=? n) = true)
          by (rewrite Z.geb_leb; apply Z.leb_le; lia).
        rewrite E. eexists. split; [reflexivity|]. split; [reflexivity|].
        cbn. split; [|reflexivity]. intros _. eexists. eexists. reflexivity.
    + eexists. split; [reflexivity|]. split; [reflexivity|].
      cbn. split; [discriminate|]. intros (r & s' & H). discriminate.
  - intros sn b n cn u t s.
    unfold seller_service.check_seller_inventory_availability.
    rewrite bind_query, process_customer_order_spec. unfold seller_quantity.
    destruct (seller_inventory_of sn b (pending s)) as [x|].
    + destruct (Z.ltb_spec (SellerInventory.quantity x) n) as [Hlt|Hge].
      * assert (E : (SellerInventory.quantity x >=? n) = false)
          by (rewrite Z.geb_leb; apply Z.leb_gt; lia).
        rewrite E. eexists. split; [reflexivity|]. split; [reflexivity|].
        cbn. split; [|discriminate]. intros _. eexists. reflexivity.
      * assert (E : (SellerInventory.quantity x >=? n) = true)
          by (rewrite Z.geb_leb; apply Z.leb_le; lia).
        rewrite E. eexists. split; [reflexivity|]. split; [reflexivity|].
        cbn [available]. split; [discriminate|]. intros _. cbn zeta.
        destruct t as [provided|];
          [destruct (calculated_total b n sn (pending s)) as [c|]|];
          try (left; eexists; eexists; reflexivity).
        destruct (seller_service.total_value_mismatch provided c).
        -- right. eexists. eexists. eexists. reflexivity.
        -- left. eexists. eexists. reflexivity.
    + eexists. split; [reflexivity|]. split; [reflexivity|].
      cbn. split; [|discriminate]. intros _. eexists. reflexivity.
Qed.

Lemma checks_answer_for_the_transfers_witness :
  exists a,
    distributor_service.check_distributor_stock_availability "D1" 1 20
      (SessionLocal (snd Scenario.to_D1_30)) = (Ok a, SessionLocal (snd Scenario.to_D1_30))
    /\ current_stock a = 30
    /\ available a = true
    /\ exists r s',
         distributor_service.process_seller_order 1 20 "D1" "S1"
           (SessionLocal (snd Scenario.to_D1_30)) = (Ok r, s').
Proof.
  destruct (proj1 (proj2 checks_answer_for_the_transfers) "D1" 1 20 "S1"
              (SessionLocal (snd Scenario.to_D1_30)) Scenario.S1 Scenario.D1
              eq_refl eq_refl) as (a & H1 & H2 & H3).
  exists a. split; [exact H1|]. split; [exact H2|].
  assert (Ha : available a = true) by (now injection H1 as <-).
  split; [exact Ha|]. apply H3. exact Ha.
Defined.

(** * Synchronising twice *)

Lemma synced_product_twice q p :
  synced_product q (synced_product q p) = synced_product q p.
Proof.
  unfold synced_product. cbn [ProductForSale.id ProductForSale.seller_id
    ProductForSale.blanket_id ProductForSale.price ProductForSale.availability].
  destruct (q =? 0); [reflexivity|].
  destruct (ProductForSale.availability p); cbn [AvailabilityStatus_eqb andb];
    destruct (q >? 0); reflexivity.
Qed.

Lemma get_db_sync sn b d :
  snd (get_db (seller_service.sync_product_quantity_with_inventory sn b) d)
  = synced sn b d.
Proof.
  unfold get_db. rewrite sync_product_quantity_with_inventory_spec.
  cbn [pending SessionLocal]. unfold synced.
  destruct (user_by_username sn d) as [seller|]; [|reflexivity].
  destruct (seller_inventory_of sn b d); [|reflexivity].
  destruct (product_for_sale_of (User.id seller) b d); reflexivity.
Qed.

Lemma synced_users_lookup sn b n d :
  user_by_username n (synced sn b d) = user_by_username n d.
Proof. unfold user_by_username. now rewrite synced_users. Qed.

Lemma synced_twice sn b d : synced sn b (synced sn b d) = synced sn b d.
Proof.
  destruct (listing_of sn b d) as [p|] eqn:Hp.
  - destruct (seller_inventory_of sn b d) as [inv|] eqn:Hi.
    + pose proof (synced_listing sn b d inv p Hi Hp) as Hl.
      unfold listing_of in Hp, Hl. rewrite synced_users_lookup in Hl.
      destruct (user_by_username sn d) as [seller|] eqn:Hu; [|discriminate].
      unfold synced at 1. rewrite synced_users_lookup, Hu.
      unfold seller_inventory_of at 1. rewrite synced_seller_inventory.
      fold (seller_inventory_of sn b d). rewrite Hi, Hl.
      unfold synced. rewrite Hu, Hi, Hp.
      unfold set_products_for_sale. cbn. f_equal.
      rewrite update_first_twice by (intros x Hx; exact Hx).
      apply (update_first_ext _ _ _ _ p Hp). apply synced_product_twice.
    + assert (E : synced sn b d = d).
      { unfold synced. destruct (user_by_username sn d); [|reflexivity]. now rewrite Hi. }
      now rewrite !E.
  - now rewrite !(synced_without_listing sn b d Hp).
Qed.

(** X5. Synchronising a listing is idempotent: a second
    [sync_product_quantity_with_inventory] of the same pair, right after the
    first, returns or raises the same and leaves the database as the first
    one left it. *)
Theorem sync_is_idempotent sn b d :
  get_db (seller_service.sync_product_quantity_with_inventory sn b)
    (snd (get_db (seller_service.sync_product_quantity_with_inventory sn b) d))
  = get_db (seller_service.sync_product_quantity_with_inventory sn b) d.
Proof.
  rewrite get_db_sync.
  assert (H : forall d0,
    get_db (seller_service.sync_product_quantity_with_inventory sn b) d0
    = (fst (get_db (seller_service.sync_product_quantity_with_inventory sn b) d0),
       synced sn b d0)).
  { intros d0. rewrite <- get_db_sync. now destruct (get_db _ d0). }
  rewrite (H (synced sn b d)), (H d), synced_twice. f_equal.
  unfold get_db. rewrite !sync_product_quantity_with_inventory_spec.
  cbn [pending SessionLocal]. rewrite synced_users_lookup.
  destruct (user_by_username sn d) as [seller|] eqn:Hu; [|reflexivity].
  unfold seller_inventory_of at 1. rewrite synced_seller_inventory.
  fold (seller_inventory_of sn b d).
  destruct (seller_inventory_of sn b d) as [inv|] eqn:Hi; [|reflexivity].
  destruct (product_for_sale_of (User.id seller) b d) as [p|] eqn:Hp.
  - assert (Hl : listing_of sn b d = Some p) by (unfold listing_of; now rewrite Hu).
    pose proof (synced_listing sn b d inv p Hi Hl) as Hl'.
    unfold listing_of in Hl'. rewrite synced_users_lookup, Hu in Hl'.
    rewrite Hl'. cbn [fst]. now rewrite synced_product_twice.
  - assert (Hl : listing_of sn b d = None) by (unfold listing_of; now rewrite Hu).
    rewrite (synced_without_listing sn b d Hl), Hp. reflexivity.
Qed.

(** * What a customer purchase does *)

(** X6. A customer purchase of [q] units from a listing that is in stock
    with at least [q] units, by a seller whose inventory holds at least [q],
    with no provided total or one the check accepts, succeeds.  It reports
    the inventory left and the total (price times quantity), leaves the
    seller with the inventory minus [q], adds the order at the end of the
    journal, completed when the authenticated user has the role seller and
    pending otherwise, and leaves the listing with the quantity of the
    inventory, even when the listing was stale, out of stock exactly when
    nothing is left. *)
Theorem customer_purchase_outcome data user d p inv :
  let sn := CustomerPurchase.seller_name data in
  let b := CustomerPurchase.blanket_id data in
  let q := CustomerPurchase.quantity data in
  let total := PrimFloat.mul (ProductForSale.price p) (float_of_Z q) in
  listing_of sn b d = Some p ->
  ProductForSale.availability p = IN_STOCK ->
  q <= ProductForSale.quantity p ->
  seller_inventory_of sn b d = Some inv ->
  q <= SellerInventory.quantity inv ->
  match CustomerPurchase.total_value data with
  | Some provided => seller_service.total_value_mismatch provided total = false
  | None => True
  end ->
  exists response d',
    get_db (seller_controller.customer_purchase data user) d = (Ok response, d')
    /\ seller_controller.remaining_stock response = SellerInventory.quantity inv - q
    /\ seller_controller.processed_quantity response = q
    /\ seller_controller.total_value response = Some total
    /\ seller_quantity sn b d' = Some (SellerInventory.quantity inv - q)
    /\ customer_orders d'
       = Query.add
           (CustomerOrder.mk (Query.next_id CustomerOrder.id (customer_orders d))
              (CustomerPurchase.customer_name data) sn b q
              (if String.eqb (User.role user) "seller" then "completed" else "pending")
              (Some total))
           (customer_orders d)
    /\ (exists p',
           listing_of sn b d' = Some p'
           /\ ProductForSale.quantity p' = SellerInventory.quantity inv - q
           /\ ProductForSale.price p' = ProductForSale.price p
           /\ (ProductForSale.availability p' = OUT_OF_STOCK
               <-> SellerInventory.quantity inv = q)).
Proof.
  intros sn b q total Hp Ha Hlq Hi Hq Ht.
  unfold get_db. rewrite customer_purchase_spec. cbn zeta.
  cbn [pending SessionLocal]. fold sn b q. rewrite Hp, Ha.
  cbn [AvailabilityStatus_eqb].
  pose proof Hlq as Hlq'. apply Z.ltb_ge in Hlq'. rewrite Hlq'.
  unfold seller_controller.to_http, bind.
  rewrite process_customer_order_spec. cbn [pending SessionLocal]. rewrite Hi.
  pose proof Hq as Hq'. apply Z.ltb_ge in Hq'. rewrite Hq'. cbn zeta.
  assert (Hc : calculated_total b q sn d = Some total)
    by (unfold calculated_total; now rewrite Hp).
  rewrite Hc.
  set (d1 := customer_order_db b q sn (CustomerPurchase.customer_name data)
               (Some user) d).
  assert (Hdone : exists response d',
    (let (r, s) :=
       match
         (Ok (seller_service.mkCustomerOrderResult (SellerInventory.quantity inv - q)
                (CustomerOrder.mk (Query.next_id CustomerOrder.id (customer_orders d))
                   (CustomerPurchase.customer_name data) sn b q
                   (order_status (Some user)) (Some total)) q),
          mkSession (synced sn b d1) (synced sn b d1))
       with
       | (Ok a, s') =>
           ret (seller_controller.mkStockOperationResponse true
                  (seller_service.seller_remaining_inventory a)
                  (seller_service.processed_quantity a)
                  (CustomerOrder.total_value (seller_service.customer_order a))) s'
       | (Raise e, s') => (Raise e, s')
       end in
     match r with
     | Ok _ => (r, committed s)
     | Raise _ => (r, committed s)
     end) = (Ok response, d')
    /\ seller_controller.remaining_stock response = SellerInventory.quantity inv - q
    /\ seller_controller.processed_quantity response = q
    /\ seller_controller.total_value response = Some total
    /\ seller_quantity sn b d' = Some (SellerInventory.quantity inv - q)
    /\ customer_orders d'
       = Query.add
           (CustomerOrder.mk (Query.next_id CustomerOrder.id (customer_orders d))
              (CustomerPurchase.customer_name data) sn b q
              (if String.eqb (User.role user) "seller" then "completed" else "pending")
              (Some total))
           (customer_orders d)
    /\ (exists p',
           listing_of sn b d' = Some p'
           /\ ProductForSale.quantity p' = SellerInventory.quantity inv - q
           /\ ProductForSale.price p' = ProductForSale.price p
           /\ (ProductForSale.availability p' = OUT_OF_STOCK
               <-> SellerInventory.quantity inv = q))).
  { eexists. eexists. split; [reflexivity|]. cbn [committed].
    split; [reflexivity|]. split; [reflexivity|]. split; [reflexivity|].
    assert (Hi1 : seller_inventory_of sn b d1
                  = Some (SellerInventory.with_quantity (SellerInventory.quantity inv - q)
                            inv)).
    { unfold d1, customer_order_db.
      change (seller_inventory_of sn b (set_customer_orders ?f ?x))
        with (seller_inventory_of sn b x).
      now rewrite seller_inventory_of_debit, Hi. }
    split.
    { rewrite synced_seller_quantity. unfold seller_quantity. now rewrite Hi1. }
    split.
    { rewrite synced_customer_orders. unfold d1. rewrite customer_order_db_orders.
      now rewrite Hc. }
    assert (Hp1 : listing_of sn b d1 = Some p) by exact Hp.
    exists (synced_product (SellerInventory.quantity inv - q) p).
    split; [exact (synced_listing sn b d1 _ p Hi1 Hp1)|].
    split; [reflexivity|]. split; [reflexivity|].
    unfold synced_product. cbn [ProductForSale.availability]. rewrite Ha.
    cbn [AvailabilityStatus_eqb andb].
    destruct (Z.eqb_spec (SellerInventory.quantity inv - q) 0) as [E|E].
    - split; [lia|reflexivity].
    - split; [discriminate|lia]. }
  unfold seller_controller.to_http, bind in Hdone.
  destruct (CustomerPurchase.total_value data) as [provided|]; [rewrite Ht|];
    exact Hdone.
Qed.

Lemma customer_purchase_outcome_witness :
  exists response d',
    get_db (seller_controller.customer_purchase
              (CustomerPurchase.mk "C1" "S1" 1 5 (Some 25%float)) Scenario.S1)
      (snd Scenario.publish) = (Ok response, d')
    /\ seller_controller.remaining_stock response = 15
    /\ seller_controller.total_value response = Some 25%float
    /\ seller_quantity "S1" 1 d' = Some 15.
Proof.
  destruct (customer_purchase_outcome
              (CustomerPurchase.mk "C1" "S1" 1 5 (Some 25%float)) Scenario.S1
              (snd Scenario.publish)
              (ProductForSale.mk 1 2 1 5%float 20 IN_STOCK)
              (SellerInventory.mk 1 "S1" 1 20)
              eq_refl eq_refl ltac:(cbn; lia) eq_refl ltac:(cbn; lia) eq_refl)
    as (response & d' & H1 & H2 & _ & H4 & H5 & _).
  exists response, d'. repeat split; assumption.
Defined.

(** X7. When the seller has no listing of the blanket, the service
    [process_customer_order] has no price to compute a total from: it then
    accepts whatever total is provided, and places the order without a
    total value. *)
Theorem customer_order_without_listing_has_no_total b q sn cn u t s inv :
  seller_inventory_of sn b (pending s) = Some inv ->
  q <= SellerInventory.quantity inv ->
  listing_of sn b (pending s) = None ->
  exists r s',
    seller_service.process_customer_order b q sn cn u t s = (Ok r, s')
    /\ CustomerOrder.total_value (seller_service.customer_order r) = None
    /\ seller_service.seller_remaining_inventory r = SellerInventory.quantity inv - q
    /\ seller_quantity sn b (committed s') = Some (SellerInventory.quantity inv - q)
    /\ customer_orders (committed s')
       = Query.add (seller_service.customer_order r) (customer_orders (pending s)).
Proof.
  intros Hi Hq Hl. rewrite process_customer_order_spec, Hi.
  apply Z.ltb_ge in Hq. rewrite Hq. cbn zeta.
  assert (Hc : calculated_total b q sn (pending s) = None)
    by (unfold calculated_total; now rewrite Hl).
  rewrite Hc.
  assert (Hdone : exists r s',
    (Ok (seller_service.mkCustomerOrderResult (SellerInventory.quantity inv - q)
           (CustomerOrder.mk (Query.next_id CustomerOrder.id (customer_orders (pending s)))
              cn sn b q (order_status u) None) q),
     mkSession (synced sn b (customer_order_db b q sn cn u (pending s)))
               (synced sn b (customer_order_db b q sn cn u (pending s))))
    = (Ok r, s')
    /\ CustomerOrder.total_value (seller_service.customer_order r) = None
    /\ seller_service.seller_remaining_inventory r = SellerInventory.quantity inv - q
    /\ seller_quantity sn b (committed s') = Some (SellerInventory.quantity inv - q)
    /\ customer_orders (committed s')
       = Query.add (seller_service.customer_order r) (customer_orders (pending s))).
  { eexists. eexists. split; [reflexivity|]. cbn [committed].
    split; [reflexivity|]. split; [reflexivity|]. split.
    - rewrite synced_seller_quantity. unfold seller_quantity, customer_order_db.
      change (seller_inventory_of sn b (set_customer_orders ?f ?x))
        with (seller_inventory_of sn b x).
      now rewrite seller_inventory_of_debit, Hi.
    - rewrite synced_customer_orders, customer_order_db_orders. now rewrite Hc. }
  destruct t; exact Hdone.
Qed.

Lemma customer_order_without_listing_has_no_total_witness :
  exists r s',
    seller_service.process_customer_order 1 5 "S1" "C1" None (Some 999%float)
      (SessionLocal (snd Scenario.to_S1_20)) = (Ok r, s')
    /\ CustomerOrder.total_value (seller_service.customer_order r) = None
    /\ seller_quantity "S1" 1 (committed s') = Some 15.
Proof.
  destruct (customer_order_without_listing_has_no_total 1 5 "S1" "C1" None
              (Some 999%float) (SessionLocal (snd Scenario.to_S1_20))
              (SellerInventory.mk 1 "S1" 1 20) eq_refl ltac:(cbn; lia) eq_refl)
    as (r & s' & H1 & H2 & _ & H4 & _).
  exists r, s'. repeat split; assumption.
Defined.

(** * Orders that move no stock *)


(** * The status of a customer order *)

Lemma customer_order_by_id_update i j status d :
  customer_order_by_id j
    (set_customer_orders
       (Query.update_first (is_customer_order i) (CustomerOrder.with_status status)) d)
  = if j =? i then option_map (CustomerOrder.with_status status) (customer_order_by_id i d)
    else customer_order_by_id j d.
Proof.
  unfold customer_order_by_id. cbn [customer_orders set_customer_orders].
  change (fun o => CustomerOrder.id o =? i) with (is_customer_order i).
  change (fun o => CustomerOrder.id o =? j) with (is_customer_order j).
  destruct (Z.eqb_spec j i) as [->|Hne].
  - apply first_update_first. intros r Hr; exact Hr.
  - apply first_update_first_other; [reflexivity|].
    intros r Hr. unfold is_customer_order in *. apply Z.eqb_eq in Hr.
    apply Z.eqb_neq. lia.
Qed.

(** X9. [update_order_status] returns [None] and writes nothing when no
    order has the id.  Otherwise it accepts any status, whatever the
    current one: the order is returned and stored with the new status and
    its other fields as they were, [get_order_status] reads it back, every
    other order reads as before, and nothing but the orders is written. *)
Theorem update_order_status_round_trip i status d :
  match customer_order_by_id i d with
  | None =>
      get_db (seller_service.update_order_status i status) d = (Ok None, d)
  | Some order =>
      let d' := snd (get_db (seller_service.update_order_status i status) d) in
      fst (get_db (seller_service.update_order_status i status) d)
      = Ok (Some (CustomerOrder.with_status status order))
      /\ get_db (seller_service.get_order_status i) d'
         = (Ok (Some (CustomerOrder.with_status status order)), d')
      /\ CustomerOrder.status (CustomerOrder.with_status status order) = status
      /\ CustomerOrder.quantity (CustomerOrder.with_status status order)
         = CustomerOrder.quantity order
      /\ CustomerOrder.total_value (CustomerOrder.with_status status order)
         = CustomerOrder.total_value order
      /\ (forall j, j <> i -> customer_order_by_id j d' = customer_order_by_id j d)
      /\ List.length (customer_orders d') = List.length (customer_orders d)
      /\ seller_inventory d' = seller_inventory d
      /\ products_for_sale d' = products_for_sale d
  end.
Proof.
  unfold get_db. rewrite update_order_status_spec. cbn [pending SessionLocal].
  destruct (customer_order_by_id i d) as [order|] eqn:Ho; [|reflexivity].
  cbn zeta. cbn [fst snd committed].
  split; [reflexivity|]. split.
  { unfold seller_service.get_order_status, query. cbn [pending SessionLocal committed].
    rewrite customer_order_by_id_update, Z.eqb_refl, Ho. reflexivity. }
  split; [reflexivity|]. split; [reflexivity|]. split; [reflexivity|]. split.
  { intros j Hj. rewrite customer_order_by_id_update.
    apply Z.eqb_neq in Hj. now rewrite Hj. }
  split; [cbn [customer_orders set_customer_orders]; apply length_update_first|].
  split; reflexivity.
Qed.

(** * Updating and deleting a listing *)

Lemma first_none_of_forall {A} (p : A -> bool) (rows : list A) :
  (forall r, In r rows -> p r = false) -> Query.first p rows = None.
Proof.
  intros H. unfold Query.first. destruct (find p rows) as [r|] eqn:E; [|reflexivity].
  apply find_some in E as [Hin Hp]. rewrite (H r Hin) in Hp. discriminate.
Qed.



(** X11. When no two listings share a seller and a blanket, deleting a
    listing withdraws the blanket from sale: the deletion removes one row
    and writes nothing else, the seller has no listing of the blanket
    afterwards, every customer purchase of it from that seller is refused
    with the not available for sale error, and the seller can publish the
    blanket again from its inventory. *)
Theorem deleted_listing_is_withdrawn sn i d seller p :
  NoDup (listing_keys d) ->
  user_by_username sn d = Some seller ->
  Query.first (fun x => (ProductForSale.id x =? i)
                        && (ProductForSale.seller_id x =? User.id seller))
    (products_for_sale d) = Some p ->
  let b := ProductForSale.blanket_id p in
  let d' := snd (get_db (seller_service.delete_product_for_sale sn i) d) in
  get_db (seller_service.delete_product_for_sale sn i) d = (Ok tt, d')
  /\ S (List.length (products_for_sale d')) = List.length (products_for_sale d)
  /\ seller_inventory d' = seller_inventory d
  /\ listing_of sn b d' = None
  /\ (forall cn q t user,
         get_db (seller_controller.customer_purchase (CustomerPurchase.mk cn sn b q t) user)
           d'
         = (Raise (HTTPException 400 (Not_available_for_sale b sn)), d'))
  /\ (forall inv price a,
         seller_inventory_of sn b d = Some inv ->
         exists product d'',
           get_db (seller_service.create_product_for_sale sn
                     (ProductForSaleCreate.mk b price a)) d' = (Ok product, d'')
           /\ listing_of sn b d'' = Some product
           /\ ProductForSale.quantity product = SellerInventory.quantity inv).
Proof.
  intros Hnd Hu Hp b d'.
  assert (Hd' : get_db (seller_service.delete_product_for_sale sn i) d
                = (Ok tt,
                   set_products_for_sale
                     (Query.remove_first
                        (fun x => (ProductForSale.id x =? i)
                                  && (ProductForSale.seller_id x =? User.id seller))) d)).
  { unfold get_db. rewrite delete_product_for_sale_spec. cbn [pending SessionLocal].
    rewrite Hu. cbn zeta. now rewrite Hp. }
  unfold d'. rewrite Hd'. cbn [snd]. clear d'.
  set (d' := set_products_for_sale _ d).
  assert (Hl : listing_of sn b d' = None).
  { unfold listing_of.
    change (user_by_username sn d') with (user_by_username sn d). rewrite Hu.
    unfold product_for_sale_of. apply first_none_of_forall. intros r Hin.
    destruct (is_product_for_sale (User.id seller) b r) eqn:E; [|reflexivity].
    exfalso.
    apply (first_remove_first_unique
             (fun x => (ProductForSale.seller_id x, ProductForSale.blanket_id x))
             _ _ p Hnd Hp).
    apply in_map_iff. exists r. split; [|exact Hin].
    unfold is_product_for_sale in E. apply andb_true_iff in E as [E1 E2].
    apply Z.eqb_eq in E1, E2.
    apply first_sat in Hp. cbn beta in Hp. apply andb_true_iff in Hp as [_ Hs].
    apply Z.eqb_eq in Hs. unfold b in E2. now rewrite E1, E2, Hs. }
  split; [reflexivity|].
  split; [exact (length_remove_first _ _ p Hp)|].
  split; [reflexivity|]. split; [exact Hl|]. split.
  - intros cn q t user. unfold get_db. rewrite customer_purchase_spec. cbn zeta.
    cbn [CustomerPurchase.seller_name CustomerPurchase.blanket_id pending SessionLocal].
    now rewrite Hl.
  - intros inv price a Hi. unfold get_db. rewrite create_product_for_sale_spec.
    cbn zeta. cbn [ProductForSaleCreate.blanket_id pending SessionLocal].
    change (user_by_username sn d') with (user_by_username sn d). rewrite Hu.
    change (seller_inventory_of sn b d') with (seller_inventory_of sn b d). rewrite Hi.
    unfold listing_of in Hl.
    change (user_by_username sn d') with (user_by_username sn d) in Hl.
    rewrite Hu in Hl. rewrite Hl.
    eexists. eexists. split; [reflexivity|]. cbn [committed].
    split; [|reflexivity].
    apply (listing_of_added sn seller d' (ProductForSale.mk _ (User.id seller) b _ _ _));
      [exact Hu|exact Hl|reflexivity].
Qed.

Lemma deleted_listing_is_withdrawn_witness :
  let d' := snd (get_db (seller_service.delete_product_for_sale "S1" 1)
                   (snd Scenario.publish)) in
  listing_of "S1" 1 d' = None
  /\ get_db (seller_controller.customer_purchase
               (CustomerPurchase.mk "C1" "S1" 1 5 None) Scenario.S1) d'
     = (Raise (HTTPException 400 (Not_available_for_sale 1 "S1")), d').
Proof.
  destruct (deleted_listing_is_withdrawn "S1" 1 (snd Scenario.publish) Scenario.S1
              (ProductForSale.mk 1 2 1 5%float 20 IN_STOCK))
    as (_ & _ & _ & H4 & H5 & _).
  - repeat constructor. cbn. tauto.
  - reflexivity.
  - reflexivity.
  - cbv zeta. split; [exact H4|]. exact (H5 "C1" 5 None Scenario.S1).
Defined.

(** * Reading the journals *)

(** X12. The order a transfer records is what the history queries show
    next: after a successful transfer to a seller,
    [get_seller_orders_by_name] of that seller returns what it returned
    before followed by the new order, which names the seller, the
    distributor, the blanket and the quantity; after a successful customer
    order, [get_customer_orders_by_customer] of that customer returns what
    it returned before followed by the order of the result. *)
Theorem recorded_orders_show_in_the_history :
  (forall b q dn sn d r d' su du,
      get_db (distributor_service.process_seller_order b q dn sn) d = (Ok r, d') ->
      user_by_username sn d = Some su ->
      user_by_username dn d = Some du ->
      exists before,
        get_db (seller_service.get_seller_orders_by_name sn) d = (Ok before, d)
        /\ get_db (seller_service.get_seller_orders_by_name sn) d'
           = (Ok (before ++ [SellerOrder.mk (distributor_service.seller_order_id r)
                               (User.id su) (User.id du) b q])%list, d'))
  /\ (forall b q sn cn u t d r d',
         get_db (seller_service.process_customer_order b q sn cn u t) d = (Ok r, d') ->
         exists before,
           get_db (seller_service.get_customer_orders_by_customer cn) d = (Ok before, d)
           /\ get_db (seller_service.get_customer_orders_by_customer cn) d'
              = (Ok (before ++ [seller_service.customer_order r])%list, d')
           /\ CustomerOrder.customer_name (seller_service.customer_order r) = cn
           /\ CustomerOrder.quantity (seller_service.customer_order r) = q
           /\ CustomerOrder.status (seller_service.customer_order r) = order_status u).
Proof.
  split.
  - intros b q dn sn d r d' su du. unfold get_db at 1.
    rewrite process_seller_order_spec. cbn [pending SessionLocal].
    intros H Hs Hd. rewrite Hs, Hd in H.
    destruct (distributor_stock_of dn b d) as [x|]; [|discriminate].
    destruct (DistributorStock.quantity x <? q); [discriminate|].
    cbn zeta in H. cbn [committed] in H. injection H as <- <-.
    unfold get_db, seller_service.get_seller_orders_by_name.
    rewrite !bind_query. cbn [pending SessionLocal].
    rewrite synced_users_lookup.
    assert (Hu : user_by_username sn (seller_order_db b q dn sn su du d)
                 = user_by_username sn d)
      by (unfold seller_order_db; now rewrite credit_seller_eq).
    rewrite Hu, Hs. unfold query. cbn [pending committed SessionLocal].
    eexists. split; [reflexivity|].
    rewrite synced_seller_orders, seller_order_db_orders, all_add.
    cbn [SellerOrder.seller_id distributor_service.seller_order_id].
    now rewrite Z.eqb_refl.
  - intros b q sn cn u t d r d'. unfold get_db at 1.
    rewrite process_customer_order_spec. cbn [pending SessionLocal].
    destruct (seller_inventory_of sn b d) as [x|]; [|discriminate].
    destruct (SellerInventory.quantity x <? q); [discriminate|].
    cbn zeta.
    assert (Hdone : forall total res,
      res = seller_service.mkCustomerOrderResult (SellerInventory.quantity x - q)
              (CustomerOrder.mk (Query.next_id CustomerOrder.id (customer_orders d))
                 cn sn b q (order_status u) total) q ->
      total = calculated_total b q sn d ->
      (let (r0, s0) :=
         (Ok res, mkSession (synced sn b (customer_order_db b q sn cn u d))
                            (synced sn b (customer_order_db b q sn cn u d)))
       in (r0, committed s0)) = (Ok r, d') ->
      exists before,
        get_db (seller_service.get_customer_orders_by_customer cn) d = (Ok before, d)
        /\ get_db (seller_service.get_customer_orders_by_customer cn) d'
           = (Ok (before ++ [seller_service.customer_order r])%list, d')
        /\ CustomerOrder.customer_name (seller_service.customer_order r) = cn
        /\ CustomerOrder.quantity (seller_service.customer_order r) = q
        /\ CustomerOrder.status (seller_service.customer_order r) = order_status u).
    { intros total res -> -> [= <- <-].
      unfold get_db, seller_service.get_customer_orders_by_customer, query.
      cbn [pending committed SessionLocal seller_service.customer_order].
      eexists. split; [reflexivity|].
      rewrite synced_customer_orders, customer_order_db_orders, all_add.
      cbn [CustomerOrder.customer_name CustomerOrder.quantity CustomerOrder.status].
      rewrite String.eqb_refl. repeat split; reflexivity. }
    destruct t as [provided|]; [destruct (calculated_total b q sn d) as [c|] eqn:Ec|].
    + destruct (seller_service.total_value_mismatch provided c); [discriminate|].
      now apply (Hdone (Some c) _ eq_refl).
    + now apply (Hdone None _ eq_refl).
    + now apply (Hdone _ _ eq_refl).
Qed.

Lemma recorded_orders_show_in_the_history_witness :
  get_db (seller_service.get_seller_orders_by_name "S1") (snd Scenario.to_S1_20)
  = (Ok [SellerOrder.mk 1 2 1 1 20], snd Scenario.to_S1_20).
Proof.
  destruct (proj1 recorded_orders_show_in_the_history 1 20 "D1" "S1"
              (snd Scenario.to_S1_50)
              (distributor_service.mkSellerOrderResult 10 20 20 1)
              (snd Scenario.to_S1_20) Scenario.S1 Scenario.D1 eq_refl eq_refl eq_refl)
    as (before & H1 & H2).
  injection H1 as <-. exact H2.
Defined.

(** * Reading the stock of a distributor *)





(** * Updating a blanket *)

Lemma blanket_by_id_update_first b b' f d :
  (forall x, Blanket.id (f x) = Blanket.id x) ->
  blanket_by_id b' (set_blankets (Query.update_first (is_blanket b) f) d)
  = if b' =? b then option_map f (blanket_by_id b d) else blanket_by_id b' d.
Proof.
  intros Hf. unfold blanket_by_id. cbn [blankets set_blankets].
  destruct (Z.eqb_spec b' b) as [->|Hne].
  - apply first_update_first. intros r Hr. unfold is_blanket in *. now rewrite Hf.
  - apply first_update_first_other.
    + intros r. unfold is_blanket. now rewrite Hf.
    + intros r Hr. unfold is_blanket in *. apply Z.eqb_eq in Hr.
      apply Z.eqb_neq. lia.
Qed.

Lemma updated_blanket_id data image x :
  Blanket.id (updated_blanket data image x) = Blanket.id x.
Proof.
  unfold updated_blanket.
  destruct data as [data|], image as [img|]; cbn [option_map];
    try destruct (BlanketUpdate.model_name data);
    try destruct (BlanketUpdate.material data);
    try destruct (BlanketUpdate.stock data);
    try destruct (BlanketUpdate.production_capacity data); reflexivity.
Qed.

(** X14. [update_blanket] writes the fields it is given and no other: a
    blanket that does not exist gives [None] and no write; with nothing
    given the database is left as it was; with the stock alone it commits
    what [update_blanket_stock] commits; without a stock no stock changes;
    the other blankets read as before, and the result carries the image URL
    the blanket had before. *)
Theorem update_blanket_writes_what_is_given :
  (forall b data image d,
      blanket_by_id b d = None ->
      get_db (manufacturer_service.update_blanket b data image) d = (Ok None, d))
  /\ (forall b d, snd (get_db (manufacturer_service.update_blanket b None None) d) = d)
  /\ (forall b v d,
         snd (get_db (manufacturer_service.update_blanket b
                        (Some (BlanketUpdate.mk None None (Some v) None)) None) d)
         = snd (get_db (manufacturer_service.update_blanket_stock b v) d))
  /\ (forall b data image d b',
         match data with Some data => BlanketUpdate.stock data = None | None => True end ->
         manufacturer_stock b'
           (snd (get_db (manufacturer_service.update_blanket b data image) d))
         = manufacturer_stock b' d)
  /\ (forall b data image d b',
         b' <> b ->
         blanket_by_id b' (snd (get_db (manufacturer_service.update_blanket b data image) d))
         = blanket_by_id b' d)
  /\ (forall b data image d blanket,
         blanket_by_id b d = Some blanket ->
         exists r,
           fst (get_db (manufacturer_service.update_blanket b data image) d) = Ok (Some r)
           /\ manufacturer_service.old_image_url r = Blanket.image_url blanket
           /\ Blanket.image_url (manufacturer_service.blanket r)
              = match image with
                | Some url => Some url
                | None => Blanket.image_url blanket
                end).
Proof.
  assert (Hd : forall b data image d,
    snd (get_db (manufacturer_service.update_blanket b data image) d)
    = match blanket_by_id b d with
      | None => d
      | Some _ => set_blankets
                    (Query.update_first (is_blanket b) (updated_blanket data image)) d
      end).
  { intros b data image d. unfold get_db. rewrite update_blanket_spec.
    cbn [pending SessionLocal]. now destruct (blanket_by_id b d). }
  split.
  { intros b data image d H. unfold get_db. rewrite update_blanket_spec.
    cbn [pending SessionLocal]. now rewrite H. }
  split.
  { intros b d. rewrite Hd. destruct (blanket_by_id b d); [|reflexivity].
    apply set_blankets_update_id. }
  split.
  { intros b v d. rewrite Hd. unfold get_db. rewrite update_blanket_stock_spec.
    cbn [pending SessionLocal]. now destruct (blanket_by_id b d). }
  split.
  { intros b data image d b' Hs. rewrite Hd. unfold manufacturer_stock.
    destruct (blanket_by_id b d) as [x|] eqn:Hx; [|reflexivity].
    rewrite blanket_by_id_update_first by apply updated_blanket_id.
    destruct (Z.eqb_spec b' b) as [->|]; [|reflexivity].
    rewrite Hx. cbn [option_map]. f_equal. unfold updated_blanket.
    destruct data as [data|], image as [img|]; cbn [option_map]; try rewrite Hs;
      try destruct (BlanketUpdate.model_name data);
      try destruct (BlanketUpdate.material data);
      try destruct (BlanketUpdate.production_capacity data); reflexivity. }
  split.
  { intros b data image d b' Hne. rewrite Hd.
    destruct (blanket_by_id b d); [|reflexivity].
    rewrite blanket_by_id_update_first by apply updated_blanket_id.
    apply Z.eqb_neq in Hne. now rewrite Hne. }
  intros b data image d blanket Hb. unfold get_db. rewrite update_blanket_spec.
  cbn [pending SessionLocal]. rewrite Hb. cbn zeta. cbn [fst].
  eexists. split; [reflexivity|]. split; [reflexivity|].
  cbn [manufacturer_service.blanket]. unfold updated_blanket.
  destruct data as [data|], image as [img|]; cbn [option_map];
    try destruct (BlanketUpdate.model_name data);
    try destruct (BlanketUpdate.material data);
    try destruct (BlanketUpdate.stock data);
    try destruct (BlanketUpdate.production_capacity data); reflexivity.
Qed.

Lemma update_blanket_writes_what_is_given_witness :
  get_db (manufacturer_service.update_blanket 7 None (Some "/uploads/x.png"))
    Scenario.start = (Ok None, Scenario.start)
  /\ manufacturer_stock 1
       (snd (get_db (manufacturer_service.update_blanket 1
                       (Some (BlanketUpdate.mk (Some "P1b") None None (Some 5))) None)
               Scenario.start))
     = manufacturer_stock 1 Scenario.start.
Proof.
  destruct update_blanket_writes_what_is_given as (H1 & _ & _ & H4 & _).
  split.
  - exact (H1 7 None (Some "/uploads/x.png") Scenario.start eq_refl).
  - exact (H4 1 (Some (BlanketUpdate.mk (Some "P1b") None None (Some 5))) None
             Scenario.start 1 eq_refl).
Defined.

(** * Creating a blanket and its production capacity *)

Lemma get_all_blankets_spec s :
  manufacturer_service.get_all_blankets s = (Ok (blankets (pending s)), s).
Proof.
  unfold manufacturer_service.get_all_blankets, query. f_equal. f_equal.
  induction (blankets (pending s)) as [|b rest IH]; [reflexivity|].
  cbn [map]. rewrite IH. now destruct b.
Qed.

(** X15. [create_blanket] always succeeds and gives the new blanket an id
    that no blanket had: the blanket is read back by [get_blanket_by_id]
    with the stock and the capacity of the payload, it comes last in
    [get_all_blankets], every blanket that existed reads as before, and no
    distributor or seller record is written. *)
Theorem created_blanket_is_fresh data image d :
  let d' := snd (get_db (manufacturer_service.create_blanket data image) d) in
  exists blanket,
    get_db (manufacturer_service.create_blanket data image) d = (Ok blanket, d')
    /\ blanket_by_id (Blanket.id blanket) d = None
    /\ get_db (manufacturer_service.get_blanket_by_id (Blanket.id blanket)) d'
       = (Ok (Some blanket), d')
    /\ Blanket.stock blanket = BlanketCreate.stock data
    /\ Blanket.production_capacity blanket = BlanketCreate.production_capacity data
    /\ Blanket.image_url blanket = image
    /\ get_db manufacturer_service.get_all_blankets d'
       = (Ok (blankets d ++ [blanket])%list, d')
    /\ (forall b x, blanket_by_id b d = Some x -> blanket_by_id b d' = Some x)
    /\ distributor_stock d' = distributor_stock d
    /\ seller_inventory d' = seller_inventory d.
Proof.
  cbn zeta.
  assert (Hd : get_db (manufacturer_service.create_blanket data image) d
               = (Ok (Blanket.mk (Query.next_id Blanket.id (blankets d))
                        (BlanketCreate.model_name data) (BlanketCreate.material data)
                        (BlanketCreate.stock data)
                        (BlanketCreate.production_capacity data) image),
                  set_blankets
                    (Query.add (Blanket.mk (Query.next_id Blanket.id (blankets d))
                                  (BlanketCreate.model_name data)
                                  (BlanketCreate.material data)
                                  (BlanketCreate.stock data)
                                  (BlanketCreate.production_capacity data) image)) d))
    by (unfold get_db; now rewrite create_blanket_spec).
  rewrite Hd. cbn [snd].
  eexists. split; [reflexivity|]. cbn [Blanket.id].
  split; [apply (first_next_id Blanket.id)|].
  split.
  { unfold get_db, manufacturer_service.get_blanket_by_id, query.
    cbn [pending committed SessionLocal]. f_equal. f_equal.
    unfold blanket_by_id, is_blanket. cbn [blankets set_blankets].
    now apply first_added. }
  split; [reflexivity|]. split; [reflexivity|]. split; [reflexivity|].
  split.
  { unfold get_db. rewrite get_all_blankets_spec. reflexivity. }
  split; [|split; reflexivity].
  intros b x Hx. unfold blanket_by_id in *. cbn [blankets set_blankets].
  now rewrite first_add, Hx.
Qed.

(** X16. The production capacity of a blanket that does not exist reads
    as 0, and updating it answers 0 without creating a blanket or writing
    anything; for a blanket that exists the update answers the new capacity,
    [get_production_capacity] reads it back, and the stock of every blanket
    stays as it was. *)
Theorem production_capacity_round_trip b data d :
  let d' := snd (get_db (manufacturer_service.update_production_capacity b data) d) in
  match blanket_by_id b d with
  | None =>
      get_db (manufacturer_service.get_production_capacity b) d = (Ok 0, d)
      /\ get_db (manufacturer_service.update_production_capacity b data) d = (Ok 0, d)
  | Some blanket =>
      get_db (manufacturer_service.get_production_capacity b) d
      = (Ok (Blanket.production_capacity blanket), d)
      /\ fst (get_db (manufacturer_service.update_production_capacity b data) d)
         = Ok (ProductionCapacityUpdate.production_capacity data)
      /\ get_db (manufacturer_service.get_production_capacity b) d'
         = (Ok (ProductionCapacityUpdate.production_capacity data), d')
      /\ (forall b', manufacturer_stock b' d' = manufacturer_stock b' d)
  end.
Proof.
  cbn zeta. unfold get_db, manufacturer_service.get_production_capacity.
  rewrite update_production_capacity_spec, !bind_query. cbn [pending SessionLocal].
  destruct (blanket_by_id b d) as [blanket|] eqn:Hb; [|split; reflexivity].
  cbn zeta. cbn [fst snd committed pending].
  split; [reflexivity|]. split; [reflexivity|].
  rewrite blanket_by_id_update_first by reflexivity.
  rewrite Z.eqb_refl, Hb. cbn [option_map]. split; [reflexivity|].
  intros b'. unfold manufacturer_stock.
  rewrite blanket_by_id_update_first by reflexivity.
  destruct (Z.eqb_spec b' b) as [->|]; [|reflexivity]. now rewrite Hb.
Qed.

(** * The transfer endpoints *)

Lemma to_http_process_seller_order {R} b q dn sn (k : distributor_service.SellerOrderResult -> R) d :
  get_db (seller_controller.to_http
            (result <- distributor_service.process_seller_order b q dn sn ;;
             ret (k result))) d
  = match distributor_service.process_seller_order b q dn sn (SessionLocal d) with
    | (Ok r, s) => (Ok (k r), committed s)
    | (Raise (ValueError msg), _) => (Raise (HTTPException 400 msg), d)
    | (Raise e, _) => (Raise e, d)
    end.
Proof.
  unfold get_db, seller_controller.to_http, bind.
  rewrite process_seller_order_spec. cbn [pending SessionLocal].
  destruct (user_by_username sn d); [|reflexivity].
  destruct (user_by_username dn d); [|reflexivity].
  destruct (distributor_stock_of dn b d) as [x|]; [|reflexivity].
  destruct (DistributorStock.quantity x <? q); reflexivity.
Qed.

(** X17. The distributor's endpoint [sell_to_seller] and the seller's
    endpoint [purchase_from_distributor] run the same transfer: for the
    same distributor, seller, blanket and quantity they end with the same
    database, whoever the authenticated user of the second is; both succeed
    or both answer 400 with the same message; on success the first reports
    the stock left with the distributor and the second the inventory of the
    seller, both as stored. *)
Theorem seller_transfer_endpoints_agree sn b q user any d :
  let sale := get_db (distributor_controller.sell_to_seller (SaleToSeller.mk sn b q) user) d in
  let purchase :=
    get_db (seller_controller.purchase_from_distributor
              (PurchaseFromDistributor.mk sn (User.username user) b q) any) d in
  snd sale = snd purchase
  /\ match fst sale, fst purchase with
     | Ok r1, Ok r2 =>
         distributor_quantity (User.username user) b (snd sale)
         = Some (distributor_controller.remaining_stock r1)
         /\ seller_quantity sn b (snd sale) = Some (seller_controller.remaining_stock r2)
         /\ distributor_controller.processed_quantity r1 = q
         /\ seller_controller.processed_quantity r2 = q
     | Raise e1, Raise e2 => e1 = e2 /\ exists msg, e1 = HTTPException 400 msg
     | _, _ => False
     end.
Proof.
  cbn zeta.
  unfold distributor_controller.sell_to_seller, seller_controller.purchase_from_distributor.
  cbn [SaleToSeller.blanket_id SaleToSeller.quantity SaleToSeller.seller_name
       PurchaseFromDistributor.blanket_id PurchaseFromDistributor.quantity
       PurchaseFromDistributor.seller_name PurchaseFromDistributor.distributor_name].
  rewrite !to_http_process_seller_order.
  rewrite process_seller_order_spec. cbn [pending SessionLocal].
  destruct (user_by_username sn d) as [su|];
    [|split; [reflexivity|split; [reflexivity|eexists; reflexivity]]].
  destruct (user_by_username (User.username user) d) as [du|];
    [|split; [reflexivity|split; [reflexivity|eexists; reflexivity]]].
  destruct (distributor_stock_of (User.username user) b d) as [x|] eqn:Hx;
    [|split; [reflexivity|split; [reflexivity|eexists; reflexivity]]].
  destruct (DistributorStock.quantity x <? q);
    [split; [reflexivity|split; [reflexivity|eexists; reflexivity]]|].
  cbn zeta. cbn [fst snd committed]. split; [reflexivity|].
  cbn [distributor_controller.remaining_stock seller_controller.remaining_stock
       seller_controller.stock_response distributor_controller.processed_quantity
       seller_controller.processed_quantity
       distributor_service.distributor_remaining_stock
       distributor_service.seller_inventory distributor_service.processed_quantity].
  rewrite synced_distributor_quantity, synced_seller_quantity.
  split.
  { unfold distributor_quantity. now rewrite seller_order_db_distributor, Hx. }
  split; [apply seller_order_db_seller|]. split; reflexivity.
Qed.

(** * What the calls commit *)

Lemma synced_set_seller_orders sn b f d :
  synced sn b (set_seller_orders f d) = set_seller_orders f (synced sn b d).
Proof.
  unfold synced, user_by_username, seller_inventory_of, product_for_sale_of.
  cbn [users seller_inventory products_for_sale set_seller_orders].
  destruct (Query.first _ (users d)) as [seller|]; [|reflexivity].
  destruct (Query.first _ (seller_inventory d)); [|reflexivity].
  destruct (Query.first _ (products_for_sale d)); reflexivity.
Qed.

Lemma synced_set_customer_orders sn b f d :
  synced sn b (set_customer_orders f d) = set_customer_orders f (synced sn b d).
Proof.
  unfold synced, user_by_username, seller_inventory_of, product_for_sale_of.
  cbn [users seller_inventory products_for_sale set_customer_orders].
  destruct (Query.first _ (users d)) as [seller|]; [|reflexivity].
  destruct (Query.first _ (seller_inventory d)); [|reflexivity].
  destruct (Query.first _ (products_for_sale d)); reflexivity.
Qed.

Lemma commits_distributor_order b q dn u d : commits d (distributor_order_db b q dn u d).
Proof.
  unfold distributor_order_db, debit_manufacturer.
  eapply commits_then; [|apply commits_distributor_orders].
  eapply commits_then; [apply commits_blankets|apply commits_credit_distributor].
Qed.

Lemma commits_seller_order b q dn sn su du d :
  commits d (synced sn b (seller_order_db b q dn sn su du d)).
Proof.
  unfold seller_order_db. rewrite synced_set_seller_orders.
  eapply commits_then; [|apply commits_seller_orders].
  eapply commits_then; [apply commits_debit_distributor|apply commits_credit_seller].
Qed.

Lemma commits_customer_order b q sn cn u d :
  commits d (synced sn b (customer_order_db b q sn cn u d)).
Proof.
  unfold customer_order_db. rewrite synced_set_customer_orders.
  eapply commits_then; [apply commits_debit_seller|apply commits_customer_orders].
Qed.

Lemma process_customer_order_commits b q sn cn u t d :
  commits d (committed (snd (seller_service.process_customer_order b q sn cn u t
                               (SessionLocal d)))).
Proof.
  rewrite process_customer_order_spec. cbn [pending committed SessionLocal].
  destruct (seller_inventory_of sn b d) as [r|]; [|apply commits_nothing].
  destruct (SellerInventory.quantity r <? q); [apply commits_nothing|]. cbn zeta.
  destruct t as [provided|]; [destruct (calculated_total b q sn d) as [c|]|];
    try apply commits_customer_order.
  destruct (seller_service.total_value_mismatch provided c);
    [apply commits_nothing|apply commits_customer_order].
Qed.

Lemma updated_product_keeps data x :
  ProductForSale.seller_id (updated_product data x) = ProductForSale.seller_id x
  /\ ProductForSale.blanket_id (updated_product data x) = ProductForSale.blanket_id x
  /\ ProductForSale.quantity (updated_product data x) = ProductForSale.quantity x.
Proof.
  unfold updated_product.
  destruct (ProductForSaleUpdate.price data), (ProductForSaleUpdate.availability data);
    repeat split.
Qed.

Lemma update_blanket_image_spec b image s :
  manufacturer_service.update_blanket_image b image s =
  match blanket_by_id b (pending s) with
  | None => (Ok None, s)
  | Some blanket =>
      let d := set_blankets
                 (Query.update_first (is_blanket b) (Blanket.with_image_url (Some image)))
                 (pending s) in
      (Ok (Some (manufacturer_service.mkBlanketUpdateResult
                   (Blanket.with_image_url (Some image) blanket)
                   (Blanket.image_url blanket))),
       mkSession d d)
  end.
Proof.
  unfold manufacturer_service.update_blanket_image. rewrite bind_query.
  destruct (blanket_by_id b (pending s)) as [blanket|] eqn:Hb; [|reflexivity].
  rewrite bind_mutate, bind_commit. cbn [pending committed].
  rewrite bind_refresh with (r := Blanket.with_image_url (Some image) blanket);
    [reflexivity|].
  cbn [pending]. unfold blanket_by_id in *. cbn [blankets set_blankets].
  rewrite first_update_first by (intros r Hr; exact Hr). now rewrite Hb.
Qed.

(** Every call of the services commits writes of [commits] only. *)
Lemma run_call_commits c d : commits d (run_call c d).
Proof.
  destruct c as [op|data user|sn data|sn i data|sn i|sn b|data user|data u|i status
                |data image|b data image|b image|b data]; cbn [run_call].
  - destruct op as [b q dn u|b q dn sn|b q sn cn u t|b q|data u|data];
      cbn [run_operation]; unfold get_db.
    + rewrite process_distributor_order_spec. cbn [pending SessionLocal].
      destruct (blanket_by_id b d) as [blanket|]; [|apply commits_nothing].
      destruct (Blanket.stock blanket <? q); [apply commits_nothing|].
      apply commits_distributor_order.
    + rewrite process_seller_order_spec. cbn [pending SessionLocal].
      destruct (user_by_username sn d); [|apply commits_nothing].
      destruct (user_by_username dn d); [|apply commits_nothing].
      destruct (distributor_stock_of dn b d) as [r|]; [|apply commits_nothing].
      destruct (DistributorStock.quantity r <? q); [apply commits_nothing|].
      apply commits_seller_order.
    + pose proof (process_customer_order_commits b q sn cn u t d) as H.
      destruct (seller_service.process_customer_order b q sn cn u t (SessionLocal d)).
      exact H.
    + rewrite update_blanket_stock_spec. cbn [pending SessionLocal].
      destruct (blanket_by_id b d); [apply commits_blankets|apply commits_nothing].
    + destruct (update_distributor_stock_spec data u (SessionLocal d)) as (r & -> & _).
      apply commits_put_distributor_stock.
    + destruct (request_stock_from_distributor_spec data (SessionLocal d)) as (r & ->).
      apply commits_credit_seller.
  - unfold get_db. rewrite customer_purchase_spec. cbn [pending SessionLocal]. cbn zeta.
    destruct (listing_of _ _ d) as [p|]; [|apply commits_nothing].
    destruct (AvailabilityStatus_eqb _ _); [apply commits_nothing|].
    destruct (_ <? _); [apply commits_nothing|].
    unfold seller_controller.to_http, bind.
    pose proof (process_customer_order_commits (CustomerPurchase.blanket_id data)
                  (CustomerPurchase.quantity data) (CustomerPurchase.seller_name data)
                  (CustomerPurchase.customer_name data) (Some user)
                  (CustomerPurchase.total_value data) d) as H.
    destruct (seller_service.process_customer_order _ _ _ _ _ _ (SessionLocal d))
      as [[result|[msg|status msg|]] s']; exact H.
  - unfold get_db. rewrite create_product_for_sale_spec. cbn [pending SessionLocal]. cbn zeta.
    destruct (user_by_username sn d) as [seller|] eqn:Hu; [|apply commits_nothing].
    destruct (seller_inventory_of sn _ d) as [inv|] eqn:Hi; [|apply commits_nothing].
    destruct (product_for_sale_of _ _ d) eqn:Hp; [apply commits_nothing|].
    apply (commits_listing sn seller); try assumption; try reflexivity.
    unfold seller_quantity. cbn [ProductForSale.blanket_id]. now rewrite Hi.
  - unfold get_db. rewrite update_product_for_sale_spec. cbn [pending SessionLocal]. cbn zeta.
    destruct (user_by_username sn d) as [seller|]; [|apply commits_nothing].
    destruct (Query.first _ _); [|apply commits_nothing].
    apply commits_listing_update, updated_product_keeps.
  - unfold get_db. rewrite delete_product_for_sale_spec. cbn [pending SessionLocal]. cbn zeta.
    destruct (user_by_username sn d) as [seller|]; [|apply commits_nothing].
    destruct (Query.first _ _); [apply commits_listing_delete|apply commits_nothing].
  - rewrite get_db_sync. apply commits_sync.
  - unfold get_db. rewrite place_order_spec. apply commits_distributor_orders.
  - unfold get_db. rewrite place_customer_order_spec. apply commits_customer_orders.
  - unfold get_db. rewrite update_order_status_spec. cbn [pending SessionLocal].
    destruct (customer_order_by_id i d); [apply commits_customer_orders|apply commits_nothing].
  - unfold get_db. rewrite create_blanket_spec. apply commits_blankets.
  - unfold get_db. rewrite update_blanket_spec. cbn [pending SessionLocal].
    destruct (blanket_by_id b d); [apply commits_blankets|apply commits_nothing].
  - unfold get_db. rewrite update_blanket_image_spec. cbn [pending SessionLocal].
    destruct (blanket_by_id b d); [apply commits_blankets|apply commits_nothing].
  - unfold get_db. rewrite update_production_capacity_spec. cbn [pending SessionLocal].
    destruct (blanket_by_id b d); [apply commits_blankets|apply commits_nothing].
Qed.

Lemma run_calls_commits cs d : commits d (run_calls cs d).
Proof.
  unfold run_calls. revert d.
  induction cs as [|c cs IH]; intros d; cbn [fold_left]; [apply commits_nothing|].
  eapply commits_then; [apply run_call_commits|apply IH].
Qed.

(** * The unique constraints *)

Lemma distributor_key_not_in dn b d :
  distributor_stock_of dn b d = None -> ~ In (dn, b) (distributor_keys d).
Proof.
  intros Hn Hin. apply in_map_iff in Hin as (r & [= Hr1 Hr2] & Hin).
  pose proof (find_none _ _ Hn r Hin) as H. unfold is_distributor_stock in H.
  rewrite Hr1, Hr2, String.eqb_refl, Z.eqb_refl in H. discriminate.
Qed.

Lemma seller_key_not_in sn b d :
  seller_inventory_of sn b d = None -> ~ In (sn, b) (seller_keys d).
Proof.
  intros Hn Hin. apply in_map_iff in Hin as (r & [= Hr1 Hr2] & Hin).
  pose proof (find_none _ _ Hn r Hin) as H. unfold is_seller_inventory in H.
  rewrite Hr1, Hr2, String.eqb_refl, Z.eqb_refl in H. discriminate.
Qed.

Lemma listing_key_not_in i b d :
  product_for_sale_of i b d = None -> ~ In (i, b) (listing_keys d).
Proof.
  intros Hn Hin. apply in_map_iff in Hin as (r & [= Hr1 Hr2] & Hin).
  pose proof (find_none _ _ Hn r Hin) as H. unfold is_product_for_sale in H.
  rewrite Hr1, Hr2, !Z.eqb_refl in H. discriminate.
Qed.

Lemma distributor_keys_credit dn b q d :
  NoDup (distributor_keys d) -> NoDup (distributor_keys (credit_distributor dn b q d)).
Proof.
  intros H. unfold credit_distributor.
  destruct (distributor_stock_of dn b d) eqn:E; unfold distributor_keys;
    cbn [distributor_stock set_distributor_stock].
  - now rewrite map_update_first.
  - apply NoDup_map_add; [exact H|]. now apply distributor_key_not_in.
Qed.

Lemma distributor_keys_put dn b q d :
  NoDup (distributor_keys d) -> NoDup (distributor_keys (put_distributor_stock dn b q d)).
Proof.
  intros H. unfold put_distributor_stock.
  destruct (distributor_stock_of dn b d) eqn:E; unfold distributor_keys;
    cbn [distributor_stock set_distributor_stock].
  - now rewrite map_update_first.
  - apply NoDup_map_add; [exact H|]. now apply distributor_key_not_in.
Qed.

Lemma seller_keys_credit sn b q d :
  NoDup (seller_keys d) -> NoDup (seller_keys (credit_seller sn b q d)).
Proof.
  intros H. unfold credit_seller.
  destruct (seller_inventory_of sn b d) eqn:E; unfold seller_keys;
    cbn [seller_inventory set_seller_inventory].
  - now rewrite map_update_first.
  - apply NoDup_map_add; [exact H|]. now apply seller_key_not_in.
Qed.

Lemma credit_seller_frame sn b q d :
  exists f, credit_seller sn b q d = set_seller_inventory f d.
Proof. rewrite credit_seller_eq. eexists. reflexivity. Qed.

Lemma credit_distributor_frame dn b q d :
  exists f, credit_distributor dn b q d = set_distributor_stock f d.
Proof. rewrite credit_distributor_eq. eexists. reflexivity. Qed.

Lemma put_distributor_stock_frame dn b q d :
  exists f, put_distributor_stock dn b q d = set_distributor_stock f d.
Proof.
  unfold put_distributor_stock.
  destruct (distributor_stock_of dn b d); eexists; reflexivity.
Qed.

Lemma listing_keys_synced sn b d : listing_keys (synced sn b d) = listing_keys d.
Proof.
  unfold synced.
  destruct (user_by_username sn d) as [seller|]; [|reflexivity].
  destruct (seller_inventory_of sn b d); [|reflexivity].
  destruct (product_for_sale_of (User.id seller) b d); [|reflexivity].
  unfold listing_keys. cbn [products_for_sale set_products_for_sale].
  now rewrite map_update_first.
Qed.

Lemma unique_records_synced sn b d : unique_records d -> unique_records (synced sn b d).
Proof.
  unfold unique_records, distributor_keys, seller_keys.
  rewrite synced_distributor_stock, synced_seller_inventory.
  fold (listing_keys (synced sn b d)). now rewrite listing_keys_synced.
Qed.

(** The writes of [commits] keep the unique constraints. *)
Lemma commits_unique_records d d' : commits d d' -> unique_records d -> unique_records d'.
Proof.
  induction 1 as [d|d1 d2 d3 _ IH1 _ IH2|f d|f d|f d|f d|dn b q d|dn b q d|dn b q d
                 |sn b q d|sn b q d|sn b d|sn seller p d Hu Hs Hp Hq|this f d Hf|this d];
    intros (H1 & H2 & H3); try (repeat split; assumption).
  - apply IH2, IH1. now repeat split.
  - destruct (credit_distributor_frame dn b q d) as [f E].
    repeat split; [now apply distributor_keys_credit|rewrite E; assumption..].
  - repeat split; try assumption.
    unfold debit_distributor, distributor_keys.
    cbn [distributor_stock set_distributor_stock]. now rewrite map_update_first.
  - destruct (put_distributor_stock_frame dn b q d) as [f E].
    repeat split; [now apply distributor_keys_put|rewrite E; assumption..].
  - apply unique_records_synced. destruct (credit_seller_frame sn b q d) as [f E].
    repeat split; [rewrite E; assumption|now apply seller_keys_credit
                  |rewrite E; assumption].
  - apply unique_records_synced. repeat split; try assumption.
    unfold debit_seller, seller_keys.
    cbn [seller_inventory set_seller_inventory]. now rewrite map_update_first.
  - apply unique_records_synced. now repeat split.
  - repeat split; try assumption.
    unfold listing_keys. cbn [products_for_sale set_products_for_sale].
    apply NoDup_map_add; [exact H3|]. rewrite Hs. now apply listing_key_not_in.
  - repeat split; try assumption.
    unfold listing_keys. cbn [products_for_sale set_products_for_sale].
    rewrite map_update_first; [exact H3|].
    intros x. destruct (Hf x) as (-> & -> & _). reflexivity.
  - repeat split; try assumption.
    unfold listing_keys. cbn [products_for_sale set_products_for_sale].
    now apply NoDup_map_remove_first.
Qed.

(** X18.  The services keep the unique constraints of the tables without
    the help of the database: after any sequence of calls of the services
    that write, each in a request of its own, no two stock records share a
    distributor and a blanket, no two inventory records share a seller and
    a blanket, and no two listings share a seller and a blanket, when that
    held before.  The calls may fail, and nothing is assumed of their
    arguments. *)
Theorem services_keep_the_unique_constraints cs d :
  unique_records d -> unique_records (run_calls cs d).
Proof. apply commits_unique_records, run_calls_commits. Qed.

Lemma services_keep_the_unique_constraints_witness :
  let cs := [Stock_operation (Process_distributor_order 1 30 "D1" Scenario.D1);
             Stock_operation (Process_seller_order 1 20 "D1" "S1");
             Stock_operation (Process_seller_order 1 5 "D1" "S1");
             Create_product_for_sale "S1" (ProductForSaleCreate.mk 1 5%float None);
             Create_product_for_sale "S1" (ProductForSaleCreate.mk 1 6%float None)] in
  unique_records Scenario.start
  /\ List.length (products_for_sale (run_calls cs Scenario.start)) = 1%nat
  /\ unique_records (run_calls cs Scenario.start).
Proof.
  assert (H : unique_records Scenario.start) by (repeat split; constructor).
  split; [exact H|]. split; [reflexivity|].
  apply services_keep_the_unique_constraints. exact H.
Defined.

(** * Listings and the inventory they mirror *)

Section KeyFacts.
Context {A K : Type}.
Implicit Types (p q : A -> bool) (f : A -> A) (key : A -> K) (rows : list A).

Lemma NoDup_map_inj key rows x y :
  NoDup (map key rows) -> In x rows -> In y rows -> key x = key y -> x = y.
Proof.
  induction rows as [|r rest IH]; simpl; [tauto|].
  intros H. inversion H as [|? ? Hr Hrest]; subst.
  intros [->|Hx] [->|Hy] E; try reflexivity.
  - exfalso. apply Hr. rewrite E. now apply in_map.
  - exfalso. apply Hr. rewrite <- E. now apply in_map.
  - now apply IH.
Qed.

Lemma first_update_first_any p q f rows y :
  (forall r, q (f r) = q r) ->
  Query.first q (Query.update_first p f rows) = Some y ->
  exists x, Query.first q rows = Some x /\ (y = x \/ y = f x).
Proof.
  intros Hq. induction rows as [|r rest IH]; simpl; [discriminate|].
  destruct (p r); simpl.
  - rewrite Hq. destruct (q r).
    + intros [= <-]. exists r. auto.
    + intros H. exists y. auto.
  - destruct (q r).
    + intros [= <-]. exists r. auto.
    + exact IH.
Qed.

Lemma first_remove_first_same key (k : K) p q rows y :
  NoDup (map key rows) ->
  (forall r, q r = true -> key r = k) ->
  Query.first q (Query.remove_first p rows) = Some y ->
  Query.first q rows = Some y.
Proof.
  intros Hn Hk Hy. unfold Query.first in *.
  apply find_some in Hy as [Hin Hqy]. apply in_remove_first in Hin.
  destruct (find q rows) as [x|] eqn:Hx.
  - apply find_some in Hx as [Hinx Hqx]. f_equal.
    apply (NoDup_map_inj key rows); try assumption.
    now rewrite (Hk x Hqx), (Hk y Hqy).
  - pose proof (find_none _ _ Hx y Hin). congruence.
Qed.
End KeyFacts.

(** With unique ids, two names that find users of one id are one name. *)
Lemma user_names_of_one_id n n' u u' d :
  unique_user_ids d ->
  user_by_username n d = Some u -> user_by_username n' d = Some u' ->
  User.id u = User.id u' -> n = n'.
Proof.
  unfold unique_user_ids, user_by_username, Query.first. intros Hn Hu Hu' E.
  apply find_some in Hu as [Hin Hname], Hu' as [Hin' Hname'].
  apply String.eqb_eq in Hname, Hname'.
  assert (u = u') by (apply (NoDup_map_inj User.id (users d)); assumption).
  congruence.
Qed.

Lemma mirror_frame d d' :
  users d' = users d -> seller_inventory d' = seller_inventory d ->
  products_for_sale d' = products_for_sale d ->
  listings_mirror_inventory d -> listings_mirror_inventory d'.
Proof.
  unfold listings_mirror_inventory, listing_of, seller_quantity, user_by_username,
    seller_inventory_of, product_for_sale_of.
  intros -> -> ->. auto.
Qed.

Lemma seller_inventory_of_credit_other sn b q sn' b' d :
  (sn', b') <> (sn, b) ->
  seller_inventory_of sn' b' (credit_seller sn b q d) = seller_inventory_of sn' b' d.
Proof.
  intros Hne.
  assert (Hother : forall r, is_seller_inventory sn b r = true ->
                             is_seller_inventory sn' b' r = false).
  { unfold is_seller_inventory. intros r Hr.
    apply andb_true_iff in Hr as [H1 H2].
    apply String.eqb_eq in H1. apply Z.eqb_eq in H2. rewrite H1, H2.
    apply andb_false_iff.
    destruct (String.eqb_spec sn sn') as [<-|]; [|now left].
    right. apply Z.eqb_neq. intros <-. now apply Hne. }
  unfold credit_seller.
  destruct (seller_inventory_of sn b d); unfold seller_inventory_of;
    cbn [seller_inventory set_seller_inventory].
  - apply first_update_first_other; [reflexivity|exact Hother].
  - rewrite first_add. destruct (Query.first _ _); [reflexivity|].
    rewrite Hother; [reflexivity|].
    unfold is_seller_inventory. cbn. now rewrite String.eqb_refl, Z.eqb_refl.
Qed.

Lemma seller_inventory_of_debit_other sn b q sn' b' d :
  (sn', b') <> (sn, b) ->
  seller_inventory_of sn' b' (debit_seller sn b q d) = seller_inventory_of sn' b' d.
Proof.
  intros Hne. unfold debit_seller, seller_inventory_of.
  cbn [seller_inventory set_seller_inventory].
  apply first_update_first_other; [reflexivity|].
  unfold is_seller_inventory. intros r Hr.
  apply andb_true_iff in Hr as [H1 H2].
  apply String.eqb_eq in H1. apply Z.eqb_eq in H2. rewrite H1, H2.
  apply andb_false_iff.
  destruct (String.eqb_spec sn sn') as [<-|]; [|now left].
  right. apply Z.eqb_neq. intros <-. now apply Hne.
Qed.

Lemma listing_of_synced_other sn b sn' b' d :
  unique_user_ids d -> (sn', b') <> (sn, b) ->
  listing_of sn' b' (synced sn b d) = listing_of sn' b' d.
Proof.
  intros Hids Hne. unfold synced.
  destruct (user_by_username sn d) as [seller|] eqn:Hu; [|reflexivity].
  destruct (seller_inventory_of sn b d); [|reflexivity].
  destruct (product_for_sale_of (User.id seller) b d); [|reflexivity].
  unfold listing_of.
  change (user_by_username sn' (set_products_for_sale ?f d)) with (user_by_username sn' d).
  destruct (user_by_username sn' d) as [u'|] eqn:Hu'; [|reflexivity].
  unfold product_for_sale_of. cbn [products_for_sale set_products_for_sale].
  apply first_update_first_other; [reflexivity|].
  unfold is_product_for_sale. intros r Hr.
  apply andb_true_iff in Hr as [H1 H2].
  apply Z.eqb_eq in H1, H2. rewrite H1, H2.
  apply andb_false_iff.
  destruct (Z.eqb_spec (User.id seller) (User.id u')) as [E|]; [|now left].
  right. apply Z.eqb_neq. intros <-. apply Hne.
  now rewrite (user_names_of_one_id sn sn' seller u' d Hids Hu Hu' E).
Qed.

(** The synchronisation of a pair restores the mirror at the pair, when
    the listings mirror the inventory at every other pair. *)
Lemma mirror_synced sn b d :
  unique_user_ids d ->
  (forall sn' b' p, (sn', b') <> (sn, b) -> listing_of sn' b' d = Some p ->
                    seller_quantity sn' b' d = Some (ProductForSale.quantity p)) ->
  (forall p, listing_of sn b d = Some p -> seller_inventory_of sn b d <> None) ->
  listings_mirror_inventory (synced sn b d).
Proof.
  intros Hids Hoff Hinv sn' b' p' Hl. rewrite synced_seller_quantity.
  assert (Hdec : (sn', b') = (sn, b) \/ (sn', b') <> (sn, b)).
  { destruct (String.eqb_spec sn' sn) as [->|]; [|right; congruence].
    destruct (Z.eq_dec b' b) as [->|]; [now left|right; congruence]. }
  destruct Hdec as [[= -> ->]|Hne].
  - destruct (listing_of sn b d) as [p|] eqn:Hp.
    + destruct (seller_inventory_of sn b d) as [inv|] eqn:Hi;
        [|now destruct (Hinv p eq_refl)].
      rewrite (synced_listing sn b d inv p Hi Hp) in Hl. injection Hl as <-.
      unfold seller_quantity. now rewrite Hi.
    + rewrite synced_without_listing in Hl by assumption. congruence.
  - rewrite listing_of_synced_other in Hl by assumption. now apply Hoff.
Qed.

Lemma mirror_synced_credit sn b q d :
  unique_user_ids d -> listings_mirror_inventory d ->
  listings_mirror_inventory (synced sn b (credit_seller sn b q d)).
Proof.
  intros Hids H. destruct (credit_seller_frame sn b q d) as [f E].
  apply mirror_synced.
  - rewrite E. exact Hids.
  - intros sn' b' p Hne Hl. unfold seller_quantity.
    rewrite seller_inventory_of_credit_other by assumption.
    apply H. rewrite E in Hl. exact Hl.
  - intros p _. now rewrite seller_inventory_of_credit.
Qed.

Lemma mirror_synced_debit sn b q d :
  unique_user_ids d -> listings_mirror_inventory d ->
  listings_mirror_inventory (synced sn b (debit_seller sn b q d)).
Proof.
  intros Hids H. apply mirror_synced.
  - exact Hids.
  - intros sn' b' p Hne Hl. unfold seller_quantity.
    rewrite seller_inventory_of_debit_other by assumption. now apply H.
  - intros p Hl. rewrite seller_inventory_of_debit.
    pose proof (H sn b p Hl) as Hq. unfold seller_quantity in Hq.
    now destruct (seller_inventory_of sn b d).
Qed.

(** The writes of [commits] leave the users alone. *)
Lemma commits_users d d' : commits d d' -> users d' = users d.
Proof.
  induction 1 as [d|d1 d2 d3 _ IH1 _ IH2|f d|f d|f d|f d|dn b q d|dn b q d|dn b q d
                 |sn b q d|sn b q d|sn b d|sn seller p d Hu Hs Hp Hq|this f d Hf|this d];
    try reflexivity.
  - congruence.
  - now destruct (credit_distributor_frame dn b q d) as [f ->].
  - now destruct (put_distributor_stock_frame dn b q d) as [f ->].
  - rewrite synced_users. now destruct (credit_seller_frame sn b q d) as [f ->].
  - now rewrite synced_users.
  - now rewrite synced_users.
Qed.

(** The writes of [commits] keep the listings equal to the inventory. *)
Lemma commits_mirror d d' :
  commits d d' -> unique_user_ids d -> unique_records d ->
  listings_mirror_inventory d -> listings_mirror_inventory d'.
Proof.
  induction 1 as [d|d1 d2 d3 H12 IH1 _ IH2|f d|f d|f d|f d|dn b q d|dn b q d|dn b q d
                 |sn b q d|sn b q d|sn b d|sn seller p d Hu Hs Hp Hq|this f d Hf|this d];
    intros Hids Huniq H; try exact H.
  - apply IH2; [|now apply (commits_unique_records d1)|now apply IH1].
    unfold unique_user_ids. now rewrite (commits_users d1 d2 H12).
  - destruct (credit_distributor_frame dn b q d) as [f ->]. exact H.
  - destruct (put_distributor_stock_frame dn b q d) as [f ->]. exact H.
  - now apply mirror_synced_credit.
  - now apply mirror_synced_debit.
  - apply mirror_synced; [exact Hids|intros; now apply H|].
    intros p Hl. pose proof (H sn b p Hl) as Hq'. unfold seller_quantity in Hq'.
    now destruct (seller_inventory_of sn b d).
  - intros sn' b' p'. unfold listing_of.
    change (user_by_username sn' (set_products_for_sale ?f d)) with (user_by_username sn' d).
    change (seller_quantity sn' b' (set_products_for_sale ?f d))
      with (seller_quantity sn' b' d).
    destruct (user_by_username sn' d) as [u'|] eqn:Hu'; [|discriminate].
    unfold product_for_sale_of. cbn [products_for_sale set_products_for_sale].
    rewrite first_add.
    destruct (Query.first _ (products_for_sale d)) as [x|] eqn:Hx.
    + intros [= <-]. apply H. unfold listing_of. now rewrite Hu'.
    + destruct (is_product_for_sale (User.id u') b' p) eqn:Hk; [|discriminate].
      intros [= <-]. unfold is_product_for_sale in Hk.
      apply andb_true_iff in Hk as [H1 H2]. apply Z.eqb_eq in H1, H2. subst b'.
      assert (sn = sn') as <-; [|exact Hq].
      apply (user_names_of_one_id sn sn' seller u' d Hids Hu Hu'). congruence.
  - intros sn' b' p'. unfold listing_of.
    change (user_by_username sn' (set_products_for_sale ?f d)) with (user_by_username sn' d).
    change (seller_quantity sn' b' (set_products_for_sale ?f d))
      with (seller_quantity sn' b' d).
    destruct (user_by_username sn' d) as [u'|] eqn:Hu'; [|discriminate].
    unfold product_for_sale_of. cbn [products_for_sale set_products_for_sale].
    intros Hl. apply first_update_first_any in Hl as (x & Hx & Hy).
    + assert (Hq : ProductForSale.quantity p' = ProductForSale.quantity x).
      { destruct Hy as [->| ->]; [reflexivity|]. now destruct (Hf x) as (_ & _ & ->). }
      rewrite Hq. apply H. unfold listing_of. now rewrite Hu'.
    + intros r. unfold is_product_for_sale. now destruct (Hf r) as (-> & -> & _).
  - intros sn' b' p'. unfold listing_of.
    change (user_by_username sn' (set_products_for_sale ?f d)) with (user_by_username sn' d).
    change (seller_quantity sn' b' (set_products_for_sale ?f d))
      with (seller_quantity sn' b' d).
    destruct (user_by_username sn' d) as [u'|] eqn:Hu'; [|discriminate].
    unfold product_for_sale_of. cbn [products_for_sale set_products_for_sale].
    intros Hl. apply H. unfold listing_of. rewrite Hu'.
    destruct Huniq as (_ & _ & Hkeys).
    apply (first_remove_first_same
             (fun p => (ProductForSale.seller_id p, ProductForSale.blanket_id p))
             (User.id u', b') this); try assumption.
    unfold is_product_for_sale. intros r Hr.
    apply andb_true_iff in Hr as [H1 H2]. apply Z.eqb_eq in H1, H2. congruence.
Qed.

(** X19.  The quantity of a listing is the quantity of the seller's
    inventory, whatever the services are called with: when no two users
    share an id, the unique constraints hold and every listing that a
    seller name and a blanket find has the quantity of the inventory
    record of that name and blanket, the same holds after any sequence of
    calls of the services that write, each in a request of its own.  So
    the checks of [customer_purchase] against the listing and those of
    [process_customer_order] against the inventory read one quantity. *)
Theorem listings_mirror_inventory_after_calls cs d :
  unique_user_ids d -> unique_records d -> listings_mirror_inventory d ->
  listings_mirror_inventory (run_calls cs d).
Proof. apply commits_mirror, run_calls_commits. Qed.

Lemma listings_mirror_inventory_after_calls_witness :
  let cs := [Stock_operation (Process_distributor_order 1 30 "D1" Scenario.D1);
             Stock_operation (Process_seller_order 1 20 "D1" "S1");
             Create_product_for_sale "S1" (ProductForSaleCreate.mk 1 5%float None);
             Stock_operation (Process_seller_order 1 5 "D1" "S1");
             Customer_purchase (CustomerPurchase.mk "C1" "S1" 1 7 None) Scenario.S1;
             Stock_operation
               (Request_stock_from_distributor (StockRequest.mk "S1" 1 4))] in
  unique_user_ids Scenario.start
  /\ unique_records Scenario.start
  /\ listings_mirror_inventory Scenario.start
  /\ option_map ProductForSale.quantity (listing_of "S1" 1 (run_calls cs Scenario.start))
     = Some 22
  /\ listings_mirror_inventory (run_calls cs Scenario.start).
Proof.
  assert (H1 : unique_user_ids Scenario.start).
  { repeat constructor; simpl; intuition discriminate. }
  assert (H2 : unique_records Scenario.start) by (repeat split; constructor).
  assert (H3 : listings_mirror_inventory Scenario.start).
  { intros sn b p. unfold listing_of.
    destruct (user_by_username sn Scenario.start); discriminate. }
  split; [exact H1|]. split; [exact H2|]. split; [exact H3|]. split; [reflexivity|].
  apply listings_mirror_inventory_after_calls; assumption.
Defined.

Lemma to_http_process_distributor_order {R} b q dn u
    (k : manufacturer_service.DistributorOrderResult -> R) d :
  get_db (seller_controller.to_http
            (result <- manufacturer_service.process_distributor_order b q dn u ;;
             ret (k result))) d
  = match manufacturer_service.process_distributor_order b q dn u (SessionLocal d) with
    | (Ok r, s) => (Ok (k r), committed s)
    | (Raise (ValueError msg), _) => (Raise (HTTPException 400 msg), d)
    | (Raise e, _) => (Raise e, d)
    end.
Proof.
  unfold get_db, seller_controller.to_http, bind.
  rewrite process_distributor_order_spec. cbn [pending SessionLocal].
  destruct (blanket_by_id b d) as [blanket|]; [|reflexivity].
  destruct (Blanket.stock blanket <? q); reflexivity.
Qed.

(** X20. The manufacturer's endpoint [sell_to_distributor] and the
    distributor's endpoint [purchase_from_manufacturer] run the same
    transfer: a purchase is the sale to the authenticated user, with the
    same database after it.  A sale that succeeds reports the stock of the
    manufacturer and of the named distributor as stored, and journals one
    order that carries the id of the authenticated user, whoever the named
    distributor is; a purchase that succeeds reports the stock of the
    authenticated user as stored.  A call that fails answers 400 and leaves
    the database as it was. *)
Theorem manufacturer_transfer_endpoints_agree b q dn user d :
  let sale := get_db (manufacturer_controller.sell_to_distributor b q dn user) d in
  let own := get_db (manufacturer_controller.sell_to_distributor b q
                       (User.username user) user) d in
  let purchase :=
    get_db (distributor_controller.purchase_from_manufacturer
              (PurchaseFromManufacturer.mk b q) user) d in
  snd purchase = snd own
  /\ match fst sale with
     | Ok r =>
         manufacturer_stock b (snd sale)
         = Some (manufacturer_controller.manufacturer_remaining_stock r)
         /\ distributor_quantity dn b (snd sale)
            = Some (manufacturer_controller.distributor_stock r)
         /\ manufacturer_controller.processed_quantity r = q
         /\ distributor_orders (snd sale)
            = Query.add
                (DistributorOrder.mk
                   (Query.next_id DistributorOrder.id (distributor_orders d))
                   (User.id user) b q)
                (distributor_orders d)
     | Raise e => snd sale = d /\ exists msg, e = HTTPException 400 msg
     end
  /\ match fst purchase with
     | Ok r =>
         distributor_quantity (User.username user) b (snd purchase)
         = Some (distributor_controller.remaining_stock r)
         /\ distributor_controller.processed_quantity r = q
     | Raise e => snd purchase = d /\ exists msg, e = HTTPException 400 msg
     end.
Proof.
  cbn zeta.
  unfold manufacturer_controller.sell_to_distributor,
    distributor_controller.purchase_from_manufacturer.
  cbn [PurchaseFromManufacturer.blanket_id PurchaseFromManufacturer.quantity].
  rewrite !to_http_process_distributor_order.
  rewrite !process_distributor_order_spec. cbn [pending SessionLocal].
  destruct (blanket_by_id b d) as [blanket|] eqn:Hb;
    [|repeat split; eexists; reflexivity].
  destruct (Blanket.stock blanket <? q);
    [repeat split; eexists; reflexivity|].
  cbn zeta. cbn [fst snd committed]. split; [reflexivity|].
  cbn [manufacturer_controller.manufacturer_remaining_stock
       manufacturer_controller.distributor_stock
       manufacturer_controller.processed_quantity
       distributor_controller.remaining_stock distributor_controller.processed_quantity
       manufacturer_service.manufacturer_remaining_stock
       manufacturer_service.distributor_stock manufacturer_service.processed_quantity].
  split; [split; [|split; [|split]]|split].
  - unfold manufacturer_stock. now rewrite distributor_order_db_blanket, Hb.
  - apply distributor_order_db_quantity.
  - reflexivity.
  - apply distributor_order_db_orders.
  - apply distributor_order_db_quantity.
  - reflexivity.
Qed.
